(** * Token ledger, subscription lifecycle, payment reconciliation and
      referral cycles of the client-sure backend

    A shallow embedding of the JavaScript sources:
    - utils/enhancedTokenUtils.js: calculateTotalTokens, getTokenBreakdown,
      deductTokens (balance model, deduction engine), addPurchasedTokens,
      grantPrizeTokens, cleanExpiredTokens;
    - utils/referralUtils.js: the referral cycle engine;
    - models/User.js, models/Order.js and models/TokenTransaction.js: the
      schemas, their defaults, setters and validators;
    - services/phonepeService.js: verifyWebhookSignature, parseWebhookData;
    - services/razorpayService.js: verifyPaymentSignature;
    - the PhonePe controller: createSubscriptionPayment, createTokenPayment,
      handleWebhook,
      processWebhook, processSubscriptionWebhook, processTokenWebhook;
    - the Razorpay controller: verifySubscriptionPayment,
      verifyTokenPurchasePayment, createTokenOrder;
    - the checkout controller: createOrder;
    - the generic webhook controller: handleWebhook (payment.success).

    Conventions.  Token amounts and dates are JavaScript numbers that hold
    integers; they are modelled as [Z] (dates are milliseconds since the
    epoch).  A Mongoose document is a record; the collections are finite maps
    from document ids to records, and [save] writes the record back under its
    id.  [new Date()] is the parameter [now] of the function that reads the
    clock.  An [async] function that throws is a function that returns an
    error value and leaves the store as it was before the failed call wrote
    anything.

    A document holds the paths its schema declares: what a handler assigns to
    another path is not stored.  The documents of the store are taken to
    satisfy their schemas; where a handler stores what a request supplies (a
    name, an e-mail address, a provider order id), the setters and the
    validators of the path are modelled, and a refused save is a thrown error.
    The other exceptions modelled are the ones the code raises itself and the
    failures of the payment gateways. *)

From Stdlib Require Import ZArith Bool List Ascii String Lia.
From stdpp Require Import base option gmap strings list pretty.

Local Open Scope Z_scope.

(** ** JavaScript operators on numbers *)

(** [x || d] for a number [x]: the number itself unless it is falsy (zero). *)
Definition or_default (x d : Z) : Z := if x =? 0 then d else x.

(** [Math.ceil (a / b)] for a positive integer divisor. *)
Definition ceil_div (a b : Z) : Z := - ((- a) / b).

(** Milliseconds in a day: [24 * 60 * 60 * 1000]. *)
Definition DAY_MS : Z := 24 * 60 * 60 * 1000.

(** ** Data model *)

(** subscriptionStatus of a referral entry (enum of the User schema). *)
Inductive ReferralStatus := ref_pending | ref_active | ref_expired | ref_cycled.

(** status of an Order or a TokenTransaction. *)
Inductive Status := pending | completed | failed | cancelled | refunded.

(** user.dailyTokens: refreshed every day. *)
Module DailyTokens.
Record t := mk {
  current : Z;
  limit : Z;
  usedToday : Z;
  lastRefreshedAt : option Z
}.
Definition with_current (v : Z) (r : t) : t :=
  mk v (limit r) (usedToday r) (lastRefreshedAt r).
Definition with_usedToday (v : Z) (r : t) : t :=
  mk (current r) (limit r) v (lastRefreshedAt r).
End DailyTokens.

(** user.purchasedTokens: bought through token packages. *)
Module PurchasedTokens.
Record t := mk {
  current : Z;
  total : Z;
  used : Z;
  lastPurchasedAt : option Z;
  expiresAt : option Z
}.
Definition with_current (v : Z) (r : t) : t :=
  mk v (total r) (used r) (lastPurchasedAt r) (expiresAt r).
Definition with_total (v : Z) (r : t) : t :=
  mk (current r) v (used r) (lastPurchasedAt r) (expiresAt r).
Definition with_used (v : Z) (r : t) : t :=
  mk (current r) (total r) v (lastPurchasedAt r) (expiresAt r).
Definition with_lastPurchasedAt (v : option Z) (r : t) : t :=
  mk (current r) (total r) (used r) v (expiresAt r).
End PurchasedTokens.

(** user.bonusTokens: one grant per subscription purchase. *)
Module BonusTokens.
Record t := mk {
  current : Z;
  initial : Z;
  used : Z;
  grantedAt : option Z;
  expiresAt : option Z
}.
Definition with_current (v : Z) (r : t) : t :=
  mk v (initial r) (used r) (grantedAt r) (expiresAt r).
Definition with_used (v : Z) (r : t) : t :=
  mk (current r) (initial r) v (grantedAt r) (expiresAt r).
End BonusTokens.

(** One entry of user.prizeTokens.history. *)
Module PrizeGrant.
Record t := mk {
  amount : Z;
  grantedAt : Z;
  grantedBy : string;
  prizeType : string
}.
End PrizeGrant.

(** user.prizeTokens: contest and referral prizes. *)
Module PrizeTokens.
Record t := mk {
  current : Z;
  used : Z;
  grantedAt : option Z;
  expiresAt : option Z;
  grantedBy : option string;
  prizeType : option string;
  history : list PrizeGrant.t
}.
Definition with_current (v : Z) (r : t) : t :=
  mk v (used r) (grantedAt r) (expiresAt r) (grantedBy r) (prizeType r)
    (history r).
Definition with_used (v : Z) (r : t) : t :=
  mk (current r) v (grantedAt r) (expiresAt r) (grantedBy r) (prizeType r)
    (history r).
End PrizeTokens.

(** user.tokenStats: usage counters. *)
Module TokenStats.
Record t := mk {
  totalUsed : Z;
  dailyUsed : Z;
  purchasedUsed : Z;
  bonusUsed : Z;
  prizeUsed : Z;
  planPeriodUsed : Z
}.
Definition with_totalUsed (v : Z) (r : t) : t :=
  mk v (dailyUsed r) (purchasedUsed r) (bonusUsed r) (prizeUsed r)
    (planPeriodUsed r).
Definition with_dailyUsed (v : Z) (r : t) : t :=
  mk (totalUsed r) v (purchasedUsed r) (bonusUsed r) (prizeUsed r)
    (planPeriodUsed r).
Definition with_purchasedUsed (v : Z) (r : t) : t :=
  mk (totalUsed r) (dailyUsed r) v (bonusUsed r) (prizeUsed r)
    (planPeriodUsed r).
Definition with_bonusUsed (v : Z) (r : t) : t :=
  mk (totalUsed r) (dailyUsed r) (purchasedUsed r) v (prizeUsed r)
    (planPeriodUsed r).
Definition with_prizeUsed (v : Z) (r : t) : t :=
  mk (totalUsed r) (dailyUsed r) (purchasedUsed r) (bonusUsed r) v
    (planPeriodUsed r).
Definition with_planPeriodUsed (v : Z) (r : t) : t :=
  mk (totalUsed r) (dailyUsed r) (purchasedUsed r) (bonusUsed r) (prizeUsed
    r) v.
End TokenStats.

(** user.subscription. Dates are milliseconds since the epoch; an unset date is None. *)
Module Subscription.
Record t := mk {
  planId : option nat;
  startDate : option Z;
  endDate : option Z;
  isActive : bool;
  dailyTokens : Z;
  monthlyAllocation : Z
}.
Definition with_endDate (v : option Z) (r : t) : t :=
  mk (planId r) (startDate r) v (isActive r) (dailyTokens r)
    (monthlyAllocation r).
End Subscription.

(** user.temporaryTokens: the legacy prize slot. *)
Module TemporaryTokens.
Record t := mk {
  amount : Z;
  grantedAt : option Z;
  expiresAt : option Z;
  grantedBy : option string;
  prizeType : option string
}.
End TemporaryTokens.

(** One entry of user.notifications. *)
Module Notification.
Record t := mk {
  type_ : string;
  message : string;
  isRead : bool;
  createdAt : Z
}.
End Notification.

(** user.milestoneRewards: per-milestone cycle counters. *)
Module MilestoneRewards.
Record t := mk {
  referral8Cycles : Z;
  referral8LastReset : option Z;
  referral15Cycles : Z;
  referral15LastReset : option Z;
  referral25Cycles : Z;
  referral25LastReset : option Z;
  totalTokensEarned : Z
}.
Definition with_referral8Cycles (v : Z) (r : t) : t :=
  mk v (referral8LastReset r) (referral15Cycles r) (referral15LastReset r)
    (referral25Cycles r) (referral25LastReset r) (totalTokensEarned r).
Definition with_referral8LastReset (v : option Z) (r : t) : t :=
  mk (referral8Cycles r) v (referral15Cycles r) (referral15LastReset r)
    (referral25Cycles r) (referral25LastReset r) (totalTokensEarned r).
Definition with_referral15Cycles (v : Z) (r : t) : t :=
  mk (referral8Cycles r) (referral8LastReset r) v (referral15LastReset r)
    (referral25Cycles r) (referral25LastReset r) (totalTokensEarned r).
Definition with_referral15LastReset (v : option Z) (r : t) : t :=
  mk (referral8Cycles r) (referral8LastReset r) (referral15Cycles r) v
    (referral25Cycles r) (referral25LastReset r) (totalTokensEarned r).
Definition with_referral25Cycles (v : Z) (r : t) : t :=
  mk (referral8Cycles r) (referral8LastReset r) (referral15Cycles r)
    (referral15LastReset r) v (referral25LastReset r) (totalTokensEarned r).
Definition with_referral25LastReset (v : option Z) (r : t) : t :=
  mk (referral8Cycles r) (referral8LastReset r) (referral15Cycles r)
    (referral15LastReset r) (referral25Cycles r) v (totalTokensEarned r).
Definition with_totalTokensEarned (v : Z) (r : t) : t :=
  mk (referral8Cycles r) (referral8LastReset r) (referral15Cycles r)
    (referral15LastReset r) (referral25Cycles r) (referral25LastReset r) v.
End MilestoneRewards.

(** One entry of user.referrals. *)
Module Referral.
Record t := mk {
  userId : nat;
  joinedAt : Z;
  isActive : bool;
  subscriptionStatus : ReferralStatus
}.
Definition with_isActive (v : bool) (r : t) : t :=
  mk (userId r) (joinedAt r) v (subscriptionStatus r).
Definition with_subscriptionStatus (v : ReferralStatus) (r : t) : t :=
  mk (userId r) (joinedAt r) (isActive r) v.
End Referral.

(** user.referralStats. *)
Module ReferralStats.
Record t := mk {
  totalReferrals : Z;
  activeReferrals : Z;
  totalEarnings : Z
}.
Definition with_totalReferrals (v : Z) (r : t) : t :=
  mk v (activeReferrals r) (totalEarnings r).
Definition with_activeReferrals (v : Z) (r : t) : t :=
  mk (totalReferrals r) v (totalEarnings r).
End ReferralStats.

(** The User document (models/User.js), restricted to the paths the token, subscription and referral engines read or write. *)
Module User.
Record t := mk {
  email : string;
  tokens : Z;
  tokensUsedTotal : Z;
  tokensUsedToday : Z;
  monthlyTokensTotal : Z;
  monthlyTokensUsed : Z;
  monthlyTokensRemaining : Z;
  dailyTokens : DailyTokens.t;
  purchasedTokens : PurchasedTokens.t;
  bonusTokens : BonusTokens.t;
  prizeTokens : PrizeTokens.t;
  tokenStats : option TokenStats.t;
  subscription : Subscription.t;
  temporaryTokens : TemporaryTokens.t;
  notifications : list Notification.t;
  unreadNotificationCount : Z;
  milestoneRewards : option MilestoneRewards.t;
  referralCode : option string;
  referredBy : option nat;
  referrals : list Referral.t;
  referralStats : ReferralStats.t
}.
Definition with_tokens (v : Z) (r : t) : t :=
  mk (email r) v (tokensUsedTotal r) (tokensUsedToday r) (monthlyTokensTotal
    r) (monthlyTokensUsed r) (monthlyTokensRemaining r) (dailyTokens r)
    (purchasedTokens r) (bonusTokens r) (prizeTokens r) (tokenStats r)
    (subscription r) (temporaryTokens r) (notifications r)
    (unreadNotificationCount r) (milestoneRewards r) (referralCode r)
    (referredBy r) (referrals r) (referralStats r).
Definition with_tokensUsedTotal (v : Z) (r : t) : t :=
  mk (email r) (tokens r) v (tokensUsedToday r) (monthlyTokensTotal r)
    (monthlyTokensUsed r) (monthlyTokensRemaining r) (dailyTokens r)
    (purchasedTokens r) (bonusTokens r) (prizeTokens r) (tokenStats r)
    (subscription r) (temporaryTokens r) (notifications r)
    (unreadNotificationCount r) (milestoneRewards r) (referralCode r)
    (referredBy r) (referrals r) (referralStats r).
Definition with_tokensUsedToday (v : Z) (r : t) : t :=
  mk (email r) (tokens r) (tokensUsedTotal r) v (monthlyTokensTotal r)
    (monthlyTokensUsed r) (monthlyTokensRemaining r) (dailyTokens r)
    (purchasedTokens r) (bonusTokens r) (prizeTokens r) (tokenStats r)
    (subscription r) (temporaryTokens r) (notifications r)
    (unreadNotificationCount r) (milestoneRewards r) (referralCode r)
    (referredBy r) (referrals r) (referralStats r).
Definition with_monthlyTokensTotal (v : Z) (r : t) : t :=
  mk (email r) (tokens r) (tokensUsedTotal r) (tokensUsedToday r) v
    (monthlyTokensUsed r) (monthlyTokensRemaining r) (dailyTokens r)
    (purchasedTokens r) (bonusTokens r) (prizeTokens r) (tokenStats r)
    (subscription r) (temporaryTokens r) (notifications r)
    (unreadNotificationCount r) (milestoneRewards r) (referralCode r)
    (referredBy r) (referrals r) (referralStats r).
Definition with_monthlyTokensUsed (v : Z) (r : t) : t :=
  mk (email r) (tokens r) (tokensUsedTotal r) (tokensUsedToday r)
    (monthlyTokensTotal r) v (monthlyTokensRemaining r) (dailyTokens r)
    (purchasedTokens r) (bonusTokens r) (prizeTokens r) (tokenStats r)
    (subscription r) (temporaryTokens r) (notifications r)
    (unreadNotificationCount r) (milestoneRewards r) (referralCode r)
    (referredBy r) (referrals r) (referralStats r).
Definition with_monthlyTokensRemaining (v : Z) (r : t) : t :=
  mk (email r) (tokens r) (tokensUsedTotal r) (tokensUsedToday r)
    (monthlyTokensTotal r) (monthlyTokensUsed r) v (dailyTokens r)
    (purchasedTokens r) (bonusTokens r) (prizeTokens r) (tokenStats r)
    (subscription r) (temporaryTokens r) (notifications r)
    (unreadNotificationCount r) (milestoneRewards r) (referralCode r)
    (referredBy r) (referrals r) (referralStats r).
Definition with_dailyTokens (v : DailyTokens.t) (r : t) : t :=
  mk (email r) (tokens r) (tokensUsedTotal r) (tokensUsedToday r)
    (monthlyTokensTotal r) (monthlyTokensUsed r) (monthlyTokensRemaining r) v
    (purchasedTokens r) (bonusTokens r) (prizeTokens r) (tokenStats r)
    (subscription r) (temporaryTokens r) (notifications r)
    (unreadNotificationCount r) (milestoneRewards r) (referralCode r)
    (referredBy r) (referrals r) (referralStats r).
Definition with_purchasedTokens (v : PurchasedTokens.t) (r : t) : t :=
  mk (email r) (tokens r) (tokensUsedTotal r) (tokensUsedToday r)
    (monthlyTokensTotal r) (monthlyTokensUsed r) (monthlyTokensRemaining r)
    (dailyTokens r) v (bonusTokens r) (prizeTokens r) (tokenStats r)
    (subscription r) (temporaryTokens r) (notifications r)
    (unreadNotificationCount r) (milestoneRewards r) (referralCode r)
    (referredBy r) (referrals r) (referralStats r).
Definition with_bonusTokens (v : BonusTokens.t) (r : t) : t :=
  mk (email r) (tokens r) (tokensUsedTotal r) (tokensUsedToday r)
    (monthlyTokensTotal r) (monthlyTokensUsed r) (monthlyTokensRemaining r)
    (dailyTokens r) (purchasedTokens r) v (prizeTokens r) (tokenStats r)
    (subscription r) (temporaryTokens r) (notifications r)
    (unreadNotificationCount r) (milestoneRewards r) (referralCode r)
    (referredBy r) (referrals r) (referralStats r).
Definition with_prizeTokens (v : PrizeTokens.t) (r : t) : t :=
  mk (email r) (tokens r) (tokensUsedTotal r) (tokensUsedToday r)
    (monthlyTokensTotal r) (monthlyTokensUsed r) (monthlyTokensRemaining r)
    (dailyTokens r) (purchasedTokens r) (bonusTokens r) v (tokenStats r)
    (subscription r) (temporaryTokens r) (notifications r)
    (unreadNotificationCount r) (milestoneRewards r) (referralCode r)
    (referredBy r) (referrals r) (referralStats r).
Definition with_tokenStats (v : option TokenStats.t) (r : t) : t :=
  mk (email r) (tokens r) (tokensUsedTotal r) (tokensUsedToday r)
    (monthlyTokensTotal r) (monthlyTokensUsed r) (monthlyTokensRemaining r)
    (dailyTokens r) (purchasedTokens r) (bonusTokens r) (prizeTokens r) v
    (subscription r) (temporaryTokens r) (notifications r)
    (unreadNotificationCount r) (milestoneRewards r) (referralCode r)
    (referredBy r) (referrals r) (referralStats r).
Definition with_subscription (v : Subscription.t) (r : t) : t :=
  mk (email r) (tokens r) (tokensUsedTotal r) (tokensUsedToday r)
    (monthlyTokensTotal r) (monthlyTokensUsed r) (monthlyTokensRemaining r)
    (dailyTokens r) (purchasedTokens r) (bonusTokens r) (prizeTokens r)
    (tokenStats r) v (temporaryTokens r) (notifications r)
    (unreadNotificationCount r) (milestoneRewards r) (referralCode r)
    (referredBy r) (referrals r) (referralStats r).
Definition with_temporaryTokens (v : TemporaryTokens.t) (r : t) : t :=
  mk (email r) (tokens r) (tokensUsedTotal r) (tokensUsedToday r)
    (monthlyTokensTotal r) (monthlyTokensUsed r) (monthlyTokensRemaining r)
    (dailyTokens r) (purchasedTokens r) (bonusTokens r) (prizeTokens r)
    (tokenStats r) (subscription r) v (notifications r)
    (unreadNotificationCount r) (milestoneRewards r) (referralCode r)
    (referredBy r) (referrals r) (referralStats r).
Definition with_notifications (v : list Notification.t) (r : t) : t :=
  mk (email r) (tokens r) (tokensUsedTotal r) (tokensUsedToday r)
    (monthlyTokensTotal r) (monthlyTokensUsed r) (monthlyTokensRemaining r)
    (dailyTokens r) (purchasedTokens r) (bonusTokens r) (prizeTokens r)
    (tokenStats r) (subscription r) (temporaryTokens r) v
    (unreadNotificationCount r) (milestoneRewards r) (referralCode r)
    (referredBy r) (referrals r) (referralStats r).
Definition with_unreadNotificationCount (v : Z) (r : t) : t :=
  mk (email r) (tokens r) (tokensUsedTotal r) (tokensUsedToday r)
    (monthlyTokensTotal r) (monthlyTokensUsed r) (monthlyTokensRemaining r)
    (dailyTokens r) (purchasedTokens r) (bonusTokens r) (prizeTokens r)
    (tokenStats r) (subscription r) (temporaryTokens r) (notifications r) v
    (milestoneRewards r) (referralCode r) (referredBy r) (referrals r)
    (referralStats r).
Definition with_milestoneRewards (v : option MilestoneRewards.t) (r : t) : t :=
  mk (email r) (tokens r) (tokensUsedTotal r) (tokensUsedToday r)
    (monthlyTokensTotal r) (monthlyTokensUsed r) (monthlyTokensRemaining r)
    (dailyTokens r) (purchasedTokens r) (bonusTokens r) (prizeTokens r)
    (tokenStats r) (subscription r) (temporaryTokens r) (notifications r)
    (unreadNotificationCount r) v (referralCode r) (referredBy r) (referrals
    r) (referralStats r).
Definition with_referralCode (v : option string) (r : t) : t :=
  mk (email r) (tokens r) (tokensUsedTotal r) (tokensUsedToday r)
    (monthlyTokensTotal r) (monthlyTokensUsed r) (monthlyTokensRemaining r)
    (dailyTokens r) (purchasedTokens r) (bonusTokens r) (prizeTokens r)
    (tokenStats r) (subscription r) (temporaryTokens r) (notifications r)
    (unreadNotificationCount r) (milestoneRewards r) v (referredBy r)
    (referrals r) (referralStats r).
Definition with_referredBy (v : option nat) (r : t) : t :=
  mk (email r) (tokens r) (tokensUsedTotal r) (tokensUsedToday r)
    (monthlyTokensTotal r) (monthlyTokensUsed r) (monthlyTokensRemaining r)
    (dailyTokens r) (purchasedTokens r) (bonusTokens r) (prizeTokens r)
    (tokenStats r) (subscription r) (temporaryTokens r) (notifications r)
    (unreadNotificationCount r) (milestoneRewards r) (referralCode r) v
    (referrals r) (referralStats r).
Definition with_referrals (v : list Referral.t) (r : t) : t :=
  mk (email r) (tokens r) (tokensUsedTotal r) (tokensUsedToday r)
    (monthlyTokensTotal r) (monthlyTokensUsed r) (monthlyTokensRemaining r)
    (dailyTokens r) (purchasedTokens r) (bonusTokens r) (prizeTokens r)
    (tokenStats r) (subscription r) (temporaryTokens r) (notifications r)
    (unreadNotificationCount r) (milestoneRewards r) (referralCode r)
    (referredBy r) v (referralStats r).
Definition with_referralStats (v : ReferralStats.t) (r : t) : t :=
  mk (email r) (tokens r) (tokensUsedTotal r) (tokensUsedToday r)
    (monthlyTokensTotal r) (monthlyTokensUsed r) (monthlyTokensRemaining r)
    (dailyTokens r) (purchasedTokens r) (bonusTokens r) (prizeTokens r)
    (tokenStats r) (subscription r) (temporaryTokens r) (notifications r)
    (unreadNotificationCount r) (milestoneRewards r) (referralCode r)
    (referredBy r) (referrals r) v.
End User.

(** A Plan document as the payment handlers read it. *)
Module Plan.
Record t := mk {
  price : Z;
  durationDays : Z;
  dailyTokens : Z;
  bonusTokens : Z
}.
End Plan.

(** A TokenPackage document. *)
Module TokenPackage.
Record t := mk {
  tokens : Z;
  price : Z
}.
End TokenPackage.

(** An Order document (models/Order.js), with the paths of its schema the payment handlers read and write. The handlers keep two status paths, status and paymentStatus. The schema declares neither paymentId nor paymentSignature: what a handler assigns to them is never stored. *)
Module Order.
Record t := mk {
  clientOrderId : string;
  userEmail : string;
  userName : string;
  planId : nat;
  userId : option nat;
  amount : Z;
  status : Status;
  paymentStatus : Status;
  referralCode : option string;
  providerOrderId : string;
  merchantOrderId : option string;
  phonePeOrderId : option string;
  phonePeTransactionId : option string;
  completedAt : option Z;
  failureReason : option string
}.
Definition with_userId (v : option nat) (r : t) : t :=
  mk (clientOrderId r) (userEmail r) (userName r) (planId r) v (amount r)
    (status r) (paymentStatus r) (referralCode r) (providerOrderId r)
    (merchantOrderId r) (phonePeOrderId r) (phonePeTransactionId r)
    (completedAt r) (failureReason r).
Definition with_status (v : Status) (r : t) : t :=
  mk (clientOrderId r) (userEmail r) (userName r) (planId r) (userId r)
    (amount r) v (paymentStatus r) (referralCode r) (providerOrderId r)
    (merchantOrderId r) (phonePeOrderId r) (phonePeTransactionId r)
    (completedAt r) (failureReason r).
Definition with_paymentStatus (v : Status) (r : t) : t :=
  mk (clientOrderId r) (userEmail r) (userName r) (planId r) (userId r)
    (amount r) (status r) v (referralCode r) (providerOrderId r)
    (merchantOrderId r) (phonePeOrderId r) (phonePeTransactionId r)
    (completedAt r) (failureReason r).
Definition with_providerOrderId (v : string) (r : t) : t :=
  mk (clientOrderId r) (userEmail r) (userName r) (planId r) (userId r)
    (amount r) (status r) (paymentStatus r) (referralCode r) v
    (merchantOrderId r) (phonePeOrderId r) (phonePeTransactionId r)
    (completedAt r) (failureReason r).
Definition with_merchantOrderId (v : option string) (r : t) : t :=
  mk (clientOrderId r) (userEmail r) (userName r) (planId r) (userId r)
    (amount r) (status r) (paymentStatus r) (referralCode r) (providerOrderId
    r) v (phonePeOrderId r) (phonePeTransactionId r) (completedAt r)
    (failureReason r).
Definition with_phonePeTransactionId (v : option string) (r : t) : t :=
  mk (clientOrderId r) (userEmail r) (userName r) (planId r) (userId r)
    (amount r) (status r) (paymentStatus r) (referralCode r) (providerOrderId
    r) (merchantOrderId r) (phonePeOrderId r) v (completedAt r)
    (failureReason r).
Definition with_completedAt (v : option Z) (r : t) : t :=
  mk (clientOrderId r) (userEmail r) (userName r) (planId r) (userId r)
    (amount r) (status r) (paymentStatus r) (referralCode r) (providerOrderId
    r) (merchantOrderId r) (phonePeOrderId r) (phonePeTransactionId r) v
    (failureReason r).
Definition with_failureReason (v : option string) (r : t) : t :=
  mk (clientOrderId r) (userEmail r) (userName r) (planId r) (userId r)
    (amount r) (status r) (paymentStatus r) (referralCode r) (providerOrderId
    r) (merchantOrderId r) (phonePeOrderId r) (phonePeTransactionId r)
    (completedAt r) v.
End Order.

(** A TokenTransaction document (models/TokenTransaction.js). The schema declares neither providerOrderId nor a top-level paymentId or paymentSignature: what a handler assigns to them is never stored. *)
Module TokenTransaction.
Record t := mk {
  userId : nat;
  packageId : nat;
  transactionId : option string;
  tokens : Z;
  amount : Z;
  status : Status;
  merchantOrderId : option string;
  phonePeOrderId : option string;
  phonePeTransactionId : option string;
  completedAt : option Z;
  failureReason : option string
}.
Definition with_status (v : Status) (r : t) : t :=
  mk (userId r) (packageId r) (transactionId r) (tokens r) (amount r) v
    (merchantOrderId r) (phonePeOrderId r) (phonePeTransactionId r)
    (completedAt r) (failureReason r).
Definition with_merchantOrderId (v : option string) (r : t) : t :=
  mk (userId r) (packageId r) (transactionId r) (tokens r) (amount r) (status
    r) v (phonePeOrderId r) (phonePeTransactionId r) (completedAt r)
    (failureReason r).
Definition with_phonePeOrderId (v : option string) (r : t) : t :=
  mk (userId r) (packageId r) (transactionId r) (tokens r) (amount r) (status
    r) (merchantOrderId r) v (phonePeTransactionId r) (completedAt r)
    (failureReason r).
Definition with_phonePeTransactionId (v : option string) (r : t) : t :=
  mk (userId r) (packageId r) (transactionId r) (tokens r) (amount r) (status
    r) (merchantOrderId r) (phonePeOrderId r) v (completedAt r)
    (failureReason r).
Definition with_completedAt (v : option Z) (r : t) : t :=
  mk (userId r) (packageId r) (transactionId r) (tokens r) (amount r) (status
    r) (merchantOrderId r) (phonePeOrderId r) (phonePeTransactionId r) v
    (failureReason r).
Definition with_failureReason (v : option string) (r : t) : t :=
  mk (userId r) (packageId r) (transactionId r) (tokens r) (amount r) (status
    r) (merchantOrderId r) (phonePeOrderId r) (phonePeTransactionId r)
    (completedAt r) v.
End TokenTransaction.

(** The collections of the database, keyed by document id.  [nextId] is the
    id the next created document receives. *)
Record Db := mkDb {
  users : gmap nat User.t;
  orders : gmap nat Order.t;
  transactions : gmap nat TokenTransaction.t;
  plans : gmap nat Plan.t;
  packages : gmap nat TokenPackage.t;
  nextId : nat
}.

Definition with_users (v : gmap nat User.t) (db : Db) : Db :=
  mkDb v (orders db) (transactions db) (plans db) (packages db) (nextId db).
Definition with_orders (v : gmap nat Order.t) (db : Db) : Db :=
  mkDb (users db) v (transactions db) (plans db) (packages db) (nextId db).
Definition with_transactions (v : gmap nat TokenTransaction.t) (db : Db) : Db :=
  mkDb (users db) (orders db) v (plans db) (packages db) (nextId db).
Definition with_nextId (v : nat) (db : Db) : Db :=
  mkDb (users db) (orders db) (transactions db) (plans db) (packages db) v.

(** [await user.save()] *)
Definition saveUser (id : nat) (user : User.t) (db : Db) : Db :=
  with_users (<[id := user]> (users db)) db.

(** ** utils/enhancedTokenUtils.js *)

(** The guard [!user.subscription?.endDate || user.subscription.endDate < now]
    shared by calculateTotalTokens, deductTokens, addPurchasedTokens,
    grantPrizeTokens and cleanExpiredTokens. *)
Definition subscriptionExpired (now : Z) (user : User.t) : bool :=
  match Subscription.endDate (User.subscription user) with
  | None => true
  | Some endDate => endDate <? now
  end.

Definition calculateTotalTokens (now : Z) (user : User.t) : Z :=
  if subscriptionExpired now user then 0
  else
    let total := 0 in
    let total := total + or_default (DailyTokens.current (User.dailyTokens user)) 0 in
    let total := total + or_default (PurchasedTokens.current (User.purchasedTokens user)) 0 in
    let total := total + or_default (BonusTokens.current (User.bonusTokens user)) 0 in
    let total := total + or_default (PrizeTokens.current (User.prizeTokens user)) 0 in
    total.

(** The object getTokenBreakdown returns. *)
Module Breakdown.
Record daily_t := mkDaily {
  d_current : Z; d_limit : Z; d_usedToday : Z; d_lastRefreshedAt : option Z }.
Record purchased_t := mkPurchased {
  p_current : Z; p_total : Z; p_used : Z; p_lastPurchasedAt : option Z }.
Record bonus_t := mkBonus {
  b_current : Z; b_initial : Z; b_used : Z; b_grantedAt : option Z }.
Record prize_t := mkPrize {
  z_current : Z; z_used : Z; z_grantedBy : option string;
  z_prizeType : option string; z_history : list PrizeGrant.t }.
Record planExpiry_t := mkPlanExpiry {
  isActive : bool; endDate : option Z; daysRemaining : Z }.
Record t := mk {
  daily : daily_t;
  purchased : purchased_t;
  bonus : bonus_t;
  prize : prize_t;
  total : Z;
  planExpiry : planExpiry_t
}.
End Breakdown.

Definition getTokenBreakdown (now : Z) (user : User.t) : Breakdown.t :=
  let planActive :=
    match Subscription.endDate (User.subscription user) with
    | None => false
    | Some endDate => now <? endDate
    end in
  let daysRemaining :=
    if planActive
    then match Subscription.endDate (User.subscription user) with
         | Some endDate => ceil_div (endDate - now) (1000 * 60 * 60 * 24)
         | None => 0
         end
    else 0 in
  Breakdown.mk
    (Breakdown.mkDaily
       (if planActive then or_default (DailyTokens.current (User.dailyTokens user)) 0 else 0)
       (or_default (DailyTokens.limit (User.dailyTokens user)) 100)
       (or_default (DailyTokens.usedToday (User.dailyTokens user)) 0)
       (DailyTokens.lastRefreshedAt (User.dailyTokens user)))
    (Breakdown.mkPurchased
       (if planActive then or_default (PurchasedTokens.current (User.purchasedTokens user)) 0 else 0)
       (or_default (PurchasedTokens.total (User.purchasedTokens user)) 0)
       (or_default (PurchasedTokens.used (User.purchasedTokens user)) 0)
       (PurchasedTokens.lastPurchasedAt (User.purchasedTokens user)))
    (Breakdown.mkBonus
       (if planActive then or_default (BonusTokens.current (User.bonusTokens user)) 0 else 0)
       (or_default (BonusTokens.initial (User.bonusTokens user)) 0)
       (or_default (BonusTokens.used (User.bonusTokens user)) 0)
       (BonusTokens.grantedAt (User.bonusTokens user)))
    (Breakdown.mkPrize
       (if planActive then or_default (PrizeTokens.current (User.prizeTokens user)) 0 else 0)
       (or_default (PrizeTokens.used (User.prizeTokens user)) 0)
       (PrizeTokens.grantedBy (User.prizeTokens user))
       (PrizeTokens.prizeType (User.prizeTokens user))
       (PrizeTokens.history (User.prizeTokens user)))
    (if planActive then calculateTotalTokens now user else 0)
    (Breakdown.mkPlanExpiry planActive
       (Subscription.endDate (User.subscription user)) daysRemaining).

(** The errors deductTokens throws:
    - "User not found"
    - "Subscription expired. Please renew to access resources."
    - "Insufficient tokens. Required: <required>, Available: <available>" *)
Inductive DeductError :=
| UserNotFound
| SubscriptionExpired
| InsufficientTokens (required available : Z).

(** deductionBreakdown *)
Module Deduction.
Record t := mk { daily : Z; purchased : Z; bonus : Z; prize : Z }.
Definition with_daily (v : Z) (r : t) : t := mk v (purchased r) (bonus r) (prize r).
Definition with_purchased (v : Z) (r : t) : t := mk (daily r) v (bonus r) (prize r).
Definition with_bonus (v : Z) (r : t) : t := mk (daily r) (purchased r) v (prize r).
Definition with_prize (v : Z) (r : t) : t := mk (daily r) (purchased r) (bonus r) v.
End Deduction.

(** The value deductTokens resolves to. *)
Record DeductResult := mkDeductResult {
  success : bool;
  tokensDeducted : Z;
  breakdown : Deduction.t;
  remaining : Breakdown.t;
  reason : string
}.

(** The local variables the four deduction steps share. *)
Record DeductState := mkDeductState {
  ds_user : User.t;
  ds_breakdown : Deduction.t;
  ds_remaining : Z
}.

(** Step 1: Deduct from Daily Tokens *)
Definition deductFromDailyStep (s : DeductState) : DeductState :=
  let user := ds_user s in
  let remaining := ds_remaining s in
  if (0 <? remaining) && (0 <? DailyTokens.current (User.dailyTokens user)) then
    let deductFromDaily := Z.min remaining (DailyTokens.current (User.dailyTokens user)) in
    let user := User.with_dailyTokens
      (DailyTokens.with_current
         (DailyTokens.current (User.dailyTokens user) - deductFromDaily)
         (User.dailyTokens user)) user in
    let user := User.with_dailyTokens
      (DailyTokens.with_usedToday
         (DailyTokens.usedToday (User.dailyTokens user) + deductFromDaily)
         (User.dailyTokens user)) user in
    mkDeductState user
      (Deduction.with_daily deductFromDaily (ds_breakdown s))
      (remaining - deductFromDaily)
  else s.

(** Step 2: Deduct from Purchased Tokens *)
Definition deductFromPurchasedStep (s : DeductState) : DeductState :=
  let user := ds_user s in
  let remaining := ds_remaining s in
  if (0 <? remaining) && (0 <? PurchasedTokens.current (User.purchasedTokens user)) then
    let deductFromPurchased :=
      Z.min remaining (PurchasedTokens.current (User.purchasedTokens user)) in
    let user := User.with_purchasedTokens
      (PurchasedTokens.with_current
         (PurchasedTokens.current (User.purchasedTokens user) - deductFromPurchased)
         (User.purchasedTokens user)) user in
    let user := User.with_purchasedTokens
      (PurchasedTokens.with_used
         (PurchasedTokens.used (User.purchasedTokens user) + deductFromPurchased)
         (User.purchasedTokens user)) user in
    mkDeductState user
      (Deduction.with_purchased deductFromPurchased (ds_breakdown s))
      (remaining - deductFromPurchased)
  else s.

(** Step 3: Deduct from Bonus Tokens *)
Definition deductFromBonusStep (s : DeductState) : DeductState :=
  let user := ds_user s in
  let remaining := ds_remaining s in
  if (0 <? remaining) && (0 <? BonusTokens.current (User.bonusTokens user)) then
    let deductFromBonus := Z.min remaining (BonusTokens.current (User.bonusTokens user)) in
    let user := User.with_bonusTokens
      (BonusTokens.with_current
         (BonusTokens.current (User.bonusTokens user) - deductFromBonus)
         (User.bonusTokens user)) user in
    let user := User.with_bonusTokens
      (BonusTokens.with_used
         (BonusTokens.used (User.bonusTokens user) + deductFromBonus)
         (User.bonusTokens user)) user in
    mkDeductState user
      (Deduction.with_bonus deductFromBonus (ds_breakdown s))
      (remaining - deductFromBonus)
  else s.

(** Step 4: Deduct from Prize Tokens *)
Definition deductFromPrizeStep (s : DeductState) : DeductState :=
  let user := ds_user s in
  let remaining := ds_remaining s in
  if (0 <? remaining) && (0 <? PrizeTokens.current (User.prizeTokens user)) then
    let deductFromPrize := Z.min remaining (PrizeTokens.current (User.prizeTokens user)) in
    let user := User.with_prizeTokens
      (PrizeTokens.with_current
         (PrizeTokens.current (User.prizeTokens user) - deductFromPrize)
         (User.prizeTokens user)) user in
    let user := User.with_prizeTokens
      (PrizeTokens.with_used
         (PrizeTokens.used (User.prizeTokens user) + deductFromPrize)
         (User.prizeTokens user)) user in
    mkDeductState user
      (Deduction.with_prize deductFromPrize (ds_breakdown s))
      (remaining - deductFromPrize)
  else s.

(** "Update statistics" and the legacy fields, up to [user.tokens = ...]. *)
Definition updateStatistics (now : Z) (tokensToDeduct : Z)
    (deductionBreakdown : Deduction.t) (user : User.t) : User.t :=
  let stats :=
    match User.tokenStats user with
    | None => TokenStats.mk 0 0 0 0 0 0
    | Some stats => stats
    end in
  let stats := TokenStats.with_totalUsed (TokenStats.totalUsed stats + tokensToDeduct) stats in
  let stats := TokenStats.with_dailyUsed
    (TokenStats.dailyUsed stats + Deduction.daily deductionBreakdown) stats in
  let stats := TokenStats.with_purchasedUsed
    (TokenStats.purchasedUsed stats + Deduction.purchased deductionBreakdown) stats in
  let stats := TokenStats.with_bonusUsed
    (TokenStats.bonusUsed stats + Deduction.bonus deductionBreakdown) stats in
  let stats := TokenStats.with_prizeUsed
    (TokenStats.prizeUsed stats + Deduction.prize deductionBreakdown) stats in
  let stats := TokenStats.with_planPeriodUsed
    (TokenStats.planPeriodUsed stats + tokensToDeduct) stats in
  let user := User.with_tokenStats (Some stats) user in
  let user := User.with_tokensUsedTotal (TokenStats.totalUsed stats) user in
  let user := User.with_tokensUsedToday (DailyTokens.usedToday (User.dailyTokens user)) user in
  let user := User.with_monthlyTokensUsed
    (or_default (User.monthlyTokensUsed user) 0 + tokensToDeduct) user in
  let user :=
    if 0 <? User.monthlyTokensRemaining user
    then User.with_monthlyTokensRemaining
           (Z.max 0 (User.monthlyTokensRemaining user - tokensToDeduct)) user
    else user in
  User.with_tokens (calculateTotalTokens now user) user.

(** Deduct tokens with priority: Daily, Purchased, Bonus, Prize. *)
Definition deductTokens (now : Z) (userId : nat) (tokensToDeduct : Z)
    (reason : string) (db : Db) : Db * (DeductError + DeductResult) :=
  match users db !! userId with
  | None => (db, inl UserNotFound)
  | Some user =>
    if subscriptionExpired now user then (db, inl SubscriptionExpired)
    else
      let availableTokens := calculateTotalTokens now user in
      if availableTokens <? tokensToDeduct
      then (db, inl (InsufficientTokens tokensToDeduct availableTokens))
      else
        let s := mkDeductState user (Deduction.mk 0 0 0 0) tokensToDeduct in
        let s := deductFromDailyStep s in
        let s := deductFromPurchasedStep s in
        let s := deductFromBonusStep s in
        let s := deductFromPrizeStep s in
        let deductionBreakdown := ds_breakdown s in
        let user := updateStatistics now tokensToDeduct deductionBreakdown (ds_user s) in
        (saveUser userId user db,
         inr (mkDeductResult true tokensToDeduct deductionBreakdown
                (getTokenBreakdown now user) reason))
  end.

(** The document [new User({ email })] holds before any path is assigned:
    the defaults of the User schema.  [Date.now] defaults read the clock. *)
Definition schemaDefaults (now : Z) (email : string) : User.t :=
  User.mk email 0 0 0 0 0 0
    (DailyTokens.mk 0 100 0 (Some now))
    (PurchasedTokens.mk 0 0 0 None None)
    (BonusTokens.mk 0 0 0 None None)
    (PrizeTokens.mk 0 0 None None None None [])
    (Some (TokenStats.mk 0 0 0 0 0 0))
    (Subscription.mk None None None true 100 0)
    (TemporaryTokens.mk 0 None None None None)
    [] 0
    (Some (MilestoneRewards.mk 0 None 0 None 0 None 0))
    None None []
    (ReferralStats.mk 0 0 0).

(** An empty database. *)
Definition emptyDb : Db := mkDb ∅ ∅ ∅ ∅ ∅ 1%nat.

(** ** utils/referralUtils.js *)

(** [s.toUpperCase()] on the ASCII letters. *)
Definition upperAscii (c : ascii) : ascii :=
  let n := Ascii.nat_of_ascii c in
  if (Nat.leb 97 n && Nat.leb n 122)%bool then Ascii.ascii_of_nat (n - 32) else c.

Fixpoint toUpperCase (s : string) : string :=
  match s with
  | EmptyString => EmptyString
  | String c rest => String (upperAscii c) (toUpperCase rest)
  end.

(** [Model.findOne(filter)]: a document that passes the filter, the first
    one met when the collection is listed.  The paths the handlers search
    (email, referralCode, clientOrderId, providerOrderId) are unique in the
    schemas. *)
Definition findOne {A} (filter : A -> bool) (collection : gmap nat A) : option (nat * A) :=
  List.find (fun entry => filter (snd entry)) (map_to_list collection).

(** validateReferralCode: the referrer holding the code whose subscription
    has not ended ([$gte: new Date()]). *)
Definition validateReferralCode (now : Z) (referralCode : option string) (db : Db)
    : option (nat * User.t) :=
  match referralCode with
  | None => None
  | Some code =>
    if String.eqb code "" then None
    else
      findOne
        (fun user =>
           match User.referralCode user, Subscription.endDate (User.subscription user) with
           | Some c, Some endDate => String.eqb c (toUpperCase code) && (now <=? endDate)
           | _, _ => false
           end)
        (users db)
  end.

(** updateReferralStats *)
Definition updateReferralStats (referrerId : nat) (db : Db) : Db :=
  match users db !! referrerId with
  | None => db
  | Some user =>
    let totalReferrals := Z.of_nat (length (User.referrals user)) in
    let activeReferrals :=
      Z.of_nat (length (List.filter Referral.isActive (User.referrals user))) in
    let user := User.with_referralStats
      (ReferralStats.with_totalReferrals totalReferrals (User.referralStats user)) user in
    let user := User.with_referralStats
      (ReferralStats.with_activeReferrals activeReferrals (User.referralStats user)) user in
    saveUser referrerId user db
  end.

(** The paths of milestoneRewards a milestone names in [cycleField] and
    [resetField]. *)
Inductive CycleField := referral8Cycles | referral15Cycles | referral25Cycles.
Inductive ResetField := referral8LastReset | referral15LastReset | referral25LastReset.

Record Milestone := mkMilestone {
  target : Z;
  reward : Z;
  cycleField : CycleField;
  resetField : ResetField
}.

(** Milestone configuration - Cycle Based (Repeatable), in the order
    [Object.entries] yields it. *)
Definition REFERRAL_MILESTONES : list (string * Milestone) :=
  [ ("referral_8", mkMilestone 8 300 referral8Cycles referral8LastReset);
    ("referral_15", mkMilestone 15 500 referral15Cycles referral15LastReset);
    ("referral_25", mkMilestone 25 1000 referral25Cycles referral25LastReset) ].

(** [milestoneRewards[field]] *)
Definition getCycles (field : CycleField) (m : MilestoneRewards.t) : Z :=
  match field with
  | referral8Cycles => MilestoneRewards.referral8Cycles m
  | referral15Cycles => MilestoneRewards.referral15Cycles m
  | referral25Cycles => MilestoneRewards.referral25Cycles m
  end.

(** [milestoneRewards[field] = v] *)
Definition setCycles (field : CycleField) (v : Z) (m : MilestoneRewards.t)
    : MilestoneRewards.t :=
  match field with
  | referral8Cycles => MilestoneRewards.with_referral8Cycles v m
  | referral15Cycles => MilestoneRewards.with_referral15Cycles v m
  | referral25Cycles => MilestoneRewards.with_referral25Cycles v m
  end.

Definition setLastReset (field : ResetField) (v : Z) (m : MilestoneRewards.t)
    : MilestoneRewards.t :=
  match field with
  | referral8LastReset => MilestoneRewards.with_referral8LastReset (Some v) m
  | referral15LastReset => MilestoneRewards.with_referral15LastReset (Some v) m
  | referral25LastReset => MilestoneRewards.with_referral25LastReset (Some v) m
  end.

(** [user.milestoneRewards?.[field] || 0] *)
Definition cyclesCompleted (field : CycleField) (user : User.t) : Z :=
  match User.milestoneRewards user with
  | None => 0
  | Some m => or_default (getCycles field m) 0
  end.

(** The body of [user.referrals.forEach]: an active entry goes inactive and
    is marked cycled. *)
Definition cycleReferral (referral : Referral.t) : Referral.t :=
  if Referral.isActive referral
  then Referral.with_subscriptionStatus ref_cycled
         (Referral.with_isActive false referral)
  else referral.

(** Grant milestone reward and reset progress for next cycle.  [user] is the
    document checkReferralMilestones loaded under [userId].  The text of the
    notification is the source's without its leading emoji. *)
Definition grantMilestoneRewardAndReset (now : Z) (userId : nat) (user : User.t)
    (milestoneType : string) (milestone : Milestone) (db : Db) : Db :=
  let expiresAt := now + 24 * 60 * 60 * 1000 in
  let currentCycle := cyclesCompleted (cycleField milestone) user + 1 in
  let user := User.with_temporaryTokens
    (TemporaryTokens.mk (reward milestone) (Some now) (Some expiresAt)
       (Some "system")
       (Some (milestoneType +:+ "_cycle_" +:+ pretty currentCycle))) user in
  let rewards :=
    match User.milestoneRewards user with
    | None => MilestoneRewards.mk 0 None 0 None 0 None 0
    | Some m => m
    end in
  let rewards := setCycles (cycleField milestone) currentCycle rewards in
  let rewards := setLastReset (resetField milestone) now rewards in
  let rewards := MilestoneRewards.with_totalTokensEarned
    (MilestoneRewards.totalTokensEarned rewards + reward milestone) rewards in
  let user := User.with_milestoneRewards (Some rewards) user in
  let user := User.with_referralStats
    (ReferralStats.with_activeReferrals 0 (User.referralStats user)) user in
  let user := User.with_referrals (List.map cycleReferral (User.referrals user)) user in
  let user := User.with_notifications
    (User.notifications user ++
     [Notification.mk "milestone_reward"
        ("Cycle " +:+ pretty currentCycle +:+ " Complete! You've earned "
         +:+ pretty (reward milestone) +:+ " bonus tokens for "
         +:+ pretty (target milestone)
         +:+ " referrals! Progress reset - start your next cycle now!")
        false now]) user in
  let user := User.with_unreadNotificationCount
    (User.unreadNotificationCount user + 1) user in
  saveUser userId user db.

(** The [for ... of Object.entries(REFERRAL_MILESTONES)] loop with its
    [break]. *)
Fixpoint checkMilestoneEntries (now : Z) (userId : nat) (user : User.t)
    (activeReferrals : Z) (entries : list (string * Milestone)) (db : Db) : Db :=
  match entries with
  | [] => db
  | (milestoneKey, milestone) :: rest =>
    if target milestone <=? activeReferrals
    then grantMilestoneRewardAndReset now userId user milestoneKey milestone db
    else checkMilestoneEntries now userId user activeReferrals rest db
  end.

(** Check and grant milestone rewards - Cycle Based *)
Definition checkReferralMilestones (now : Z) (referrerId : nat) (db : Db) : Db :=
  match users db !! referrerId with
  | None => db
  | Some user =>
    let activeReferrals := ReferralStats.activeReferrals (User.referralStats user) in
    checkMilestoneEntries now referrerId user activeReferrals REFERRAL_MILESTONES db
  end.

(** The positional update [referrals.$]: the first entry of the array whose
    userId matches. *)
Fixpoint activateFirstMatch (referredUserId : nat) (referrals : list Referral.t)
    : option (list Referral.t) :=
  match referrals with
  | [] => None
  | referral :: rest =>
    if Nat.eqb (Referral.userId referral) referredUserId
    then Some (Referral.with_subscriptionStatus ref_active
                 (Referral.with_isActive true referral) :: rest)
    else match activateFirstMatch referredUserId rest with
         | Some rest' => Some (referral :: rest')
         | None => None
         end
  end.

(** Process referral on successful payment *)
Definition processReferralReward (now : Z) (referredUserId referrerId : nat) (db : Db)
    : Db :=
  let db :=
    match users db !! referrerId with
    | None => db
    | Some referrer =>
      match activateFirstMatch referredUserId (User.referrals referrer) with
      | None => db
      | Some referrals => saveUser referrerId (User.with_referrals referrals referrer) db
      end
    end in
  let db := updateReferralStats referrerId db in
  checkReferralMilestones now referrerId db.

(** ** Environment and HTTP responses *)

(** The process environment and the two digests of Node's crypto module the
    handlers call.  The digests are parameters: the handlers only compare
    their results. *)
Record Env := mkEnv {
  (** [crypto.createHash('sha256').update(x).digest('base64')] *)
  sha256Base64 : string -> string;
  (** [crypto.createHmac('sha256', key).update(x).digest('hex')] *)
  hmacSha256Hex : string -> string -> string;
  PHONEPE_WEBHOOK_USERNAME : string;
  PHONEPE_WEBHOOK_PASSWORD : string;
  RAZORPAY_KEY_SECRET : string;
  NODE_ENV : string;
  WEBHOOK_SECRET : option string
}.

(** What a handler sends: the status code and the [success], [message] and
    [error] members of the JSON body. *)
Record Response := mkResponse {
  statusCode : Z;
  bodySuccess : option bool;
  bodyMessage : option string;
  bodyError : option string
}.

(** ** services/phonepeService.js and the PhonePe controller *)

Module PhonePe.

(** Verify PhonePe webhook signature.
    PhonePe sends: Authorization: SHA256 <base64(SHA256(username:password))>.
    The header starts with "SHA256 " when [replace] runs, so [replace] drops
    these seven characters. *)
Definition verifyWebhookSignature (env : Env) (authHeader : option string) : bool :=
  match authHeader with
  | None => false
  | Some authHeader =>
    if negb (String.prefix "SHA256 " authHeader) then false
    else
      let receivedHash := String.substring 7 (String.length authHeader - 7) authHeader in
      let credentials :=
        PHONEPE_WEBHOOK_USERNAME env +:+ ":" +:+ PHONEPE_WEBHOOK_PASSWORD env in
      let expectedHash := sha256Base64 env credentials in
      String.eqb receivedHash expectedHash
  end.

(** The webhook body PhonePe posts.  [udf1] carries the id of the local
    Order or TokenTransaction, [udf2] the payment type. *)
Record MetaInfo := mkMetaInfo { udf1 : option nat; udf2 : option string }.

Record Payload := mkPayload {
  p_merchantOrderId : option string;
  p_state : string;
  p_metaInfo : option MetaInfo;
  p_transactionId : option string;
  p_errorMessage : option string
}.

Record WebhookBody := mkWebhookBody {
  b_event : option string;
  b_payload : option Payload
}.

(** The normalized structure parseWebhookData returns. *)
Record WebhookData := mkWebhookData {
  event : string;
  merchantOrderId : option string;
  state : string;
  metaInfo : MetaInfo;
  transactionId : option string;
  errorMessage : option string
}.

(** Parse and validate webhook payload; [None] when it throws
    'Invalid webhook payload structure'. *)
Definition parseWebhookData (webhookData : WebhookBody) : option WebhookData :=
  match b_event webhookData, b_payload webhookData with
  | Some event, Some payload =>
    if String.eqb event "" then None
    else Some (mkWebhookData event (p_merchantOrderId payload) (p_state payload)
                 (match p_metaInfo payload with
                  | Some m => m
                  | None => mkMetaInfo None None
                  end)
                 (p_transactionId payload) (p_errorMessage payload))
  | _, _ => None
  end.

(** The subscription an activation writes: [user.subscription = {...}]. *)
Definition activatedSubscription (now : Z) (planId : nat) (plan : Plan.t) : Subscription.t :=
  let startDate := now in
  let endDate := startDate + Plan.durationDays plan * 24 * 60 * 60 * 1000 in
  let monthlyAllocation := Plan.durationDays plan * Plan.dailyTokens plan in
  Subscription.mk (Some planId) (Some startDate) (Some endDate) true
    (Plan.dailyTokens plan) monthlyAllocation.

(** Process subscription payment webhook.  [None] is a thrown error (the
    populated plan is missing), which leaves the database as it was. *)
Definition processSubscriptionWebhook (now : Z) (webhookData : WebhookData) (db : Db)
    : option Db :=
  match udf1 (metaInfo webhookData) ≫= (fun orderId =>
          (fun order => (orderId, order)) <$> orders db !! orderId) with
  | None => Some db
  | Some (orderId, order) =>
    if String.eqb (state webhookData) "COMPLETED" then
      let order := Order.with_paymentStatus completed order in
      let order := Order.with_phonePeTransactionId (transactionId webhookData) order in
      let order := Order.with_completedAt (Some now) order in
      let activated :=
        match Order.userId order with
        | None => Some db
        | Some userId =>
          match users db !! userId with
          | None => Some db
          | Some user =>
            match plans db !! Order.planId order with
            | None => None
            | Some plan =>
              let monthlyAllocation := Plan.durationDays plan * Plan.dailyTokens plan in
              let user := User.with_subscription
                (activatedSubscription now (Order.planId order) plan) user in
              let user := User.with_tokens (Plan.dailyTokens plan) user in
              let user := User.with_monthlyTokensTotal monthlyAllocation user in
              let user := User.with_monthlyTokensRemaining monthlyAllocation user in
              Some (saveUser userId user db)
            end
          end
        end in
      match activated with
      | None => None
      | Some db => Some (with_orders (<[orderId := order]> (orders db)) db)
      end
    else if String.eqb (state webhookData) "FAILED" then
      let order := Order.with_paymentStatus failed order in
      let order := Order.with_failureReason
        (Some (match errorMessage webhookData with
               | Some m => if String.eqb m "" then "Payment failed" else m
               | None => "Payment failed"
               end)) order in
      Some (with_orders (<[orderId := order]> (orders db)) db)
    else Some db
  end.

(** Process token purchase webhook. *)
Definition processTokenWebhook (now : Z) (webhookData : WebhookData) (db : Db)
    : option Db :=
  match udf1 (metaInfo webhookData) ≫= (fun id =>
          (fun transaction => (id, transaction)) <$> transactions db !! id) with
  | None => Some db
  | Some (id, transaction) =>
    if String.eqb (state webhookData) "COMPLETED" then
      let transaction := TokenTransaction.with_status completed transaction in
      let transaction := TokenTransaction.with_phonePeTransactionId
        (transactionId webhookData) transaction in
      let transaction := TokenTransaction.with_completedAt (Some now) transaction in
      let db :=
        match users db !! TokenTransaction.userId transaction with
        | None => db
        | Some user =>
          let user := User.with_tokens
            (User.tokens user + TokenTransaction.tokens transaction) user in
          saveUser (TokenTransaction.userId transaction) user db
        end in
      Some (with_transactions (<[id := transaction]> (transactions db)) db)
    else if String.eqb (state webhookData) "FAILED" then
      let transaction := TokenTransaction.with_status failed transaction in
      let transaction := TokenTransaction.with_failureReason
        (Some (match errorMessage webhookData with
               | Some m => if String.eqb m "" then "Payment failed" else m
               | None => "Payment failed"
               end)) transaction in
      Some (with_transactions (<[id := transaction]> (transactions db)) db)
    else Some db
  end.

(** Process webhook data asynchronously: route on [metaInfo.udf2]. *)
Definition processWebhook (now : Z) (webhookData : WebhookData) (db : Db) : option Db :=
  match udf2 (metaInfo webhookData) with
  | Some paymentType =>
    if String.eqb paymentType "subscription"
    then processSubscriptionWebhook now webhookData db
    else if String.eqb paymentType "token_purchase"
    then processTokenWebhook now webhookData db
    else Some db
  | None => Some db
  end.

(** Handle PhonePe webhook, POST /api/phonepe/webhook.  The response is sent
    before processWebhook runs; the database returned is the one
    processWebhook leaves, and a rejection of its promise is only logged. *)
Definition handleWebhook (env : Env) (now : Z) (authHeader : option string)
    (body : WebhookBody) (db : Db) : Db * Response :=
  let isValid := verifyWebhookSignature env authHeader in
  if negb isValid
  then (db, mkResponse 401 (Some false) None (Some "Invalid signature"))
  else
    match parseWebhookData body with
    | None => (db, mkResponse 200 (Some false) None (Some "Webhook processing failed"))
    | Some webhookData =>
      let response := mkResponse 200 (Some true) None None in
      match processWebhook now webhookData db with
      | Some db' => (db', response)
      | None => (db, response)
      end
    end.

(** Create payment order for token purchase,
    POST /api/phonepe/create-token-payment.  [merchantOrderId] is the id
    generateMerchantOrderId draws; [gateway] is what phonepeService.createPayment
    does: it resolves to the PhonePe order id ([inr]) or throws an error with a
    message ([inl]). *)
Definition createTokenPayment (now : Z) (merchantOrderId : string)
    (gateway : string + string) (packageId userId : option nat) (db : Db)
    : Db * Response :=
  match packageId, userId with
  | Some packageId, Some userId =>
    match packages db !! packageId with
    | None => (db, mkResponse 404 (Some false) None (Some "Token package not found"))
    | Some tokenPackage =>
      match users db !! userId with
      | None => (db, mkResponse 404 (Some false) None (Some "User not found"))
      | Some user =>
        let tokenTransaction :=
          TokenTransaction.mk userId packageId None (TokenPackage.tokens tokenPackage)
            (TokenPackage.price tokenPackage) pending None None None None None in
        let id := nextId db in
        let db := with_nextId (S id) db in
        let db := with_transactions (<[id := tokenTransaction]> (transactions db)) db in
        match gateway with
        | inl errorMessage =>
          (db, mkResponse 500 (Some false) None
                 (Some (if String.eqb errorMessage "" then "Failed to create payment"
                        else errorMessage)))
        | inr phonePeOrderId =>
          let tokenTransaction :=
            TokenTransaction.with_merchantOrderId (Some merchantOrderId) tokenTransaction in
          let tokenTransaction :=
            TokenTransaction.with_phonePeOrderId (Some phonePeOrderId) tokenTransaction in
          (with_transactions (<[id := tokenTransaction]> (transactions db)) db,
           mkResponse 200 (Some true) None None)
        end
      end
    end
  | _, _ =>
    (db, mkResponse 400 (Some false) None
           (Some "Missing required fields: packageId, userId"))
  end.

End PhonePe.

(** ** services/razorpayService.js and the Razorpay controller *)

(** [s.toLowerCase()] on the ASCII letters. *)
Definition lowerAscii (c : ascii) : ascii :=
  let n := Ascii.nat_of_ascii c in
  if (Nat.leb 65 n && Nat.leb n 90)%bool then Ascii.ascii_of_nat (n + 32) else c.

Fixpoint toLowerCase (s : string) : string :=
  match s with
  | EmptyString => EmptyString
  | String c rest => String (lowerAscii c) (toLowerCase rest)
  end.

(** [User.findOne({ email })] *)
Definition findUserByEmail (email : string) (db : Db) : option (nat * User.t) :=
  findOne (fun user => String.eqb (User.email user) email) (users db).

(** The bonus bucket an activation writes:
    [{ current: plan.bonusTokens || 0, initial: plan.bonusTokens || 0, used: 0,
       grantedAt: plan.bonusTokens > 0 ? new Date() : null }]. *)
Definition grantedBonus (now : Z) (plan : Plan.t) : BonusTokens.t :=
  BonusTokens.mk (or_default (Plan.bonusTokens plan) 0)
    (or_default (Plan.bonusTokens plan) 0) 0
    (if 0 <? Plan.bonusTokens plan then Some now else None) None.

(** The unique index of Order.providerOrderId: another document of the
    collection holds the value. *)
Definition providerOrderIdTaken (orderId : nat) (providerOrderId : string) (db : Db)
    : bool :=
  existsb
    (fun entry =>
       negb (Nat.eqb (fst entry) orderId)
       && String.eqb (Order.providerOrderId (snd entry)) providerOrderId)
    (map_to_list (orders db)).

(** [await order.save()] (or [Order.create]) of a document whose
    providerOrderId the handler has assigned from the request.  The path is
    required and unique: an empty value fails validation and a value another
    order holds fails the unique index; the save then throws ([None]) and
    writes nothing. *)
Definition saveOrder (orderId : nat) (order : Order.t) (db : Db) : option Db :=
  if String.eqb (Order.providerOrderId order) ""
     || providerOrderIdTaken orderId (Order.providerOrderId order) db
  then None
  else Some (with_orders (<[orderId := order]> (orders db)) db).

(** The repository holds two revisions of this controller.  The one embedded
    here grants the plan's bonus tokens and calls processReferralReward; the
    other one does neither (it calls updateReferralStats for the referrer of a
    new user) and its verifyTokenPurchasePayment only adds to [user.tokens].
    The signature checks and the "Already processed" guards are the same in
    both. *)
Module Razorpay.

(** Verify Razorpay payment signature *)
Definition verifyPaymentSignature (env : Env) (orderId paymentId signature : string)
    : bool :=
  let text := orderId +:+ "|" +:+ paymentId in
  let generated_signature := hmacSha256Hex env (RAZORPAY_KEY_SECRET env) text in
  String.eqb generated_signature signature.

(** The body of the two verification requests; [localId] is [orderId], or
    [transactionId] for a token purchase. *)
Record VerifyRequest := mkVerifyRequest {
  razorpay_order_id : string;
  razorpay_payment_id : string;
  razorpay_signature : string;
  localId : option nat
}.

(** "Re-apply subscription update for existing users/renewals" and "Grant
    bonus tokens from plan". *)
Definition applySubscription (now : Z) (planId : nat) (plan : Plan.t) (user : User.t)
    : User.t :=
  let monthlyAllocation := Plan.durationDays plan * Plan.dailyTokens plan in
  let user := User.with_subscription (PhonePe.activatedSubscription now planId plan) user in
  let user := User.with_tokens (Plan.dailyTokens plan) user in
  let user := User.with_monthlyTokensTotal monthlyAllocation user in
  let user := User.with_monthlyTokensRemaining monthlyAllocation user in
  User.with_bonusTokens (grantedBonus now plan) user.

(** [new User({...})] of the "New User Creation Logic". *)
Definition newUser (now : Z) (email newReferralCode : string) (referredBy : option nat)
    (planId : nat) (plan : Plan.t) : User.t :=
  let monthlyAllocation := Plan.durationDays plan * Plan.dailyTokens plan in
  let user := schemaDefaults now (toLowerCase email) in
  let user := User.with_tokens (Plan.dailyTokens plan) user in
  let user := User.with_tokensUsedTotal 0 user in
  let user := User.with_monthlyTokensTotal monthlyAllocation user in
  let user := User.with_monthlyTokensUsed 0 user in
  let user := User.with_monthlyTokensRemaining monthlyAllocation user in
  let user := User.with_bonusTokens (grantedBonus now plan) user in
  let user := User.with_referralCode (Some newReferralCode) user in
  let user := User.with_referredBy referredBy user in
  let user := User.with_referralStats (ReferralStats.mk 0 0 0) user in
  User.with_subscription (PhonePe.activatedSubscription now planId plan) user.

(** What the handler holds after "Activate subscription": the user document
    and its id (if any), the order and the database. *)
Record Located := mkLocated {
  l_user : option (nat * User.t);
  l_order : Order.t;
  l_db : Db
}.

(** The [if (order.userId) ... else ...] block.  [None] is a thrown
    TypeError (the populated plan is missing where it is read).
    [newReferralCode] is the code the generateReferralCode loop settles on. *)
Definition locateUser (now : Z) (newReferralCode : string) (order : Order.t) (db : Db)
    : option Located :=
  match Order.userId order with
  | Some userId =>
    Some (mkLocated ((fun user => (userId, user)) <$> users db !! userId) order db)
  | None =>
    let email := Order.userEmail order in
    match findUserByEmail (toLowerCase email) db with
    | Some (userId, user) =>
      Some (mkLocated (Some (userId, user)) (Order.with_userId (Some userId) order) db)
    | None =>
      let referrer := validateReferralCode now (Order.referralCode order) db in
      match plans db !! Order.planId order with
      | None => None
      | Some plan =>
        let user := newUser now email newReferralCode (fst <$> referrer)
                      (Order.planId order) plan in
        let userId := nextId db in
        let db := saveUser userId user (with_nextId (S userId) db) in
        let order := Order.with_userId (Some userId) order in
        let db :=
          match referrer with
          | None => db
          | Some (referrerId, referrer) =>
            let referrer := User.with_referrals
              (User.referrals referrer ++ [Referral.mk userId now false ref_active])
              referrer in
            let db := saveUser referrerId referrer db in
            processReferralReward now userId referrerId db
          end in
        Some (mkLocated (Some (userId, user)) order db)
      end
    end
  end.

(** Verify Subscription Payment, POST /api/razorpay/verify-subscription.
    After its first save a document is no longer [isNew], so the re-apply
    block runs for every located user.  [order.paymentId] and
    [order.paymentSignature] are no paths of the Order schema and are not
    stored.  [order.save()] runs after the account is written; when it throws
    (see [saveOrder]) the handler answers 500 and the account keeps what was
    written.  The session and [lastLogin] writes at the end touch no path of
    this model. *)
Definition verifySubscriptionPayment (env : Env) (now : Z) (newReferralCode : string)
    (req : VerifyRequest) (db : Db) : Db * Response :=
  let isValid := verifyPaymentSignature env (razorpay_order_id req)
                   (razorpay_payment_id req) (razorpay_signature req) in
  if negb isValid
  then (db, mkResponse 400 (Some false) None (Some "Invalid payment signature"))
  else
    match localId req ≫= (fun orderId =>
            (fun order => (orderId, order)) <$> orders db !! orderId) with
    | None => (db, mkResponse 404 (Some false) None (Some "Order not found"))
    | Some (orderId, order) =>
      match Order.paymentStatus order with
      | completed => (db, mkResponse 200 (Some true) (Some "Already processed") None)
      | _ =>
        let failure := mkResponse 500 (Some false) None (Some "Verification failed") in
        let order := Order.with_paymentStatus completed order in
        let order := Order.with_providerOrderId (razorpay_order_id req) order in
        let order := Order.with_completedAt (Some now) order in
        match locateUser now newReferralCode order db with
        | None => (db, failure)
        | Some (mkLocated None order db') =>
          match saveOrder orderId order db' with
          | Some db'' => (db'', failure)
          | None => (db', failure)
          end
        | Some (mkLocated (Some (userId, user)) order db') =>
          match plans db' !! Order.planId order with
          | None => (db', failure)
          | Some plan =>
            let user := applySubscription now (Order.planId order) plan user in
            let db' := saveUser userId user db' in
            let db' :=
              match User.referredBy user with
              | Some referrerId => processReferralReward now userId referrerId db'
              | None => db'
              end in
            match saveOrder orderId order db' with
            | Some db'' =>
              (db'', mkResponse 200 (Some true)
                       (Some "Payment verified and subscription activated") None)
            | None => (db', failure)
            end
          end
        end
      end
    end.

(** Verify Token Purchase Payment, POST /api/razorpay/verify-token-purchase.
    [transaction.providerOrderId], [transaction.paymentId] and
    [transaction.paymentSignature] are no paths of the TokenTransaction schema
    and are not stored. *)
Definition verifyTokenPurchasePayment (env : Env) (now : Z) (req : VerifyRequest)
    (db : Db) : Db * Response :=
  let isValid := verifyPaymentSignature env (razorpay_order_id req)
                   (razorpay_payment_id req) (razorpay_signature req) in
  if negb isValid
  then (db, mkResponse 400 (Some false) None (Some "Invalid signature"))
  else
    match localId req ≫= (fun id =>
            (fun transaction => (id, transaction)) <$> transactions db !! id) with
    | None => (db, mkResponse 404 (Some false) None (Some "Transaction not found"))
    | Some (id, transaction) =>
      match TokenTransaction.status transaction with
      | completed => (db, mkResponse 200 (Some true) (Some "Already processed") None)
      | _ =>
        let transaction := TokenTransaction.with_status completed transaction in
        let transaction := TokenTransaction.with_completedAt (Some now) transaction in
        let db :=
          match users db !! TokenTransaction.userId transaction with
          | None => db
          | Some user =>
            let user := User.with_tokens
              (or_default (User.tokens user) 0 + TokenTransaction.tokens transaction)
              user in
            let user := User.with_purchasedTokens
              (PurchasedTokens.with_current
                 (or_default (PurchasedTokens.current (User.purchasedTokens user)) 0
                  + TokenTransaction.tokens transaction)
                 (User.purchasedTokens user)) user in
            let user := User.with_purchasedTokens
              (PurchasedTokens.with_total
                 (or_default (PurchasedTokens.total (User.purchasedTokens user)) 0
                  + TokenTransaction.tokens transaction)
                 (User.purchasedTokens user)) user in
            let user := User.with_purchasedTokens
              (PurchasedTokens.with_lastPurchasedAt (Some now)
                 (User.purchasedTokens user)) user in
            saveUser (TokenTransaction.userId transaction) user db
          end in
        (with_transactions (<[id := transaction]> (transactions db)) db,
         mkResponse 200 (Some true) (Some "Payment verified and tokens added") None)
      end
    end.

(** Create Token Purchase Order, POST /api/razorpay/create-token-order.
    [transactionId] is the "TKN_..." string the handler draws; [gateway] is
    what razorpayService.createOrder does: it resolves to an order with an id
    ([inr]) or throws ([inl]).  The id is assigned to
    [transaction.providerOrderId], which is no path of the schema: the second
    save stores the document as the first one did. *)
Definition createTokenOrder (now : Z) (transactionId : string)
    (gateway : string + string) (packageId userId : option nat) (db : Db)
    : Db * Response :=
  match packageId ≫= (fun id => (fun p => (id, p)) <$> packages db !! id) with
  | None => (db, mkResponse 404 None None (Some "Package not found"))
  | Some (packageId, tokenPackage) =>
    match userId ≫= (fun id => (fun u => (id, u)) <$> users db !! id) with
    | None => (db, mkResponse 404 None None (Some "User not found"))
    | Some (userId, user) =>
      let transaction :=
        TokenTransaction.mk userId packageId (Some transactionId)
          (TokenPackage.tokens tokenPackage) (TokenPackage.price tokenPackage)
          pending None None None None None in
      let id := nextId db in
      let db := with_nextId (S id) db in
      let db := with_transactions (<[id := transaction]> (transactions db)) db in
      match gateway with
      | inl _ => (db, mkResponse 500 (Some false) None (Some "Failed to create order"))
      | inr razorpayOrderId =>
        (with_transactions (<[id := transaction]> (transactions db)) db,
         mkResponse 200 (Some true) None None)
      end
    end
  end.

End Razorpay.
(** ** The checkout controller: createOrder *)

(** A missing or empty string is falsy. *)
Definition truthy (s : option string) : option string :=
  match s with
  | Some s => if String.eqb s "" then None else Some s
  | None => None
  end.

(** *** Strings as the regular expression and [trim] see them

    A JavaScript string is a sequence of UTF-16 code units.  The strings of
    this model hold code units below 256, one per character. *)
Definition codeUnits (s : string) : list N :=
  Ascii.N_of_ascii <$> list_ascii_of_string s.

(** WhiteSpace and LineTerminator of ECMAScript, by code unit: what [\s]
    matches and what [trim] strips.  TAB to CR, SPACE, NBSP, U+1680,
    U+2000 to U+200A, U+2028, U+2029, U+202F, U+205F, U+3000, U+FEFF. *)
Definition isWhiteSpace (c : N) : bool :=
  ((9 <=? c) && (c <=? 13) || (c =? 32) || (c =? 160) || (c =? 5760)
   || (8192 <=? c) && (c <=? 8202) || (c =? 8232) || (c =? 8233) || (c =? 8239)
   || (c =? 8287) || (c =? 12288) || (c =? 65279))%N.

(** [s.trimStart()], [s.trimEnd()] and [s.trim()] *)
Fixpoint trimStart (s : string) : string :=
  match s with
  | EmptyString => EmptyString
  | String c rest => if isWhiteSpace (Ascii.N_of_ascii c) then trimStart rest else s
  end.

Fixpoint trimEnd (s : string) : string :=
  match s with
  | EmptyString => EmptyString
  | String c rest =>
    match trimEnd rest with
    | EmptyString =>
      if isWhiteSpace (Ascii.N_of_ascii c) then EmptyString else String c EmptyString
    | String d rest' => String c (String d rest')
    end
  end.

Definition trim (s : string) : string := trimEnd (trimStart s).

Module Payment.

(** The class [[^\s@]] of the e-mail pattern. *)
Definition plainChar (c : N) : bool := negb (isWhiteSpace c || (c =? 64)%N).

Definition allPlain (s : list N) : bool := forallb plainChar s.

(** [s] holds a dot that is neither its first nor its last code unit: with
    [allPlain s], [s] matches [[^\s@]+\.[^\s@]+]. *)
Fixpoint hasInnerDot (s : list N) : bool :=
  match s with
  | [] => false
  | _ :: rest =>
    match rest with
    | d :: _ :: _ => (d =? 46)%N
    | _ => false
    end || hasInnerDot rest
  end.

(** The split of [s] at its first "@". *)
Fixpoint splitAt (s : list N) : option (list N * list N) :=
  match s with
  | [] => None
  | c :: rest =>
    if (c =? 64)%N then Some ([], rest)
    else match splitAt rest with
         | Some (before, after) => Some (c :: before, after)
         | None => None
         end
  end.

(** The pattern [/^[^\s@]+@[^\s@]+\.[^\s@]+$/] on a sequence of code units. *)
Definition matchesEmailPattern (s : list N) : bool :=
  match splitAt s with
  | None => false
  | Some ([], _) => false
  | Some (localPart, domain) =>
    allPlain localPart && allPlain domain && hasInnerDot domain
  end.

(** [emailRegex.test(email)] *)
Definition emailRegexTest (email : string) : bool :=
  matchesEmailPattern (codeUnits email).

(** The body of the request. *)
Record OrderRequest := mkOrderRequest {
  r_planId : option nat;
  r_name : option string;
  r_email : option string;
  r_referralCode : option string
}.

(** createOrder.  [clientOrderId] is the ObjectId string the handler draws;
    [gateway] is what razorpayService.createOrder does: it resolves to an order
    with an id ([inr]) or throws ([inl]).

    [User.findOne({ email: email.toLowerCase() })] casts its filter with the
    setters of the path (lowercase, trim); the order is created with
    [userEmail: email.toLowerCase().trim()], [userName: name.trim()] and
    [referralCode: referralCode || null], which the trim setter of the Order
    schema strips.  [Order.create] validates: a name that is empty after
    [trim] fails [required], and a providerOrderId another order holds fails
    the unique index ([saveOrder]); the error reaches the outer catch, which
    answers 500 'Internal server error' with nothing stored.  The second save,
    with the gateway's id as providerOrderId, runs inside the inner try: when
    it throws, the inner catch deletes the order as for a gateway failure. *)
Definition createOrder (clientOrderId : string) (gateway : string + string)
    (req : OrderRequest) (db : Db) : Db * Response :=
  match r_planId req, truthy (r_name req), truthy (r_email req) with
  | Some planId, Some name, Some email =>
    if negb (emailRegexTest email)
    then (db, mkResponse 400 None None (Some "Invalid email format"))
    else
      match plans db !! planId with
      | None => (db, mkResponse 400 None None (Some "Invalid plan"))
      | Some plan =>
        let internalError :=
          mkResponse 500 (Some false) None (Some "Internal server error") in
        let paymentFailed :=
          mkResponse 500 (Some false) None
            (Some "Failed to create payment. Please try again.") in
        let user := findUserByEmail (trim (toLowerCase email)) db in
        let order :=
          Order.mk clientOrderId (trim (toLowerCase email)) (trim name) planId
            (fst <$> user) (Plan.price plan) pending pending
            (trim <$> truthy (r_referralCode req))
            ("pending_" +:+ clientOrderId) None None None None None in
        let orderId := nextId db in
        if String.eqb (Order.userName order) "" then (db, internalError)
        else
          match saveOrder orderId order (with_nextId (S orderId) db) with
          | None => (db, internalError)
          | Some db =>
            let rolledBack := with_orders (delete orderId (orders db)) db in
            match gateway with
            | inr razorpayOrderId =>
              let order := Order.with_providerOrderId razorpayOrderId order in
              let order := Order.with_merchantOrderId (Some razorpayOrderId) order in
              match saveOrder orderId order db with
              | Some db => (db, mkResponse 200 (Some true) None None)
              | None => (rolledBack, paymentFailed)
              end
            | inl _ => (rolledBack, paymentFailed)
            end
          end
      end
  | _, _, _ =>
    (db, mkResponse 400 None None (Some "Missing required fields: planId, name, email"))
  end.

End Payment.

(** ** The generic payment webhook *)

Module Webhook.

(** [event.data] as the handler destructures it.  The handler validates none
    of the members: each may be missing.  A member that is present is a
    string. *)
Record EventData := mkEventData {
  order_id : option string;
  clientOrderId : option string;
  email : option string;
  name : option string;
  orderType : option string
}.

(** [req.body] *)
Record Event := mkEvent { type_ : option string; data : option EventData }.

(** What the handler's try block can throw into its catch: the destructuring
    of a missing [event.data], [order.save()] refused by the schema,
    [email.toLowerCase()] on a missing email, [user.save()] refused by the
    schema. *)
Inductive Thrown := MissingData | OrderRejected | MissingEmail | UserRejected.

(** The signature guard of handleWebhook: true when the request is rejected
    as 'Invalid signature'.  [rawBody] is [JSON.stringify(req.body)]. *)
Definition signatureRejected (env : Env) (signature : option string) (rawBody : string)
    : bool :=
  match truthy signature with
  | None => false
  | Some signature =>
    if String.eqb (NODE_ENV env) "production"
       && negb (String.eqb signature "dummy-signature-dev")
    then
      let secret := match truthy (WEBHOOK_SECRET env) with
                    | Some s => s
                    | None => "default-secret"
                    end in
      let expected := hmacSha256Hex env secret rawBody in
      negb (String.eqb expected signature)
    else false
  end.

(** The subscription the webhook writes: [isActive] is left to its schema
    default. *)
Definition renewedSubscription (now : Z) (planId : nat) (plan : Plan.t) : Subscription.t :=
  let monthlyAllocation := Plan.durationDays plan * Plan.dailyTokens plan in
  Subscription.mk (Some planId) (Some now)
    (Some (now + Plan.durationDays plan * 24 * 60 * 60 * 1000)) true
    (Plan.dailyTokens plan) monthlyAllocation.

(** "Find local Order": by clientOrderId, else by providerOrderId.  Both
    paths are required in the schema, so a filter on a missing value finds no
    order. *)
Definition findOrder (d : EventData) (db : Db) : option (nat * Order.t) :=
  match clientOrderId d ≫= (fun wanted =>
          findOne (fun o => String.eqb (Order.clientOrderId o) wanted) (orders db)) with
  | Some found => Some found
  | None =>
    order_id d ≫= (fun wanted =>
      findOne (fun o => String.eqb (Order.providerOrderId o) wanted) (orders db))
  end.

(** handleWebhook.  [stringify] is [JSON.stringify] and [errorMessage] gives
    the text of a thrown error, which the catch block returns as [message].

    The order is saved, as completed and with the event's [order_id] as
    providerOrderId, before the plan and the account are looked up: what
    fails later leaves it stored.  [User.findOne({ email })] casts its filter
    with the setters of the path (lowercase, trim), and a new account is
    validated by [user.save()]: its name ([name || order.userName]) and its
    e-mail address must not be empty after [trim]. *)
Definition handleWebhook (stringify : Event -> string) (errorMessage : Thrown -> string)
    (env : Env) (now : Z) (signature : option string) (event : Event) (db : Db)
    : Db * Response :=
  let failure thrown :=
    mkResponse 500 None (Some (errorMessage thrown)) (Some "Internal server error") in
  if signatureRejected env signature (stringify event)
  then (db, mkResponse 400 None None (Some "Invalid signature"))
  else if match type_ event with
          | Some t => String.eqb t "payment.success"
          | None => false
          end then
    match data event with
    | None => (db, failure MissingData)
    | Some d =>
      if match orderType d with Some t => String.eqb t "token" | None => false end
      then (db, mkResponse 200 None (Some "Token purchase handled by separate webhook") None)
      else
        match findOrder d db with
        | None => (db, mkResponse 404 None None (Some "Order not found"))
        | Some (orderId, order) =>
          match Order.status order with
          | completed => (db, mkResponse 200 None (Some "Already processed") None)
          | _ =>
            let order := Order.with_status completed order in
            match order_id d ≫= (fun providerOrderId =>
                    saveOrder orderId (Order.with_providerOrderId providerOrderId order)
                      db) with
            | None => (db, failure OrderRejected)
            | Some db =>
              match plans db !! Order.planId order with
              | None => (db, mkResponse 404 None None (Some "Plan not found"))
              | Some plan =>
                match email d with
                | None => (db, failure MissingEmail)
                | Some email =>
                  let monthlyAllocation :=
                    Plan.durationDays plan * Plan.dailyTokens plan in
                  let found :=
                    match findUserByEmail (trim (toLowerCase email)) db with
                    | None =>
                      let userName :=
                        trim (match truthy (name d) with
                              | Some n => n
                              | None => Order.userName order
                              end) in
                      let user := schemaDefaults now (trim (toLowerCase email)) in
                      let user := User.with_tokens (Plan.dailyTokens plan) user in
                      let user := User.with_tokensUsedTotal 0 user in
                      let user := User.with_tokensUsedToday 0 user in
                      let user := User.with_monthlyTokensTotal monthlyAllocation user in
                      let user := User.with_monthlyTokensUsed 0 user in
                      let user :=
                        User.with_monthlyTokensRemaining monthlyAllocation user in
                      let user := User.with_subscription
                        (renewedSubscription now (Order.planId order) plan) user in
                      if String.eqb userName "" || String.eqb (User.email user) ""
                      then None
                      else Some (nextId db, user, with_nextId (S (nextId db)) db)
                    | Some (userId, user) =>
                      let user := User.with_tokens (Plan.dailyTokens plan) user in
                      let user := User.with_tokensUsedToday 0 user in
                      let user := User.with_monthlyTokensTotal monthlyAllocation user in
                      let user := User.with_monthlyTokensUsed 0 user in
                      let user :=
                        User.with_monthlyTokensRemaining monthlyAllocation user in
                      let user := User.with_subscription
                        (renewedSubscription now (Order.planId order) plan) user in
                      Some (userId, user, db)
                    end in
                  match found with
                  | None => (db, failure UserRejected)
                  | Some (userId, user, db) =>
                    let db := saveUser userId user db in
                    let db :=
                      match User.referredBy user with
                      | Some referrerId =>
                        processReferralReward now userId referrerId db
                      | None => db
                      end in
                    (db, mkResponse 200 None (Some "Payment processed successfully")
                           None)
                  end
                end
              end
            end
          end
        end
    end
  else (db, mkResponse 200 None (Some "Event received") None).

End Webhook.

(** ** utils/enhancedTokenUtils.js: the credit engine and the expiry sweep *)

(** The errors addPurchasedTokens and grantPrizeTokens throw:
    - "User not found"
    - "Active subscription required to purchase extra tokens", and for a
      prize "User must have active subscription to receive prize tokens"
    - whatever createNotification throws. *)
Inductive CreditError :=
| CreditUserNotFound
| ActiveSubscriptionRequired
| NotificationFailed.

(** The value addPurchasedTokens resolves to. *)
Record PurchaseCredit := mkPurchaseCredit {
  pc_success : bool;
  pc_amount : Z;
  pc_currentBalance : Z;
  pc_totalPurchased : Z;
  pc_expiresAt : option Z
}.

(** Add purchased tokens to user's account.  [createNotification] is the
    helper of utils/notificationUtils.js the function awaits after its save:
    given the user id, the type and the message it returns the database it
    leaves, or [None] when it throws.  The message is the source's without its
    leading emoji.  The nested path purchasedTokens always exists on a User
    document, so the "Initialize purchasedTokens if not exists" block never
    runs. *)
Definition addPurchasedTokens
    (createNotification : nat -> string -> string -> Db -> option Db)
    (now : Z) (userId : nat) (amount : Z) (db : Db)
    : Db * (CreditError + PurchaseCredit) :=
  match users db !! userId with
  | None => (db, inl CreditUserNotFound)
  | Some user =>
    if subscriptionExpired now user then (db, inl ActiveSubscriptionRequired)
    else
      let bucket := User.purchasedTokens user in
      let bucket := PurchasedTokens.with_current (PurchasedTokens.current bucket + amount)
                      bucket in
      let bucket := PurchasedTokens.with_total (PurchasedTokens.total bucket + amount)
                      bucket in
      let bucket := PurchasedTokens.with_lastPurchasedAt (Some now) bucket in
      let bucket :=
        PurchasedTokens.mk (PurchasedTokens.current bucket) (PurchasedTokens.total bucket)
          (PurchasedTokens.used bucket) (PurchasedTokens.lastPurchasedAt bucket)
          (Subscription.endDate (User.subscription user)) in
      let user := User.with_purchasedTokens bucket user in
      let user := User.with_tokens (calculateTotalTokens now user) user in
      let db := saveUser userId user db in
      match createNotification userId "system"
              (pretty amount
               +:+ " tokens added to your account! They're valid until your plan expires.")
              db with
      | None => (db, inl NotificationFailed)
      | Some db' =>
        (db', inr (mkPurchaseCredit true amount
                     (PurchasedTokens.current (User.purchasedTokens user))
                     (PurchasedTokens.total (User.purchasedTokens user))
                     (Subscription.endDate (User.subscription user))))
      end
  end.

(** The value grantPrizeTokens resolves to. *)
Record PrizeCredit := mkPrizeCredit {
  zc_success : bool;
  zc_amount : Z;
  zc_expiresAt : option Z;
  zc_prizeType : string;
  zc_totalPrizeTokens : Z
}.

(** Grant prize tokens (valid until plan expires).  The nested paths
    prizeTokens and temporaryTokens always exist on a User document and the
    history array defaults to the empty array. *)
Definition grantPrizeTokens (now : Z) (userId : nat) (amount : Z)
    (prizeType grantedBy : string) (db : Db) : Db * (CreditError + PrizeCredit) :=
  match users db !! userId with
  | None => (db, inl CreditUserNotFound)
  | Some user =>
    if subscriptionExpired now user then (db, inl ActiveSubscriptionRequired)
    else
      let endDate := Subscription.endDate (User.subscription user) in
      let bucket := User.prizeTokens user in
      let bucket :=
        PrizeTokens.mk (PrizeTokens.current bucket + amount) (PrizeTokens.used bucket)
          (Some now) endDate (Some grantedBy) (Some prizeType)
          (PrizeTokens.history bucket
           ++ [PrizeGrant.mk amount now grantedBy prizeType]) in
      let user := User.with_prizeTokens bucket user in
      let user := User.with_tokens (calculateTotalTokens now user) user in
      let user := User.with_temporaryTokens
        (TemporaryTokens.mk (PrizeTokens.current (User.prizeTokens user))
           (TemporaryTokens.grantedAt (User.temporaryTokens user)) endDate
           (TemporaryTokens.grantedBy (User.temporaryTokens user))
           (TemporaryTokens.prizeType (User.temporaryTokens user))) user in
      (saveUser userId user db,
       inr (mkPrizeCredit true amount endDate prizeType
              (PrizeTokens.current (User.prizeTokens user))))
  end.

(** Clean expired tokens (when plan expires).  [user] is the document the
    caller holds under [userId]; the result is the database and the boolean the
    function returns. *)
Definition cleanExpiredTokens (now : Z) (userId : nat) (user : User.t) (db : Db)
    : Db * bool :=
  if subscriptionExpired now user then
    let cleaned := false in
    let '(user, cleaned) :=
      if 0 <? DailyTokens.current (User.dailyTokens user)
      then (User.with_dailyTokens
              (DailyTokens.with_current 0 (User.dailyTokens user)) user, true)
      else (user, cleaned) in
    let '(user, cleaned) :=
      if 0 <? PurchasedTokens.current (User.purchasedTokens user)
      then (User.with_purchasedTokens
              (PurchasedTokens.with_current 0 (User.purchasedTokens user)) user, true)
      else (user, cleaned) in
    let '(user, cleaned) :=
      if 0 <? BonusTokens.current (User.bonusTokens user)
      then (User.with_bonusTokens
              (BonusTokens.with_current 0 (User.bonusTokens user)) user, true)
      else (user, cleaned) in
    let '(user, cleaned) :=
      if 0 <? PrizeTokens.current (User.prizeTokens user)
      then (User.with_prizeTokens
              (PrizeTokens.with_current 0 (User.prizeTokens user)) user, true)
      else (user, cleaned) in
    if cleaned then
      let user := User.with_tokens 0 user in
      let user := User.with_temporaryTokens
        (TemporaryTokens.mk 0
           (TemporaryTokens.grantedAt (User.temporaryTokens user))
           (TemporaryTokens.expiresAt (User.temporaryTokens user))
           (TemporaryTokens.grantedBy (User.temporaryTokens user))
           (TemporaryTokens.prizeType (User.temporaryTokens user))) user in
      (saveUser userId user db, cleaned)
    else (db, cleaned)
  else (db, false).

(** ** The PhonePe controller: createSubscriptionPayment *)

(** The body of the request. *)
Record SubscriptionPaymentRequest := mkSubscriptionPaymentRequest {
  sp_orderId : option nat;
  sp_planId : option nat;
  sp_name : option string;
  sp_email : option string
}.

(** Create payment order for subscription,
    POST /api/phonepe/create-subscription-payment.  [merchantOrderId] is the id
    generateMerchantOrderId draws; [gateway] is what
    phonepeService.createPayment does: it resolves to the PhonePe order id
    ([inr]) or throws an error with a message ([inl]). *)
Definition createSubscriptionPayment (merchantOrderId : string)
    (gateway : string + string) (req : SubscriptionPaymentRequest) (db : Db)
    : Db * Response :=
  match sp_orderId req, sp_planId req, truthy (sp_name req), truthy (sp_email req) with
  | Some orderId, Some planId, Some name, Some email =>
    match orders db !! orderId with
    | None => (db, mkResponse 404 (Some false) None (Some "Order not found"))
    | Some order =>
      match Order.paymentStatus order with
      | completed => (db, mkResponse 400 (Some false) None (Some "Order already paid"))
      | _ =>
        match gateway with
        | inl errorMessage =>
          (db, mkResponse 500 (Some false) None
                 (Some (if String.eqb errorMessage "" then "Failed to create payment"
                        else errorMessage)))
        | inr phonePeOrderId =>
          let order := Order.with_merchantOrderId (Some merchantOrderId) order in
          let order :=
            Order.mk (Order.clientOrderId order) (Order.userEmail order)
              (Order.userName order) (Order.planId order) (Order.userId order)
              (Order.amount order) (Order.status order) (Order.paymentStatus order)
              (Order.referralCode order) (Order.providerOrderId order)
              (Order.merchantOrderId order) (Some phonePeOrderId)
              (Order.phonePeTransactionId order)
              (Order.completedAt order) (Order.failureReason order) in
          let order := Order.with_paymentStatus pending order in
          (with_orders (<[orderId := order]> (orders db)) db,
           mkResponse 200 (Some true) None None)
        end
      end
    end
  | _, _, _, _ =>
    (db, mkResponse 400 (Some false) None
           (Some "Missing required fields: orderId, planId, name, email"))
  end.

(** ** Vocabulary of the statements *)

(** The sum of the four buckets' [current] values. *)
Definition bucketSum (user : User.t) : Z :=
  DailyTokens.current (User.dailyTokens user)
  + PurchasedTokens.current (User.purchasedTokens user)
  + BonusTokens.current (User.bonusTokens user)
  + PrizeTokens.current (User.prizeTokens user).

(** The sum of the values of a deduction breakdown. *)
Definition deductionSum (d : Deduction.t) : Z :=
  Deduction.daily d + Deduction.purchased d + Deduction.bonus d + Deduction.prize d.

(** The four steps run in sequence on the loaded document. *)
Definition runSteps (user : User.t) (tokensToDeduct : Z) : DeductState :=
  deductFromPrizeStep
    (deductFromBonusStep
       (deductFromPurchasedStep
          (deductFromDailyStep
             (mkDeductState user (Deduction.mk 0 0 0 0) tokensToDeduct)))).

(** What one step takes from a bucket: the guard of the source and its
    [Math.min]. *)
Definition taken (remaining current : Z) : Z :=
  if (0 <? remaining) && (0 <? current) then Z.min remaining current else 0.

(** ** Sample documents *)

(** An account whose subscription ends at [endDate] and whose buckets hold
    the given amounts. *)
Definition accountWith (endDate daily purchased bonus prize : Z) : User.t :=
  let user := schemaDefaults 0 "user@example.com" in
  let user := User.with_subscription
    (Subscription.with_endDate (Some endDate) (User.subscription user)) user in
  let user := User.with_dailyTokens
    (DailyTokens.with_current daily (User.dailyTokens user)) user in
  let user := User.with_purchasedTokens
    (PurchasedTokens.with_current purchased (User.purchasedTokens user)) user in
  let user := User.with_bonusTokens
    (BonusTokens.with_current bonus (User.bonusTokens user)) user in
  User.with_prizeTokens (PrizeTokens.with_current prize (User.prizeTokens user)) user.

(** A database holding one account, under id 1. *)
Definition singleAccountDb (user : User.t) : Db := saveUser 1%nat user emptyDb.

(** [user.milestoneRewards?.totalTokensEarned || 0] *)
Definition totalTokensEarned (user : User.t) : Z :=
  match User.milestoneRewards user with
  | None => 0
  | Some m => or_default (MilestoneRewards.totalTokensEarned m) 0
  end.

(** A referrer with [n] active referral entries (referred accounts 100,
    101, ...) and a matching activeReferrals count. *)
Definition referrerWith (n : nat) : User.t :=
  let user := schemaDefaults 0 "referrer@example.com" in
  let user := User.with_referrals
    (List.map (fun k => Referral.mk (100 + k)%nat 0 true ref_active) (seq 0 n)) user in
  User.with_referralStats (ReferralStats.mk (Z.of_nat n) (Z.of_nat n) 0) user.

(** The subscription, the flat balance and the four buckets of an account:
    the paths the referral engine never writes. *)
Definition ledgerOf (user : User.t) :=
  (User.subscription user, User.tokens user, User.dailyTokens user,
   User.purchasedTokens user, User.bonusTokens user, User.prizeTokens user).

(** A toy environment: the digests are tagged copies of their input. *)
Definition sampleEnv : Env :=
  mkEnv (fun x => "sha256:" +:+ x) (fun key x => "hmac:" +:+ key +:+ ":" +:+ x)
    "merchant" "secret" "rzp_secret" "production" (Some "whsec").

(** The Authorization header PhonePe sends under [sampleEnv]. *)
Definition validHeader : string := "SHA256 sha256:merchant:secret".

(** A plan with dailyTokens 100, durationDays 30 and bonusTokens 500. *)
Definition samplePlan : Plan.t := Plan.mk 999 30 100 500.

(** A package of 100 tokens. *)
Definition samplePackage : TokenPackage.t := TokenPackage.mk 100 49.

(** One account (id 1, plan running until 2000, empty buckets), the sample
    plan (id 5), the sample package (id 3) and a pending token transaction
    (id 7) of account 1 for that package. *)
Definition purchaseDb : Db :=
  mkDb {[ 1%nat := accountWith 2000 0 0 0 0 ]} ∅
    {[ 7%nat := TokenTransaction.mk 1 3 None 100 49 pending
                  None None None None None ]}
    {[ 5%nat := samplePlan ]} {[ 3%nat := samplePackage ]} 10.

(** The COMPLETED webhook PhonePe posts for transaction 7. *)
Definition tokenWebhook : PhonePe.WebhookBody :=
  PhonePe.mkWebhookBody (Some "checkout.order.completed")
    (Some (PhonePe.mkPayload (Some "TOKEN_1000_ABCD1234") "COMPLETED"
             (Some (PhonePe.mkMetaInfo (Some 7%nat) (Some "token_purchase")))
             (Some "OM12333") None)).

(** A guest checkout: no account yet, the sample plan (id 5) and a pending
    order (id 9) for new@example.com. *)
Definition guestCheckoutDb : Db :=
  mkDb ∅
    {[ 9%nat := Order.mk "64f000000000000000000009" "new@example.com" "Ann" 5 None
                  999 pending pending None "order_RZP1" (Some "order_RZP1")
                  None None None None ]}
    ∅ {[ 5%nat := samplePlan ]} ∅ 10.

(** The verification request Razorpay checkout posts for order 9 under
    [sampleEnv]. *)
Definition guestVerifyRequest : Razorpay.VerifyRequest :=
  Razorpay.mkVerifyRequest "order_RZP1" "pay_1"
    "hmac:rzp_secret:order_RZP1|pay_1" (Some 9%nat).

(** A registered account (id 1) that never subscribed, with a pending order
    (id 9) for the sample plan (id 5). *)
Definition registeredCheckoutDb : Db :=
  mkDb {[ 1%nat := schemaDefaults 0 "member@example.com" ]}
    {[ 9%nat := Order.mk "64f000000000000000000009" "member@example.com" "Ann" 5
                  (Some 1%nat) 999 pending pending None "order_RZP1"
                  (Some "order_RZP1") None None None None ]}
    ∅ {[ 5%nat := samplePlan ]} ∅ 10.

(** The COMPLETED webhook PhonePe posts for order 9. *)
Definition subscriptionWebhook : PhonePe.WebhookBody :=
  PhonePe.mkWebhookBody (Some "checkout.order.completed")
    (Some (PhonePe.mkPayload (Some "SUB_1000_ABCD1234") "COMPLETED"
             (Some (PhonePe.mkMetaInfo (Some 9%nat) (Some "subscription")))
             (Some "OM12334") None)).

(** The pending order (id 9) of account 1 for the sample plan. *)
Definition renewalOrder : Order.t :=
  Order.mk "64f000000000000000000009" "user@example.com" "Ann" 5 (Some 1%nat) 999
    pending pending None "order_RZP1" (Some "order_RZP1") None None None None.

(** An account (id 1) whose current window ends at [oldEnd], about to renew
    with the sample plan (id 5) through order 9. *)
Definition renewalDb (oldEnd : Z) : Db :=
  mkDb {[ 1%nat := accountWith oldEnd 0 0 0 0 ]} {[ 9%nat := renewalOrder ]}
    ∅ {[ 5%nat := samplePlan ]} ∅ 10.

(** The generic payment.success event for order 9. *)
Definition renewalEvent : Webhook.Event :=
  Webhook.mkEvent (Some "payment.success")
    (Some (Webhook.mkEventData (Some "order_RZP1") (Some "64f000000000000000000009")
             (Some "user@example.com") None None)).

(** A toy [JSON.stringify] and error text for the generic webhook: the
    handler only signs the one and returns the other. *)
Definition sampleStringify (event : Webhook.Event) : string :=
  match Webhook.type_ event with
  | Some t => "{type:" +:+ t +:+ "}"
  | None => "{}"
  end.

Definition sampleErrorMessage (thrown : Webhook.Thrown) : string :=
  match thrown with
  | Webhook.MissingData => "Cannot destructure property 'order_id' of 'event.data'"
  | Webhook.OrderRejected => "Order validation failed"
  | Webhook.MissingEmail => "Cannot read properties of undefined (reading 'toLowerCase')"
  | Webhook.UserRejected => "User validation failed"
  end.

(** ** Vocabulary of the further statements *)

(** A createNotification that changes no account's subscription, flat
    balance or bucket. *)
Definition keepsLedgers
    (createNotification : nat -> string -> string -> Db -> option Db) : Prop :=
  forall userId type message db db',
    createNotification userId type message db = Some db' ->
    forall id, ledgerOf <$> users db' !! id = ledgerOf <$> users db !! id.

(** A createNotification that appends to the account's notifications. *)
Definition pushNotification (userId : nat) (type message : string) (db : Db)
    : option Db :=
  match users db !! userId with
  | None => None
  | Some user =>
    Some (saveUser userId
            (User.with_unreadNotificationCount (User.unreadNotificationCount user + 1)
               (User.with_notifications
                  (User.notifications user ++ [Notification.mk type message false 0])
                  user)) db)
  end.

(** The number of active entries of a referral list. *)
Definition activeCount (referrals : list Referral.t) : Z :=
  Z.of_nat (length (List.filter Referral.isActive referrals)).

(** The sum of the amounts of a prize history. *)
Definition historyTotal (history : list PrizeGrant.t) : Z :=
  List.fold_right (fun grant acc => PrizeGrant.amount grant + acc) 0 history.

(** The usage counters of an account: tokenStats, or zeros when the path is
    missing. *)
Definition statsOf (user : User.t) : TokenStats.t :=
  match User.tokenStats user with
  | None => TokenStats.mk 0 0 0 0 0 0
  | Some stats => stats
  end.

(** The entry the positional update writes: active, with status 'active'. *)
Definition activated (referral : Referral.t) : Referral.t :=
  Referral.mk (Referral.userId referral) (Referral.joinedAt referral) true ref_active.

(** The entry of a completed cycle: inactive, with status 'cycled'. *)
Definition cycled (referral : Referral.t) : Referral.t :=
  Referral.mk (Referral.userId referral) (Referral.joinedAt referral) false ref_cycled.

(** A referrer (id 1) with [n] active referrals followed by a pending entry
    for account 200. *)
Definition referrerAwaiting (n : nat) : User.t :=
  let user := referrerWith n in
  User.with_referrals (User.referrals user ++ [Referral.mk 200 0 false ref_pending]) user.

(** A database whose account 1 holds the referral code "AB12CD34EF56" and a
    plan running until 2000. *)
Definition referrerDb : Db :=
  singleAccountDb
    (User.with_referralCode (Some "AB12CD34EF56") (accountWith 2000 0 0 0 0)).

(** The failure reason a FAILED webhook stores:
    [errorInfo?.message || 'Payment failed']. *)
Definition storedFailureReason (webhookData : PhonePe.WebhookData) : string :=
  match PhonePe.errorMessage webhookData with
  | Some m => if String.eqb m "" then "Payment failed" else m
  | None => "Payment failed"
  end.

(** The FAILED webhook PhonePe posts for token transaction 7. *)
Definition failedTokenWebhook : PhonePe.WebhookBody :=
  PhonePe.mkWebhookBody (Some "checkout.order.failed")
    (Some (PhonePe.mkPayload (Some "TOKEN_1000_ABCD1234") "FAILED"
             (Some (PhonePe.mkMetaInfo (Some 7%nat) (Some "token_purchase")))
             (Some "OM12333") (Some "AUTHORIZATION_ERROR"))).

(** A PENDING notification for token transaction 7. *)
Definition pendingTokenWebhook : PhonePe.WebhookBody :=
  PhonePe.mkWebhookBody (Some "checkout.order.pending")
    (Some (PhonePe.mkPayload (Some "TOKEN_1000_ABCD1234") "PENDING"
             (Some (PhonePe.mkMetaInfo (Some 7%nat) (Some "token_purchase")))
             None None)).

(** The verification request Razorpay checkout posts for token transaction
    7 under [sampleEnv]. *)
Definition purchaseRequest : Razorpay.VerifyRequest :=
  Razorpay.mkVerifyRequest "order_RZP7" "pay_7"
    "hmac:rzp_secret:order_RZP7|pay_7" (Some 7%nat).


(** The answer of the generic webhook after it has written the account. *)
Definition paymentProcessed : Response :=
  mkResponse 200 None (Some "Payment processed successfully") None.

(** The secret the generic webhook signs with:
    [process.env.WEBHOOK_SECRET || 'default-secret']. *)
Definition webhookSecret (env : Env) : string :=
  match truthy (WEBHOOK_SECRET env) with
  | Some secret => secret
  | None => "default-secret"
  end.

(** The order the generic webhook stores before it looks up the plan. *)
Definition markedCompleted (providerOrderId : string) (order : Order.t) : Order.t :=
  Order.with_providerOrderId providerOrderId (Order.with_status completed order).

(** A payment.success event for order 9 that carries no e-mail address. *)
Definition eventWithoutEmail : Webhook.Event :=
  Webhook.mkEvent (Some "payment.success")
    (Some (Webhook.mkEventData (Some "order_RZP1") (Some "64f000000000000000000009")
             None None None)).

(** * Properties *)

(** ** Balance model and deduction engine *)

Lemma or_default_zero (x : Z) : or_default x 0 = x.
Proof. unfold or_default. destruct (Z.eqb_spec x 0); congruence. Qed.


Lemma calculateTotalTokens_active now user :
  subscriptionExpired now user = false ->
  calculateTotalTokens now user = bucketSum user.
Proof.
  intros H. unfold calculateTotalTokens, bucketSum. rewrite H.
  rewrite !or_default_zero. lia.
Qed.

Lemma calculateTotalTokens_expired now user :
  subscriptionExpired now user = true -> calculateTotalTokens now user = 0.
Proof. intros H. unfold calculateTotalTokens. now rewrite H. Qed.


(** A call succeeds exactly when the account exists, its subscription has
    not lapsed and the balance covers the request; the result is then built
    from the four steps. *)
Lemma deductTokens_success_inv now userId amount why db db' r :
  deductTokens now userId amount why db = (db', inr r) ->
  exists user,
    users db !! userId = Some user /\
    subscriptionExpired now user = false /\
    amount <= bucketSum user /\
    let s := runSteps user amount in
    let user' := updateStatistics now amount (ds_breakdown s) (ds_user s) in
    db' = saveUser userId user' db /\
    r = mkDeductResult true amount (ds_breakdown s) (getTokenBreakdown now user') why.
Proof.
  unfold deductTokens. intros H.
  destruct (users db !! userId) as [user|] eqn:Hu; [|discriminate].
  destruct (subscriptionExpired now user) eqn:Hexp; [discriminate|].
  destruct (Z.ltb_spec (calculateTotalTokens now user) amount) as [Hlt|Hge];
    [discriminate|].
  rewrite calculateTotalTokens_active in Hge by assumption.
  exists user. repeat split; try assumption; unfold runSteps; congruence.
Qed.

Lemma deductTokens_succeeds now userId amount why db user :
  users db !! userId = Some user ->
  subscriptionExpired now user = false ->
  amount <= bucketSum user ->
  exists db' r, deductTokens now userId amount why db = (db', inr r).
Proof.
  intros Hu Hexp Hle. unfold deductTokens. rewrite Hu, Hexp.
  rewrite calculateTotalTokens_active by assumption.
  destruct (Z.ltb_spec (bucketSum user) amount); [lia|]. eauto.
Qed.

(** updateStatistics writes no bucket's [current] and no bucket's
    [used] counter. *)
Lemma updateStatistics_buckets now amount bd user :
  let user' := updateStatistics now amount bd user in
  User.dailyTokens user' = User.dailyTokens user /\
  User.purchasedTokens user' = User.purchasedTokens user /\
  User.bonusTokens user' = User.bonusTokens user /\
  User.prizeTokens user' = User.prizeTokens user /\
  User.subscription user' = User.subscription user.
Proof.
  unfold updateStatistics.
  destruct (0 <? User.monthlyTokensRemaining _); cbn; auto.
Qed.


Lemma taken_min remaining current :
  0 <= remaining -> 0 <= current -> taken remaining current = Z.min remaining current.
Proof.
  intros Hr Hc. unfold taken.
  destruct (Z.ltb_spec 0 remaining), (Z.ltb_spec 0 current); cbn; lia.
Qed.

Lemma taken_bounds remaining current :
  0 <= remaining -> 0 <= taken remaining current <= remaining.
Proof.
  intros Hr. unfold taken.
  destruct (Z.ltb_spec 0 remaining), (Z.ltb_spec 0 current); cbn; lia.
Qed.

Section Steps.
Variable s : DeductState.
Let user := ds_user s.
Let rem := ds_remaining s.

Lemma deductFromDailyStep_eq :
  Deduction.daily (ds_breakdown s) = 0 ->
  let bucket := User.dailyTokens user in
  let t := taken rem (DailyTokens.current bucket) in
  deductFromDailyStep s =
  mkDeductState
    (User.with_dailyTokens
       (DailyTokens.mk (DailyTokens.current bucket - t) (DailyTokens.limit bucket)
          (DailyTokens.usedToday bucket + t) (DailyTokens.lastRefreshedAt bucket))
       user)
    (Deduction.with_daily t (ds_breakdown s)) (rem - t).
Proof.
  subst user rem. destruct s as [u [a b c d] r]. cbn. intros ->.
  unfold deductFromDailyStep, taken. cbn.
  destruct ((0 <? r) && (0 <? DailyTokens.current (User.dailyTokens u))); cbn.
  - reflexivity.
  - destruct u as [? ? ? ? ? ? ? [? ? ? ?] ? ? ? ? ? ? ? ? ? ? ? ? ?]. cbn.
    unfold User.with_dailyTokens. cbn. repeat f_equal; lia.
Qed.

Lemma deductFromPurchasedStep_eq :
  Deduction.purchased (ds_breakdown s) = 0 ->
  let bucket := User.purchasedTokens user in
  let t := taken rem (PurchasedTokens.current bucket) in
  deductFromPurchasedStep s =
  mkDeductState
    (User.with_purchasedTokens
       (PurchasedTokens.mk (PurchasedTokens.current bucket - t)
          (PurchasedTokens.total bucket) (PurchasedTokens.used bucket + t)
          (PurchasedTokens.lastPurchasedAt bucket) (PurchasedTokens.expiresAt bucket))
       user)
    (Deduction.with_purchased t (ds_breakdown s)) (rem - t).
Proof.
  subst user rem. destruct s as [u [a b c d] r]. cbn. intros ->.
  unfold deductFromPurchasedStep, taken. cbn.
  destruct ((0 <? r) && (0 <? PurchasedTokens.current (User.purchasedTokens u))); cbn.
  - reflexivity.
  - destruct u as [? ? ? ? ? ? ? ? [? ? ? ? ?] ? ? ? ? ? ? ? ? ? ? ? ?]. cbn.
    unfold User.with_purchasedTokens. cbn. repeat f_equal; lia.
Qed.

Lemma deductFromBonusStep_eq :
  Deduction.bonus (ds_breakdown s) = 0 ->
  let bucket := User.bonusTokens user in
  let t := taken rem (BonusTokens.current bucket) in
  deductFromBonusStep s =
  mkDeductState
    (User.with_bonusTokens
       (BonusTokens.mk (BonusTokens.current bucket - t) (BonusTokens.initial bucket)
          (BonusTokens.used bucket + t) (BonusTokens.grantedAt bucket)
          (BonusTokens.expiresAt bucket))
       user)
    (Deduction.with_bonus t (ds_breakdown s)) (rem - t).
Proof.
  subst user rem. destruct s as [u [a b c d] r]. cbn. intros ->.
  unfold deductFromBonusStep, taken. cbn.
  destruct ((0 <? r) && (0 <? BonusTokens.current (User.bonusTokens u))); cbn.
  - reflexivity.
  - destruct u as [? ? ? ? ? ? ? ? ? [? ? ? ? ?] ? ? ? ? ? ? ? ? ? ? ?]. cbn.
    unfold User.with_bonusTokens. cbn. repeat f_equal; lia.
Qed.

Lemma deductFromPrizeStep_eq :
  Deduction.prize (ds_breakdown s) = 0 ->
  let bucket := User.prizeTokens user in
  let t := taken rem (PrizeTokens.current bucket) in
  deductFromPrizeStep s =
  mkDeductState
    (User.with_prizeTokens
       (PrizeTokens.mk (PrizeTokens.current bucket - t) (PrizeTokens.used bucket + t)
          (PrizeTokens.grantedAt bucket) (PrizeTokens.expiresAt bucket)
          (PrizeTokens.grantedBy bucket) (PrizeTokens.prizeType bucket)
          (PrizeTokens.history bucket))
       user)
    (Deduction.with_prize t (ds_breakdown s)) (rem - t).
Proof.
  subst user rem. destruct s as [u [a b c d] r]. cbn. intros ->.
  unfold deductFromPrizeStep, taken. cbn.
  destruct ((0 <? r) && (0 <? PrizeTokens.current (User.prizeTokens u))); cbn.
  - reflexivity.
  - destruct u as [? ? ? ? ? ? ? ? ? ? [? ? ? ? ? ? ?] ? ? ? ? ? ? ? ? ? ?]. cbn.
    unfold User.with_prizeTokens. cbn. repeat f_equal; lia.
Qed.
End Steps.

(** The four steps as one equation: every bucket gives [taken] of what is
    still owed when its turn comes. *)
Lemma runSteps_eq user amount :
  let d := taken amount (DailyTokens.current (User.dailyTokens user)) in
  let p := taken (amount - d) (PurchasedTokens.current (User.purchasedTokens user)) in
  let b := taken (amount - d - p) (BonusTokens.current (User.bonusTokens user)) in
  let z := taken (amount - d - p - b) (PrizeTokens.current (User.prizeTokens user)) in
  let s := runSteps user amount in
  ds_breakdown s = Deduction.mk d p b z /\
  ds_remaining s = amount - d - p - b - z /\
  User.dailyTokens (ds_user s) =
    DailyTokens.mk (DailyTokens.current (User.dailyTokens user) - d)
      (DailyTokens.limit (User.dailyTokens user))
      (DailyTokens.usedToday (User.dailyTokens user) + d)
      (DailyTokens.lastRefreshedAt (User.dailyTokens user)) /\
  User.purchasedTokens (ds_user s) =
    PurchasedTokens.mk (PurchasedTokens.current (User.purchasedTokens user) - p)
      (PurchasedTokens.total (User.purchasedTokens user))
      (PurchasedTokens.used (User.purchasedTokens user) + p)
      (PurchasedTokens.lastPurchasedAt (User.purchasedTokens user))
      (PurchasedTokens.expiresAt (User.purchasedTokens user)) /\
  User.bonusTokens (ds_user s) =
    BonusTokens.mk (BonusTokens.current (User.bonusTokens user) - b)
      (BonusTokens.initial (User.bonusTokens user))
      (BonusTokens.used (User.bonusTokens user) + b)
      (BonusTokens.grantedAt (User.bonusTokens user))
      (BonusTokens.expiresAt (User.bonusTokens user)) /\
  User.prizeTokens (ds_user s) =
    PrizeTokens.mk (PrizeTokens.current (User.prizeTokens user) - z)
      (PrizeTokens.used (User.prizeTokens user) + z)
      (PrizeTokens.grantedAt (User.prizeTokens user))
      (PrizeTokens.expiresAt (User.prizeTokens user))
      (PrizeTokens.grantedBy (User.prizeTokens user))
      (PrizeTokens.prizeType (User.prizeTokens user))
      (PrizeTokens.history (User.prizeTokens user)) /\
  User.subscription (ds_user s) = User.subscription user.
Proof.
  unfold runSteps.
  rewrite (deductFromDailyStep_eq (mkDeductState user _ _)) by reflexivity.
  rewrite deductFromPurchasedStep_eq by reflexivity.
  rewrite deductFromBonusStep_eq by reflexivity.
  rewrite deductFromPrizeStep_eq by reflexivity.
  cbn. repeat split.
Qed.

Lemma saveUser_lookup id user db : users (saveUser id user db) !! id = Some user.
Proof. unfold saveUser. cbn. apply lookup_insert_eq. Qed.

(** C1.  A successful deductTokens call debits daily, then purchased, then
    bonus, then prize: each bucket gives the minimum of what is still owed
    and its [current], which is subtracted from [current] and added to the
    bucket's used counter, and once nothing is owed the later buckets give
    nothing.  Balances are token counts (not negative) and so is the
    request. *)
Theorem deductTokens_priority_order now userId amount why db user db' r :
  users db !! userId = Some user ->
  0 <= amount ->
  0 <= DailyTokens.current (User.dailyTokens user) ->
  0 <= PurchasedTokens.current (User.purchasedTokens user) ->
  0 <= BonusTokens.current (User.bonusTokens user) ->
  0 <= PrizeTokens.current (User.prizeTokens user) ->
  deductTokens now userId amount why db = (db', inr r) ->
  let d := Z.min amount (DailyTokens.current (User.dailyTokens user)) in
  let p := Z.min (amount - d) (PurchasedTokens.current (User.purchasedTokens user)) in
  let b := Z.min (amount - d - p) (BonusTokens.current (User.bonusTokens user)) in
  let z := Z.min (amount - d - p - b) (PrizeTokens.current (User.prizeTokens user)) in
  breakdown r = Deduction.mk d p b z /\
  amount - d - p - b - z = 0 /\
  (amount - d = 0 -> p = 0 /\ b = 0 /\ z = 0) /\
  (amount - d - p = 0 -> b = 0 /\ z = 0) /\
  (amount - d - p - b = 0 -> z = 0) /\
  exists user',
    users db' !! userId = Some user' /\
    DailyTokens.current (User.dailyTokens user')
      = DailyTokens.current (User.dailyTokens user) - d /\
    DailyTokens.usedToday (User.dailyTokens user')
      = DailyTokens.usedToday (User.dailyTokens user) + d /\
    PurchasedTokens.current (User.purchasedTokens user')
      = PurchasedTokens.current (User.purchasedTokens user) - p /\
    PurchasedTokens.used (User.purchasedTokens user')
      = PurchasedTokens.used (User.purchasedTokens user) + p /\
    BonusTokens.current (User.bonusTokens user')
      = BonusTokens.current (User.bonusTokens user) - b /\
    BonusTokens.used (User.bonusTokens user')
      = BonusTokens.used (User.bonusTokens user) + b /\
    PrizeTokens.current (User.prizeTokens user')
      = PrizeTokens.current (User.prizeTokens user) - z /\
    PrizeTokens.used (User.prizeTokens user')
      = PrizeTokens.used (User.prizeTokens user) + z.
Proof.
  intros Hu Ha Hd Hp Hb Hz Hcall d p b z.
  apply deductTokens_success_inv in Hcall
    as (user0 & Hu0 & Hact & Hle & Hdb & Hr).
  assert (user0 = user) by congruence. subst user0.
  destruct (runSteps_eq user amount) as (Hbd & Hrem & Hdaily & Hpur & Hbon & Hpri & _).
  assert (Ed : taken amount (DailyTokens.current (User.dailyTokens user)) = d)
    by (apply taken_min; lia).
  rewrite Ed in Hbd, Hdaily, Hpur, Hbon, Hpri.
  assert (Ep : taken (amount - d)
                 (PurchasedTokens.current (User.purchasedTokens user)) = p)
    by (apply taken_min; lia).
  rewrite Ep in Hbd, Hpur, Hbon, Hpri.
  assert (Eb : taken (amount - d - p)
                 (BonusTokens.current (User.bonusTokens user)) = b)
    by (apply taken_min; lia).
  rewrite Eb in Hbd, Hbon, Hpri.
  assert (Ez : taken (amount - d - p - b)
                 (PrizeTokens.current (User.prizeTokens user)) = z)
    by (apply taken_min; lia).
  rewrite Ez in Hbd, Hpri.
  unfold bucketSum in Hle.
  split; [subst r; exact Hbd|].
  split; [lia|]. split; [lia|]. split; [lia|]. split; [lia|].
  eexists. split; [subst db'; apply saveUser_lookup|].
  destruct (updateStatistics_buckets now amount
              (ds_breakdown (runSteps user amount))
              (ds_user (runSteps user amount))) as (E1 & E2 & E3 & E4 & _).
  rewrite E1, E2, E3, E4, Hdaily, Hpur, Hbon, Hpri. cbn. repeat split.
Qed.

(** The spillover example of the specification: daily 5, purchased 10,
    bonus 0, prize 0 and a request of 8 give the breakdown
    {daily: 5, purchased: 3, bonus: 0, prize: 0}. *)
Lemma deductTokens_priority_order_witness :
  exists db' r,
    deductTokens 1000 1 8 "resource_access"
      (singleAccountDb (accountWith 2000 5 10 0 0)) = (db', inr r) /\
    breakdown r = Deduction.mk 5 3 0 0.
Proof.
  destruct (deductTokens 1000 1 8 "resource_access"
              (singleAccountDb (accountWith 2000 5 10 0 0)))
    as [db' [e|r]] eqn:Hcall.
  - vm_compute in Hcall. discriminate Hcall.
  - exists db', r. split; [reflexivity|].
    refine (proj1 (deductTokens_priority_order 1000 1 8 "resource_access"
              (singleAccountDb (accountWith 2000 5 10 0 0))
              (accountWith 2000 5 10 0 0) db' r _ _ _ _ _ _ Hcall)).
    + vm_compute; reflexivity.
    + lia.
    + vm_compute; discriminate.
    + vm_compute; discriminate.
    + vm_compute; discriminate.
    + vm_compute; discriminate.
Defined.

(** C4.  A successful deduction of a token count preserves the total: the
    sum of the four [current] values before the call minus the deducted
    amount is the sum after the call, and the deducted amount is the sum
    of the returned breakdown. *)
Theorem deductTokens_preserves_total now userId amount why db user db' r :
  users db !! userId = Some user ->
  0 <= amount ->
  deductTokens now userId amount why db = (db', inr r) ->
  exists user',
    users db' !! userId = Some user' /\
    bucketSum user - tokensDeducted r = bucketSum user' /\
    tokensDeducted r = amount /\
    tokensDeducted r = deductionSum (breakdown r).
Proof.
  intros Hu Ha Hcall.
  apply deductTokens_success_inv in Hcall
    as (user0 & Hu0 & Hact & Hle & Hdb & Hr).
  assert (user0 = user) by congruence. subst user0.
  destruct (runSteps_eq user amount) as (Hbd & Hrem & Hdaily & Hpur & Hbon & Hpri & _).
  eexists. split; [subst db'; apply saveUser_lookup|].
  destruct (updateStatistics_buckets now amount
              (ds_breakdown (runSteps user amount))
              (ds_user (runSteps user amount))) as (E1 & E2 & E3 & E4 & _).
  subst r. cbn [tokensDeducted breakdown].
  unfold bucketSum at 2. rewrite E1, E2, E3, E4, Hdaily, Hpur, Hbon, Hpri, Hbd.
  unfold bucketSum in *. unfold deductionSum. cbn.
  set (dc := DailyTokens.current (User.dailyTokens user)) in *.
  set (pc := PurchasedTokens.current (User.purchasedTokens user)) in *.
  set (bc := BonusTokens.current (User.bonusTokens user)) in *.
  set (zc := PrizeTokens.current (User.prizeTokens user)) in *.
  clearbody dc pc bc zc. clear -Ha Hle.
  assert (Hsum : taken amount dc + taken (amount - taken amount dc) pc
            + taken (amount - taken amount dc - taken (amount - taken amount dc) pc) bc
            + taken (amount - taken amount dc - taken (amount - taken amount dc) pc
                     - taken (amount - taken amount dc
                              - taken (amount - taken amount dc) pc) bc) zc
            = amount).
  { unfold taken.
    repeat match goal with
    | |- context [ (0 <? ?x) && (0 <? ?y) ] =>
        destruct (Z.ltb_spec 0 x); destruct (Z.ltb_spec 0 y); cbn [andb]
    end; lia. }
  repeat split; lia.
Qed.

Lemma deductTokens_preserves_total_witness :
  exists db' r user',
    deductTokens 1000 1 8 "resource_access"
      (singleAccountDb (accountWith 2000 5 10 0 0)) = (db', inr r) /\
    users db' !! 1%nat = Some user' /\
    bucketSum (accountWith 2000 5 10 0 0) - 8 = bucketSum user' /\
    8 = deductionSum (breakdown r).
Proof.
  destruct (deductTokens 1000 1 8 "resource_access"
              (singleAccountDb (accountWith 2000 5 10 0 0)))
    as [db' [e|r]] eqn:Hcall.
  - vm_compute in Hcall. discriminate Hcall.
  - destruct (deductTokens_preserves_total 1000 1 8 "resource_access"
                (singleAccountDb (accountWith 2000 5 10 0 0))
                (accountWith 2000 5 10 0 0) db' r
                ltac:(vm_compute; reflexivity) ltac:(lia) Hcall)
      as (user' & Hu & Hsum & Hamt & Hbd).
    exists db', r, user'. split; [reflexivity|].
    split; [exact Hu|]. split; [|]; congruence.
Defined.

(** C5.  deductTokens on an existing account fails with SubscriptionExpired
    when the subscription guard rejects the account, and with
    InsufficientTokens when the guard passes and the request exceeds the
    available total; a request above the available total never succeeds;
    and a failing call leaves the database, hence all four buckets'
    [current] and used values, as it was. *)
Theorem deductTokens_failure_modes now userId amount why db user :
  users db !! userId = Some user ->
  (subscriptionExpired now user = true ->
     deductTokens now userId amount why db = (db, inl SubscriptionExpired)) /\
  (subscriptionExpired now user = false ->
   calculateTotalTokens now user < amount ->
     deductTokens now userId amount why db
       = (db, inl (InsufficientTokens amount (calculateTotalTokens now user)))) /\
  (calculateTotalTokens now user < amount ->
     exists e, deductTokens now userId amount why db = (db, inl e)) /\
  (forall db' e,
     deductTokens now userId amount why db = (db', inl e) ->
     db' = db /\ users db' !! userId = Some user).
Proof.
  intros Hu. unfold deductTokens. rewrite Hu.
  destruct (subscriptionExpired now user) eqn:Hexp.
  - repeat split; try discriminate; eauto. all: congruence.
  - destruct (Z.ltb_spec (calculateTotalTokens now user) amount) as [Hlt|Hge].
    + repeat split; try discriminate; eauto. all: congruence.
    + repeat split; try discriminate; try lia.
Qed.

Lemma deductTokens_failure_modes_witness :
  deductTokens 1000 1 16 "resource_access"
    (singleAccountDb (accountWith 2000 5 10 0 0))
  = (singleAccountDb (accountWith 2000 5 10 0 0), inl (InsufficientTokens 16 15))
  /\
  deductTokens 3000 1 8 "resource_access"
    (singleAccountDb (accountWith 2000 5 10 0 0))
  = (singleAccountDb (accountWith 2000 5 10 0 0), inl SubscriptionExpired).
Proof.
  split.
  - exact (proj1 (proj2 (deductTokens_failure_modes 1000 1 16 "resource_access"
             (singleAccountDb (accountWith 2000 5 10 0 0))
             (accountWith 2000 5 10 0 0) ltac:(vm_compute; reflexivity)))
             ltac:(vm_compute; reflexivity) ltac:(vm_compute; reflexivity)).
  - exact (proj1 (deductTokens_failure_modes 3000 1 8 "resource_access"
             (singleAccountDb (accountWith 2000 5 10 0 0))
             (accountWith 2000 5 10 0 0) ltac:(vm_compute; reflexivity))
             ltac:(vm_compute; reflexivity)).
Defined.

(** Away from the instant [endDate = now] the two readings of the balance
    agree. *)
Lemma getTokenBreakdown_total_off_boundary now user :
  Subscription.endDate (User.subscription user) <> Some now ->
  Breakdown.total (getTokenBreakdown now user) = calculateTotalTokens now user.
Proof.
  intros Hne. unfold getTokenBreakdown, calculateTotalTokens, subscriptionExpired.
  cbn. destruct (Subscription.endDate (User.subscription user)) as [e|]; [|reflexivity].
  destruct (Z.ltb_spec now e), (Z.ltb_spec e now); try reflexivity; try lia.
  exfalso. apply Hne. f_equal. lia.
Qed.

(** At the instant [endDate = now] calculateTotalTokens and deductTokens
    treat the plan as running, getTokenBreakdown treats it as over. *)
Lemma boundary_disagreement now user :
  Subscription.endDate (User.subscription user) = Some now ->
  subscriptionExpired now user = false /\
  calculateTotalTokens now user = bucketSum user /\
  Breakdown.total (getTokenBreakdown now user) = 0 /\
  Breakdown.isActive (Breakdown.planExpiry (getTokenBreakdown now user)) = false.
Proof.
  intros He.
  assert (Hexp : subscriptionExpired now user = false).
  { unfold subscriptionExpired. rewrite He. apply Z.ltb_irrefl. }
  split; [exact Hexp|]. split; [now apply calculateTotalTokens_active|].
  unfold getTokenBreakdown. cbn. rewrite He, Z.ltb_irrefl. split; reflexivity.
Qed.

(** C10.  For the account with endDate = 1000, daily 5 and purchased 10,
    read at now = 1000: calculateTotalTokens returns 15 and deductTokens
    accepts a request of 8, while getTokenBreakdown reports planActive
    false and total 0, so the two totals differ. *)
Theorem total_disagrees_at_endDate_boundary :
  let user := accountWith 1000 5 10 0 0 in
  calculateTotalTokens 1000 user = 15 /\
  Breakdown.total (getTokenBreakdown 1000 user) = 0 /\
  Breakdown.isActive (Breakdown.planExpiry (getTokenBreakdown 1000 user)) = false /\
  calculateTotalTokens 1000 user <> Breakdown.total (getTokenBreakdown 1000 user) /\
  exists db' r,
    deductTokens 1000 1 8 "resource_access" (singleAccountDb user) = (db', inr r) /\
    breakdown r = Deduction.mk 5 3 0 0.
Proof.
  cbv zeta. repeat split; try (vm_compute; congruence).
  eexists _, _. split; vm_compute; reflexivity.
Qed.

(** ** Referral cycle engine *)

Lemma map_as_fmap {A B} (f : A -> B) (l : list A) : List.map f l = f <$> l.
Proof. induction l as [|x l IH]; cbn; [reflexivity|now rewrite IH]. Qed.

Lemma cycleReferral_inactive referral : Referral.isActive (cycleReferral referral) = false.
Proof. unfold cycleReferral. destruct (Referral.isActive referral) eqn:E; cbn; auto. Qed.

Lemma saveUser_lookup_ne id id' user db :
  id <> id' -> users (saveUser id user db) !! id' = users db !! id'.
Proof. intros Hne. unfold saveUser. cbn. now apply lookup_insert_ne. Qed.

(** Below the smallest target the check changes nothing. *)
Lemma checkReferralMilestones_below_target now referrerId db user :
  users db !! referrerId = Some user ->
  ReferralStats.activeReferrals (User.referralStats user) < 8 ->
  checkReferralMilestones now referrerId db = db.
Proof.
  intros Hu Hlt. unfold checkReferralMilestones. rewrite Hu. cbn.
  repeat match goal with
  | |- context [ ?a <=? ?b ] => destruct (Z.leb_spec a b); [lia|]
  end.
  reflexivity.
Qed.

(** The loop grants for the first entry whose target is met and for no
    other entry. *)
Lemma checkMilestoneEntries_first now userId user active before key milestone after db :
  Forall (fun entry => active < target (snd entry)) before ->
  target milestone <= active ->
  checkMilestoneEntries now userId user active (before ++ (key, milestone) :: after) db
  = grantMilestoneRewardAndReset now userId user key milestone db.
Proof.
  intros Hbefore Hmet. induction Hbefore as [|[k m] before Hlt _ IH]; cbn.
  - destruct (Z.leb_spec (target milestone) active); [reflexivity|lia].
  - cbn in Hlt. destruct (Z.leb_spec (target m) active); [lia|exact IH].
Qed.

(** C7.  When a referrer's activeReferrals count has reached a milestone
    target (8 is the smallest, so the count is at least 8; it may exceed 15
    and 25 as well), one checkReferralMilestones call grants one reward
    (300 tokens, one notification), increments the cycle counter of the
    referral_8 milestone alone, resets activeReferrals to 0 and turns every
    active referral entry into an inactive entry marked cycled, leaving the
    other entries and the other accounts alone; a second check on the
    result changes nothing. *)
Theorem checkReferralMilestones_one_cycle now now' referrerId db user :
  users db !! referrerId = Some user ->
  8 <= ReferralStats.activeReferrals (User.referralStats user) ->
  let db1 := checkReferralMilestones now referrerId db in
  exists user1,
    users db1 !! referrerId = Some user1 /\
    totalTokensEarned user1 = totalTokensEarned user + 300 /\
    TemporaryTokens.amount (User.temporaryTokens user1) = 300 /\
    length (User.notifications user1) = S (length (User.notifications user)) /\
    User.unreadNotificationCount user1 = User.unreadNotificationCount user + 1 /\
    cyclesCompleted referral8Cycles user1 = cyclesCompleted referral8Cycles user + 1 /\
    cyclesCompleted referral15Cycles user1 = cyclesCompleted referral15Cycles user /\
    cyclesCompleted referral25Cycles user1 = cyclesCompleted referral25Cycles user /\
    ReferralStats.activeReferrals (User.referralStats user1) = 0 /\
    length (User.referrals user1) = length (User.referrals user) /\
    (forall (i : nat) referral,
       User.referrals user !! i = Some referral ->
       Referral.isActive referral = true ->
       User.referrals user1 !! i =
         Some (Referral.mk (Referral.userId referral) (Referral.joinedAt referral)
                 false ref_cycled)) /\
    (forall (i : nat) referral,
       User.referrals user !! i = Some referral ->
       Referral.isActive referral = false ->
       User.referrals user1 !! i = Some referral) /\
    (forall id, id <> referrerId -> users db1 !! id = users db !! id) /\
    checkReferralMilestones now' referrerId db1 = db1.
Proof.
  intros Hu Hreach db1. subst db1.
  assert (Hgrant : checkReferralMilestones now referrerId db
            = grantMilestoneRewardAndReset now referrerId user "referral_8"
                (mkMilestone 8 300 referral8Cycles referral8LastReset) db).
  { unfold checkReferralMilestones. rewrite Hu.
    exact (checkMilestoneEntries_first now referrerId user _ [] "referral_8"
             (mkMilestone 8 300 referral8Cycles referral8LastReset) _ db
             ltac:(constructor) Hreach). }
  rewrite Hgrant. clear Hgrant.
  unfold grantMilestoneRewardAndReset.
  match goal with |- context [ saveUser referrerId ?u db ] => set (user1 := u) end.
  exists user1.
  assert (Hl : users (saveUser referrerId user1 db) !! referrerId = Some user1)
    by apply saveUser_lookup.
  split; [exact Hl|].
  assert (Hrefs : User.referrals user1 = cycleReferral <$> User.referrals user).
  { subst user1. cbn. apply map_as_fmap. }
  assert (Hact : ReferralStats.activeReferrals (User.referralStats user1) = 0)
    by reflexivity.
  repeat split.
  - subst user1. unfold totalTokensEarned. cbn.
    destruct (User.milestoneRewards user); cbn; rewrite ?or_default_zero; lia.
  - subst user1. cbn. rewrite length_app. cbn. lia.
  - subst user1. unfold cyclesCompleted. cbn.
    destruct (User.milestoneRewards user); cbn; rewrite ?or_default_zero; lia.
  - subst user1. unfold cyclesCompleted. cbn.
    destruct (User.milestoneRewards user); cbn; rewrite ?or_default_zero; lia.
  - subst user1. unfold cyclesCompleted. cbn.
    destruct (User.milestoneRewards user); cbn; rewrite ?or_default_zero; lia.
  - rewrite Hrefs. apply length_fmap.
  - intros i referral Hi Hactive. rewrite Hrefs, list_lookup_fmap, Hi. cbn.
    unfold cycleReferral. rewrite Hactive. reflexivity.
  - intros i referral Hi Hinactive. rewrite Hrefs, list_lookup_fmap, Hi. cbn.
    unfold cycleReferral. rewrite Hinactive. reflexivity.
  - intros id Hne. apply saveUser_lookup_ne. congruence.
  - apply (checkReferralMilestones_below_target now' referrerId _ user1 Hl).
    rewrite Hact. lia.
Qed.

(** A referrer with 15 active referrals meets the targets 8 and 15 at once:
    one check completes one referral_8 cycle and nothing else, and a second
    check is a no-op. *)
Lemma checkReferralMilestones_one_cycle_witness :
  let db := singleAccountDb (referrerWith 15) in
  let db1 := checkReferralMilestones 1000 1 db in
  exists user1,
    users db1 !! 1%nat = Some user1 /\
    totalTokensEarned user1 = 300 /\
    cyclesCompleted referral8Cycles user1 = 1 /\
    cyclesCompleted referral15Cycles user1 = 0 /\
    cyclesCompleted referral25Cycles user1 = 0 /\
    ReferralStats.activeReferrals (User.referralStats user1) = 0 /\
    checkReferralMilestones 2000 1 db1 = db1.
Proof.
  cbv zeta.
  destruct (checkReferralMilestones_one_cycle 1000 2000 1
              (singleAccountDb (referrerWith 15)) (referrerWith 15)
              ltac:(vm_compute; reflexivity) ltac:(vm_compute; discriminate))
    as (user1 & Hu & Hearned & _ & _ & _ & H8 & H15 & H25 & Hactive & _ & _ & _ & _ & Hagain).
  exists user1. split; [exact Hu|].
  rewrite Hearned, H8, H15, H25, Hactive.
  split; [vm_compute; reflexivity|]. split; [vm_compute; reflexivity|].
  split; [vm_compute; reflexivity|]. split; [vm_compute; reflexivity|].
  split; [reflexivity|]. exact Hagain.
Defined.

(** ** Payment reconciliation and subscription lifecycle *)

(** *** The referral engine leaves the ledger alone *)

Lemma saveUser_ledger id user user' db id' :
  users db !! id = Some user ->
  ledgerOf user' = ledgerOf user ->
  ledgerOf <$> users (saveUser id user' db) !! id' = ledgerOf <$> users db !! id'.
Proof.
  intros Hu Hl. unfold saveUser. cbn.
  destruct (decide (id = id')) as [->|Hne].
  - rewrite lookup_insert_eq, Hu. cbn. now rewrite Hl.
  - now rewrite lookup_insert_ne.
Qed.

Lemma updateReferralStats_ledger referrerId db id :
  ledgerOf <$> users (updateReferralStats referrerId db) !! id
  = ledgerOf <$> users db !! id.
Proof.
  unfold updateReferralStats.
  destruct (users db !! referrerId) as [user|] eqn:Hu; [|reflexivity].
  now apply (saveUser_ledger _ user).
Qed.

Lemma checkReferralMilestones_ledger now referrerId db id :
  ledgerOf <$> users (checkReferralMilestones now referrerId db) !! id
  = ledgerOf <$> users db !! id.
Proof.
  unfold checkReferralMilestones.
  destruct (users db !! referrerId) as [user|] eqn:Hu; [|reflexivity].
  generalize (ReferralStats.activeReferrals (User.referralStats user)) as active.
  intros active. induction REFERRAL_MILESTONES as [|[key milestone] rest IH]; cbn.
  - reflexivity.
  - destruct (target milestone <=? active); [|exact IH].
    unfold grantMilestoneRewardAndReset. now apply (saveUser_ledger _ user).
Qed.

Lemma processReferralReward_ledger now referredUserId referrerId db id :
  ledgerOf <$> users (processReferralReward now referredUserId referrerId db) !! id
  = ledgerOf <$> users db !! id.
Proof.
  unfold processReferralReward.
  rewrite checkReferralMilestones_ledger, updateReferralStats_ledger.
  destruct (users db !! referrerId) as [referrer|] eqn:Hu; [|reflexivity].
  destruct (activateFirstMatch referredUserId (User.referrals referrer)); [|reflexivity].
  now apply (saveUser_ledger _ referrer).
Qed.

Lemma processReferralReward_frame now referredUserId referrerId db :
  orders (processReferralReward now referredUserId referrerId db) = orders db /\
  transactions (processReferralReward now referredUserId referrerId db) = transactions db /\
  plans (processReferralReward now referredUserId referrerId db) = plans db.
Proof.
  unfold processReferralReward, checkReferralMilestones, updateReferralStats.
  repeat match goal with
  | |- context [ match ?x with _ => _ end ] => destruct x; cbn
  end; auto.
Qed.

(** [findOne] returns a document of the collection that passes the filter. *)
Lemma findOne_Some {A} (filter : A -> bool) (collection : gmap nat A) id doc :
  findOne filter collection = Some (id, doc) ->
  collection !! id = Some doc /\ filter doc = true.
Proof.
  unfold findOne. intros H. apply List.find_some in H as [Hin Hf].
  split; [|exact Hf]. apply elem_of_map_to_list. now apply list_elem_of_In.
Qed.

Lemma ledger_lookup (m : gmap nat User.t) id user :
  ledgerOf <$> m !! id = Some (ledgerOf user) ->
  exists user', m !! id = Some user' /\ ledgerOf user' = ledgerOf user.
Proof.
  destruct (m !! id) as [user'|]; cbn; [|discriminate].
  intros H. exists user'. split; [reflexivity|]. congruence.
Qed.

(** *** What a completed payment does to an existing account *)

(** [saveOrder] either refuses or stores the one order. *)
Lemma saveOrder_Some orderId order db db' :
  saveOrder orderId order db = Some db' ->
  db' = with_orders (<[orderId := order]> (orders db)) db.
Proof. unfold saveOrder. destruct (_ || _); congruence. Qed.

Lemma saveOrder_accepts orderId order db :
  Order.providerOrderId order <> "" ->
  providerOrderIdTaken orderId (Order.providerOrderId order) db = false ->
  saveOrder orderId order db
  = Some (with_orders (<[orderId := order]> (orders db)) db).
Proof.
  intros Hne Hfree. unfold saveOrder. rewrite Hfree.
  destruct (String.eqb_spec (Order.providerOrderId order) ""); [contradiction|].
  reflexivity.
Qed.

(** Razorpay verification of a pending order of an existing account: the
    account is written before the order is saved, so it is activated whether
    or not the save of the order succeeds. *)
Lemma verifySubscriptionPayment_existing env now code req db orderId order userId user plan :
  Razorpay.verifyPaymentSignature env (Razorpay.razorpay_order_id req)
    (Razorpay.razorpay_payment_id req) (Razorpay.razorpay_signature req) = true ->
  Razorpay.localId req = Some orderId ->
  orders db !! orderId = Some order ->
  Order.paymentStatus order <> completed ->
  Order.userId order = Some userId ->
  users db !! userId = Some user ->
  plans db !! Order.planId order = Some plan ->
  exists db' response user',
    Razorpay.verifySubscriptionPayment env now code req db = (db', response) /\
    users db' !! userId = Some user' /\
    ledgerOf user'
    = ledgerOf (Razorpay.applySubscription now (Order.planId order) plan user).
Proof.
  intros Hsig Hid Ho Hst Huid Hu Hplan.
  unfold Razorpay.verifySubscriptionPayment. rewrite Hsig, Hid. cbn. rewrite Ho. cbn.
  assert (Hloc : forall order',
            Order.userId order' = Some userId ->
            Razorpay.locateUser now code order' db
            = Some (Razorpay.mkLocated (Some (userId, user)) order' db)).
  { intros order' H. unfold Razorpay.locateUser. rewrite H, Hu. reflexivity. }
  set (user1 := Razorpay.applySubscription now (Order.planId order) plan user).
  assert (Hfinal : forall db1,
            ledgerOf <$> users db1 !! userId = Some (ledgerOf user1) ->
            forall order1 (response1 response2 : Response),
            exists (db' : Db) (response : Response) user',
              match saveOrder orderId order1 db1 with
              | Some db'' => (db'', response1)
              | None => (db1, response2)
              end = (db', response) /\
              users db' !! userId = Some user' /\ ledgerOf user' = ledgerOf user1).
  { intros db1 H order1 response1 response2.
    apply ledger_lookup in H as (user' & Hu' & Hl').
    destruct (saveOrder orderId order1 db1) as [db''|] eqn:Hsave.
    - apply saveOrder_Some in Hsave as ->.
      exists (with_orders (<[orderId := order1]> (orders db1)) db1), response1, user'.
      auto.
    - exists db1, response2, user'. auto. }
  assert (Hsaved : ledgerOf <$> users (saveUser userId user1 db) !! userId
                   = Some (ledgerOf user1)).
  { rewrite saveUser_lookup. reflexivity. }
  destruct (Order.paymentStatus order) eqn:Hps; try congruence.
  all: rewrite Hloc by (cbn; exact Huid); cbn; rewrite Hplan; fold user1.
  all: destruct (User.referredBy user) as [referrerId|].
  all: apply Hfinal; rewrite ?processReferralReward_ledger; exact Hsaved.
Qed.

(** The PhonePe COMPLETED webhook for a subscription order of an existing
    account. *)
Lemma processSubscriptionWebhook_completed now webhookData db orderId order userId user plan :
  PhonePe.udf1 (PhonePe.metaInfo webhookData) = Some orderId ->
  orders db !! orderId = Some order ->
  PhonePe.state webhookData = "COMPLETED" ->
  Order.userId order = Some userId ->
  users db !! userId = Some user ->
  plans db !! Order.planId order = Some plan ->
  exists db' user',
    PhonePe.processSubscriptionWebhook now webhookData db = Some db' /\
    users db' !! userId = Some user' /\
    ledgerOf user'
    = (PhonePe.activatedSubscription now (Order.planId order) plan,
       Plan.dailyTokens plan, User.dailyTokens user, User.purchasedTokens user,
       User.bonusTokens user, User.prizeTokens user) /\
    (Order.paymentStatus <$> orders db' !! orderId) = Some completed.
Proof.
  intros Hid Ho Hst Huid Hu Hplan.
  unfold PhonePe.processSubscriptionWebhook. rewrite Hid. cbn. rewrite Ho. cbn.
  rewrite Hst. cbn. rewrite Huid, Hu, Hplan.
  eexists _, _. split; [reflexivity|]. cbn.
  split; [apply lookup_insert_eq|]. split; [reflexivity|].
  rewrite lookup_insert_eq. reflexivity.
Qed.

(** The generic payment.success webhook for an order of an existing
    account, when the event is complete and the order accepts its
    [order_id]. *)
Lemma handleWebhook_renewal stringify errorMessage env now signature event d
    providerOrderId email db orderId order userId user plan :
  Webhook.signatureRejected env signature (stringify event) = false ->
  Webhook.type_ event = Some "payment.success" ->
  Webhook.data event = Some d ->
  Webhook.orderType d <> Some "token" ->
  Webhook.findOrder d db = Some (orderId, order) ->
  Order.status order <> completed ->
  Webhook.order_id d = Some providerOrderId ->
  providerOrderId <> "" ->
  providerOrderIdTaken orderId providerOrderId db = false ->
  plans db !! Order.planId order = Some plan ->
  Webhook.email d = Some email ->
  findUserByEmail (trim (toLowerCase email)) db = Some (userId, user) ->
  exists db' user',
    Webhook.handleWebhook stringify errorMessage env now signature event db
    = (db', mkResponse 200 None (Some "Payment processed successfully") None) /\
    users db' !! userId = Some user' /\
    ledgerOf user'
    = (Webhook.renewedSubscription now (Order.planId order) plan,
       Plan.dailyTokens plan, User.dailyTokens user, User.purchasedTokens user,
       User.bonusTokens user, User.prizeTokens user).
Proof.
  intros Hsig Hty Hdata Hot Ho Hst Hid Hne Hfree Hplan Hemail Hfind.
  unfold Webhook.handleWebhook. rewrite Hsig, Hty, Hdata. cbn.
  assert (Hnot : match Webhook.orderType d with
                 | Some t => String.eqb t "token"
                 | None => false
                 end = false).
  { destruct (Webhook.orderType d) as [t|]; [|reflexivity].
    destruct (String.eqb_spec t "token"); congruence. }
  rewrite Hnot, Ho, Hid. cbn.
  unfold findUserByEmail in *.
  set (user1 :=
         User.with_subscription
           (Webhook.renewedSubscription now (Order.planId order) plan)
           (User.with_monthlyTokensRemaining
              (Plan.durationDays plan * Plan.dailyTokens plan)
              (User.with_monthlyTokensUsed 0
                 (User.with_monthlyTokensTotal
                    (Plan.durationDays plan * Plan.dailyTokens plan)
                    (User.with_tokensUsedToday 0
                       (User.with_tokens (Plan.dailyTokens plan) user)))))).
  assert (Hfinal : forall db1,
            ledgerOf <$> users db1 !! userId = Some (ledgerOf user1) ->
            exists user', users db1 !! userId = Some user' /\
              ledgerOf user' = ledgerOf user1).
  { intros db1 H. now apply ledger_lookup. }
  destruct (Order.status order) eqn:Hs; try congruence.
  all: rewrite saveOrder_accepts by (cbn; assumption).
  all: cbn; rewrite Hplan, Hemail, Hfind; cbn; fold user1.
  all: destruct (User.referredBy user) as [referrerId|].
  all: match goal with
       | |- context [ (?d, mkResponse 200 None _ None) = _ ] =>
           destruct (Hfinal d
                       ltac:(rewrite ?processReferralReward_ledger;
                             rewrite saveUser_lookup; reflexivity))
             as (user' & Hu' & Hl')
       end.
  all: eexists _, user'; split; [reflexivity|]; split; [exact Hu'|exact Hl'].
Qed.

Lemma activatedSubscription_window now planId plan :
  Subscription.startDate (PhonePe.activatedSubscription now planId plan) = Some now /\
  Subscription.endDate (PhonePe.activatedSubscription now planId plan)
  = Some (now + Plan.durationDays plan * DAY_MS).
Proof.
  unfold PhonePe.activatedSubscription, DAY_MS. cbn. split; [reflexivity|].
  f_equal. lia.
Qed.

(** C6.  A completed payment of an account that already has a subscription
    writes a fresh window whatever the old one was: startDate is now and
    endDate is now plus plan.durationDays days, on the Razorpay
    verification, on the generic payment.success webhook and on the PhonePe
    webhook.  The old endDate (any value of [user], past or future) does not
    enter the new one.  The generic webhook validates nothing it receives: its
    part is stated for an event that carries its data, an e-mail address and
    an [order_id] the order can take (not empty, held by no other order). *)
Theorem renewal_restarts_window :
  (forall env now code req db orderId order userId user plan,
     Razorpay.verifyPaymentSignature env (Razorpay.razorpay_order_id req)
       (Razorpay.razorpay_payment_id req) (Razorpay.razorpay_signature req) = true ->
     Razorpay.localId req = Some orderId ->
     orders db !! orderId = Some order ->
     Order.paymentStatus order <> completed ->
     Order.userId order = Some userId ->
     users db !! userId = Some user ->
     plans db !! Order.planId order = Some plan ->
     exists user',
       users (fst (Razorpay.verifySubscriptionPayment env now code req db)) !! userId
       = Some user' /\
       Subscription.startDate (User.subscription user') = Some now /\
       Subscription.endDate (User.subscription user')
       = Some (now + Plan.durationDays plan * DAY_MS))
  /\
  (forall stringify errorMessage env now signature event d providerOrderId email db
          orderId order userId user plan,
     Webhook.signatureRejected env signature (stringify event) = false ->
     Webhook.type_ event = Some "payment.success" ->
     Webhook.data event = Some d ->
     Webhook.orderType d <> Some "token" ->
     Webhook.findOrder d db = Some (orderId, order) ->
     Order.status order <> completed ->
     Webhook.order_id d = Some providerOrderId ->
     providerOrderId <> "" ->
     providerOrderIdTaken orderId providerOrderId db = false ->
     plans db !! Order.planId order = Some plan ->
     Webhook.email d = Some email ->
     findUserByEmail (trim (toLowerCase email)) db = Some (userId, user) ->
     exists user',
       users (fst (Webhook.handleWebhook stringify errorMessage env now signature
                     event db)) !! userId
       = Some user' /\
       Subscription.startDate (User.subscription user') = Some now /\
       Subscription.endDate (User.subscription user')
       = Some (now + Plan.durationDays plan * DAY_MS))
  /\
  (forall now webhookData db orderId order userId user plan,
     PhonePe.udf1 (PhonePe.metaInfo webhookData) = Some orderId ->
     orders db !! orderId = Some order ->
     PhonePe.state webhookData = "COMPLETED" ->
     Order.userId order = Some userId ->
     users db !! userId = Some user ->
     plans db !! Order.planId order = Some plan ->
     exists db' user',
       PhonePe.processSubscriptionWebhook now webhookData db = Some db' /\
       users db' !! userId = Some user' /\
       Subscription.startDate (User.subscription user') = Some now /\
       Subscription.endDate (User.subscription user')
       = Some (now + Plan.durationDays plan * DAY_MS)).
Proof.
  split; [|split].
  - intros env now code req db orderId order userId user plan H1 H2 H3 H4 H5 H6 H7.
    destruct (verifySubscriptionPayment_existing env now code req db orderId order
                userId user plan H1 H2 H3 H4 H5 H6 H7)
      as (db' & response & user' & Hcall & Hu & Hl).
    rewrite Hcall. exists user'. split; [exact Hu|].
    assert (Hs : User.subscription user'
                 = PhonePe.activatedSubscription now (Order.planId order) plan)
      by (unfold ledgerOf in Hl; cbn in Hl; congruence).
    rewrite Hs. apply activatedSubscription_window.
  - intros stringify errorMessage env now signature event d providerOrderId email db
      orderId order userId user plan H1 H2 H3 H4 H5 H6 H7 H8 H9 H10 H11 H12.
    destruct (handleWebhook_renewal stringify errorMessage env now signature event d
                providerOrderId email db orderId order userId user plan
                H1 H2 H3 H4 H5 H6 H7 H8 H9 H10 H11 H12)
      as (db' & user' & Hcall & Hu & Hl).
    rewrite Hcall. exists user'. split; [exact Hu|].
    assert (Hs : User.subscription user'
                 = Webhook.renewedSubscription now (Order.planId order) plan)
      by (unfold ledgerOf in Hl; congruence).
    rewrite Hs. unfold Webhook.renewedSubscription, DAY_MS. cbn.
    split; [reflexivity|]. f_equal. lia.
  - intros now webhookData db orderId order userId user plan H1 H2 H3 H4 H5 H6.
    destruct (processSubscriptionWebhook_completed now webhookData db orderId order
                userId user plan H1 H2 H3 H4 H5 H6)
      as (db' & user' & Hcall & Hu & Hl & _).
    exists db', user'. split; [exact Hcall|]. split; [exact Hu|].
    assert (Hs : User.subscription user'
                 = PhonePe.activatedSubscription now (Order.planId order) plan)
      by (unfold ledgerOf in Hl; congruence).
    rewrite Hs. apply activatedSubscription_window.
Qed.

(** Renewing at 1000 with a 30-day plan ends the window at
    1000 + 30 * 86400000, whether the old window ended at 500 (past) or would
    end at 5000 (future). *)
Lemma renewal_restarts_window_witness :
  (exists user',
     users (fst (Razorpay.verifySubscriptionPayment sampleEnv 1000 "AB12CD34EF56"
                   guestVerifyRequest (renewalDb 500))) !! 1%nat = Some user' /\
     Subscription.endDate (User.subscription user') = Some 2592001000) /\
  (exists user',
     users (fst (Razorpay.verifySubscriptionPayment sampleEnv 1000 "AB12CD34EF56"
                   guestVerifyRequest (renewalDb 5000))) !! 1%nat = Some user' /\
     Subscription.endDate (User.subscription user') = Some 2592001000) /\
  (exists user',
     users (fst (Webhook.handleWebhook sampleStringify sampleErrorMessage sampleEnv
                   1000 None renewalEvent (renewalDb 5000))) !! 1%nat = Some user' /\
     Subscription.endDate (User.subscription user') = Some 2592001000).
Proof.
  split; [|split].
  - destruct (proj1 renewal_restarts_window sampleEnv 1000 "AB12CD34EF56"
                guestVerifyRequest (renewalDb 500) 9%nat renewalOrder 1%nat
                (accountWith 500 0 0 0 0) samplePlan
                ltac:(vm_compute; reflexivity) ltac:(vm_compute; reflexivity)
                ltac:(vm_compute; reflexivity) ltac:(vm_compute; discriminate)
                ltac:(vm_compute; reflexivity) ltac:(vm_compute; reflexivity)
                ltac:(vm_compute; reflexivity))
      as (user' & Hu & _ & He).
    exists user'. split; [exact Hu|]. rewrite He. vm_compute. reflexivity.
  - destruct (proj1 renewal_restarts_window sampleEnv 1000 "AB12CD34EF56"
                guestVerifyRequest (renewalDb 5000) 9%nat renewalOrder 1%nat
                (accountWith 5000 0 0 0 0) samplePlan
                ltac:(vm_compute; reflexivity) ltac:(vm_compute; reflexivity)
                ltac:(vm_compute; reflexivity) ltac:(vm_compute; discriminate)
                ltac:(vm_compute; reflexivity) ltac:(vm_compute; reflexivity)
                ltac:(vm_compute; reflexivity))
      as (user' & Hu & _ & He).
    exists user'. split; [exact Hu|]. rewrite He. vm_compute. reflexivity.
  - destruct (proj1 (proj2 renewal_restarts_window) sampleStringify
                sampleErrorMessage sampleEnv 1000 None renewalEvent
                (Webhook.mkEventData (Some "order_RZP1")
                   (Some "64f000000000000000000009") (Some "user@example.com")
                   None None)
                "order_RZP1" "user@example.com" (renewalDb 5000) 9%nat renewalOrder
                1%nat (accountWith 5000 0 0 0 0) samplePlan
                ltac:(vm_compute; reflexivity) ltac:(vm_compute; reflexivity)
                ltac:(vm_compute; reflexivity) ltac:(vm_compute; discriminate)
                ltac:(vm_compute; reflexivity) ltac:(vm_compute; discriminate)
                ltac:(vm_compute; reflexivity) ltac:(discriminate)
                ltac:(vm_compute; reflexivity) ltac:(vm_compute; reflexivity)
                ltac:(vm_compute; reflexivity) ltac:(vm_compute; reflexivity))
      as (user' & Hu & _ & He).
    exists user'. split; [exact Hu|]. rewrite He. vm_compute. reflexivity.
Defined.

(** The new account the Razorpay verification creates for the guest
    checkout: its subscription is active and its bonus bucket holds 500, its
    daily bucket holds the schema default 0, so its balance is 500.  The
    registered account the PhonePe webhook activates keeps empty buckets. *)
Lemma activation_leaves_daily_bucket_empty :
  (exists user',
     users (fst (Razorpay.verifySubscriptionPayment sampleEnv 1000 "AB12CD34EF56"
                   guestVerifyRequest guestCheckoutDb)) !! 10%nat = Some user' /\
     Subscription.isActive (User.subscription user') = true /\
     DailyTokens.current (User.dailyTokens user') = 0 /\
     BonusTokens.current (User.bonusTokens user') = 500 /\
     calculateTotalTokens 1000 user' = 500 /\
     ~ (DailyTokens.current (User.dailyTokens user') = 100 /\
        BonusTokens.current (User.bonusTokens user') = 500 /\
        calculateTotalTokens 1000 user' = 600)) /\
  (exists user',
     users (fst (PhonePe.handleWebhook sampleEnv 1000 (Some validHeader)
                   subscriptionWebhook registeredCheckoutDb)) !! 1%nat = Some user' /\
     Subscription.isActive (User.subscription user') = true /\
     DailyTokens.current (User.dailyTokens user') = 0 /\
     BonusTokens.current (User.bonusTokens user') = 0 /\
     calculateTotalTokens 1000 user' = 0 /\
     ~ (DailyTokens.current (User.dailyTokens user') = 100 /\
        BonusTokens.current (User.bonusTokens user') = 500 /\
        calculateTotalTokens 1000 user' = 600)).
Proof.
  split.
  - eexists. split; [vm_compute; reflexivity|].
    repeat split; try (vm_compute; reflexivity).
    intros (H & _). vm_compute in H. discriminate H.
  - eexists. split; [vm_compute; reflexivity|].
    repeat split; try (vm_compute; reflexivity).
    intros (H & _). vm_compute in H. discriminate H.
Qed.

(** C3 (as the code has it).  A COMPLETED subscription payment of an
    existing account sets startDate to now, endDate to now plus
    plan.durationDays days, the subscription's daily quota and the flat
    [tokens] balance to the plan's daily tokens, and marks the subscription
    active; the Razorpay verification also resets the bonus bucket to the
    plan's bonus amount; the daily, purchased and prize buckets stay as they
    were.  For the new account of the guest checkout (dailyTokens 100,
    durationDays 30, bonusTokens 500): active, tokens 100, bonus.current 500,
    daily.current 0, total 500. *)
Theorem activation_effect :
  (forall now webhookData db orderId order userId user plan,
     PhonePe.udf1 (PhonePe.metaInfo webhookData) = Some orderId ->
     orders db !! orderId = Some order ->
     PhonePe.state webhookData = "COMPLETED" ->
     Order.userId order = Some userId ->
     users db !! userId = Some user ->
     plans db !! Order.planId order = Some plan ->
     exists db' user',
       PhonePe.processSubscriptionWebhook now webhookData db = Some db' /\
       users db' !! userId = Some user' /\
       Subscription.startDate (User.subscription user') = Some now /\
       Subscription.endDate (User.subscription user')
       = Some (now + Plan.durationDays plan * DAY_MS) /\
       Subscription.dailyTokens (User.subscription user') = Plan.dailyTokens plan /\
       Subscription.isActive (User.subscription user') = true /\
       User.tokens user' = Plan.dailyTokens plan /\
       User.dailyTokens user' = User.dailyTokens user /\
       User.purchasedTokens user' = User.purchasedTokens user /\
       User.prizeTokens user' = User.prizeTokens user)
  /\
  (forall env now code req db orderId order userId user plan,
     Razorpay.verifyPaymentSignature env (Razorpay.razorpay_order_id req)
       (Razorpay.razorpay_payment_id req) (Razorpay.razorpay_signature req) = true ->
     Razorpay.localId req = Some orderId ->
     orders db !! orderId = Some order ->
     Order.paymentStatus order <> completed ->
     Order.userId order = Some userId ->
     users db !! userId = Some user ->
     plans db !! Order.planId order = Some plan ->
     exists user',
       users (fst (Razorpay.verifySubscriptionPayment env now code req db)) !! userId
       = Some user' /\
       Subscription.startDate (User.subscription user') = Some now /\
       Subscription.endDate (User.subscription user')
       = Some (now + Plan.durationDays plan * DAY_MS) /\
       Subscription.dailyTokens (User.subscription user') = Plan.dailyTokens plan /\
       Subscription.isActive (User.subscription user') = true /\
       User.tokens user' = Plan.dailyTokens plan /\
       BonusTokens.current (User.bonusTokens user') = Plan.bonusTokens plan /\
       BonusTokens.initial (User.bonusTokens user') = Plan.bonusTokens plan /\
       BonusTokens.used (User.bonusTokens user') = 0 /\
       User.dailyTokens user' = User.dailyTokens user /\
       User.purchasedTokens user' = User.purchasedTokens user /\
       User.prizeTokens user' = User.prizeTokens user)
  /\
  (exists user',
     users (fst (Razorpay.verifySubscriptionPayment sampleEnv 1000 "AB12CD34EF56"
                   guestVerifyRequest guestCheckoutDb)) !! 10%nat = Some user' /\
     Subscription.isActive (User.subscription user') = true /\
     Subscription.startDate (User.subscription user') = Some 1000 /\
     Subscription.endDate (User.subscription user') = Some (1000 + 30 * DAY_MS) /\
     User.tokens user' = 100 /\
     DailyTokens.current (User.dailyTokens user') = 0 /\
     BonusTokens.current (User.bonusTokens user') = 500 /\
     calculateTotalTokens 1000 user' = 500).
Proof.
  split; [|split].
  - intros now webhookData db orderId order userId user plan H1 H2 H3 H4 H5 H6.
    destruct (processSubscriptionWebhook_completed now webhookData db orderId order
                userId user plan H1 H2 H3 H4 H5 H6)
      as (db' & user' & Hcall & Hu & Hl & _).
    exists db', user'. split; [exact Hcall|]. split; [exact Hu|].
    unfold ledgerOf in Hl. injection Hl as Hs Ht Hd Hp Hb Hz.
    rewrite Hs, Ht, Hd, Hp, Hz.
    destruct (activatedSubscription_window now (Order.planId order) plan) as [Ha Hb'].
    repeat split; assumption || reflexivity.
  - intros env now code req db orderId order userId user plan H1 H2 H3 H4 H5 H6 H7.
    destruct (verifySubscriptionPayment_existing env now code req db orderId order
                userId user plan H1 H2 H3 H4 H5 H6 H7)
      as (db' & response & user' & Hcall & Hu & Hl).
    rewrite Hcall. exists user'. split; [exact Hu|].
    unfold ledgerOf in Hl. cbn in Hl. injection Hl as Hs Ht Hd Hp Hb Hz.
    rewrite Hs, Ht, Hd, Hp, Hb, Hz.
    destruct (activatedSubscription_window now (Order.planId order) plan) as [Ha Hb'].
    unfold grantedBonus. cbn. rewrite or_default_zero.
    repeat split; assumption || reflexivity.
  - eexists. split; [vm_compute; reflexivity|].
    repeat split; vm_compute; reflexivity.
Qed.

Lemma activation_effect_witness :
  exists user',
    users (fst (Razorpay.verifySubscriptionPayment sampleEnv 1000 "AB12CD34EF56"
                  guestVerifyRequest (renewalDb 500))) !! 1%nat = Some user' /\
    Subscription.endDate (User.subscription user') = Some 2592001000 /\
    User.tokens user' = 100 /\
    BonusTokens.current (User.bonusTokens user') = 500 /\
    DailyTokens.current (User.dailyTokens user') = 0.
Proof.
  destruct (proj1 (proj2 activation_effect) sampleEnv 1000 "AB12CD34EF56"
              guestVerifyRequest (renewalDb 500) 9%nat renewalOrder 1%nat
              (accountWith 500 0 0 0 0) samplePlan
              ltac:(vm_compute; reflexivity) ltac:(vm_compute; reflexivity)
              ltac:(vm_compute; reflexivity) ltac:(vm_compute; discriminate)
              ltac:(vm_compute; reflexivity) ltac:(vm_compute; reflexivity)
              ltac:(vm_compute; reflexivity))
    as (user' & Hu & _ & He & _ & _ & Ht & Hb & _ & _ & Hd & _).
  exists user'. split; [exact Hu|]. rewrite He, Ht, Hb, Hd.
  repeat split; vm_compute; reflexivity.
Defined.

(** *** Redelivered completions *)

(** The Razorpay verifications and the generic webhook stop at a record that
    is already completed. *)
Lemma verifyTokenPurchasePayment_already_processed env now req db id transaction :
  Razorpay.verifyPaymentSignature env (Razorpay.razorpay_order_id req)
    (Razorpay.razorpay_payment_id req) (Razorpay.razorpay_signature req) = true ->
  Razorpay.localId req = Some id ->
  transactions db !! id = Some transaction ->
  TokenTransaction.status transaction = completed ->
  Razorpay.verifyTokenPurchasePayment env now req db
  = (db, mkResponse 200 (Some true) (Some "Already processed") None).
Proof.
  intros Hsig Hid Ht Hst. unfold Razorpay.verifyTokenPurchasePayment.
  rewrite Hsig, Hid. cbn. rewrite Ht. cbn. rewrite Hst. reflexivity.
Qed.

Lemma verifySubscriptionPayment_already_processed env now code req db orderId order :
  Razorpay.verifyPaymentSignature env (Razorpay.razorpay_order_id req)
    (Razorpay.razorpay_payment_id req) (Razorpay.razorpay_signature req) = true ->
  Razorpay.localId req = Some orderId ->
  orders db !! orderId = Some order ->
  Order.paymentStatus order = completed ->
  Razorpay.verifySubscriptionPayment env now code req db
  = (db, mkResponse 200 (Some true) (Some "Already processed") None).
Proof.
  intros Hsig Hid Ho Hst. unfold Razorpay.verifySubscriptionPayment.
  rewrite Hsig, Hid. cbn. rewrite Ho. cbn. rewrite Hst. reflexivity.
Qed.

(** The PhonePe token webhook credits the account whatever the status of
    the transaction is, a completed one included. *)
Lemma processTokenWebhook_completed now webhookData db id transaction user :
  PhonePe.udf1 (PhonePe.metaInfo webhookData) = Some id ->
  transactions db !! id = Some transaction ->
  PhonePe.state webhookData = "COMPLETED" ->
  users db !! TokenTransaction.userId transaction = Some user ->
  exists db',
    PhonePe.processTokenWebhook now webhookData db = Some db' /\
    (User.tokens <$> users db' !! TokenTransaction.userId transaction)
    = Some (User.tokens user + TokenTransaction.tokens transaction) /\
    (TokenTransaction.status <$> transactions db' !! id) = Some completed.
Proof.
  intros Hid Ht Hst Hu. unfold PhonePe.processTokenWebhook.
  rewrite Hid. cbn. rewrite Ht. cbn. rewrite Hst. cbn. rewrite Hu.
  eexists. split; [reflexivity|]. cbn. rewrite !lookup_insert_eq. split; reflexivity.
Qed.

(** C2.  The same COMPLETED PhonePe webhook for token transaction 7
    (100 tokens), delivered twice with a valid signature: the first delivery
    completes the transaction and credits 100, the second one credits 100
    again (balance 200) and answers as the first did, with no
    "Already processed". *)
Theorem phonepe_token_webhook_redelivery_credits_twice :
  let first := PhonePe.handleWebhook sampleEnv 1000 (Some validHeader) tokenWebhook
                 purchaseDb in
  let second := PhonePe.handleWebhook sampleEnv 1001 (Some validHeader) tokenWebhook
                  (fst first) in
  (User.tokens <$> users purchaseDb !! 1%nat) = Some 0 /\
  (User.tokens <$> users (fst first) !! 1%nat) = Some 100 /\
  (TokenTransaction.status <$> transactions (fst first) !! 7%nat) = Some completed /\
  (User.tokens <$> users (fst second) !! 1%nat) = Some 200 /\
  snd second = mkResponse 200 (Some true) None None /\
  bodyMessage (snd second) <> Some "Already processed".
Proof. cbv zeta. repeat split; vm_compute; congruence. Qed.

(** *** Rejected signatures *)

(** The signature guard of the PhonePe webhook answers 401 and returns
    before anything is parsed or processed. *)
Lemma handleWebhook_invalid_signature env now authHeader body db :
  PhonePe.verifyWebhookSignature env authHeader = false ->
  PhonePe.handleWebhook env now authHeader body db
  = (db, mkResponse 401 (Some false) None (Some "Invalid signature")).
Proof. intros H. unfold PhonePe.handleWebhook. now rewrite H. Qed.

(** The catch block of the same handler answers 200. *)
Lemma handleWebhook_unparsable env now authHeader body db :
  PhonePe.verifyWebhookSignature env authHeader = true ->
  PhonePe.parseWebhookData body = None ->
  PhonePe.handleWebhook env now authHeader body db
  = (db, mkResponse 200 (Some false) None (Some "Webhook processing failed")).
Proof. intros Hsig Hparse. unfold PhonePe.handleWebhook. now rewrite Hsig, Hparse. Qed.

(** C8.  A COMPLETED notification for token transaction 7 that carries a
    forged Authorization header: the PhonePe handler rejects it as an invalid
    signature and changes nothing, but it answers 401, not the 200 the
    acknowledgment rule asks for.  The catch block of the same handler does
    answer 200 (a correctly signed body without payload). *)
Theorem phonepe_invalid_signature_answered_401 :
  let forged := PhonePe.handleWebhook sampleEnv 1000 (Some "SHA256 forged")
                  tokenWebhook purchaseDb in
  let unparsable := PhonePe.handleWebhook sampleEnv 1000 (Some validHeader)
                      (PhonePe.mkWebhookBody (Some "checkout.order.completed") None)
                      purchaseDb in
  PhonePe.verifyWebhookSignature sampleEnv (Some "SHA256 forged") = false /\
  forged = (purchaseDb, mkResponse 401 (Some false) None (Some "Invalid signature")) /\
  statusCode (snd forged) <> 200 /\
  unparsable
  = (purchaseDb, mkResponse 200 (Some false) None (Some "Webhook processing failed")).
Proof.
  cbv zeta.
  assert (Hforged : PhonePe.verifyWebhookSignature sampleEnv (Some "SHA256 forged")
                    = false) by (vm_compute; reflexivity).
  split; [exact Hforged|].
  rewrite (handleWebhook_invalid_signature _ _ _ _ _ Hforged).
  split; [reflexivity|]. split; [cbn; discriminate|].
  apply handleWebhook_unparsable; vm_compute; reflexivity.
Qed.

(** *** Failed order creation at the gateway *)

(** createOrder deletes the pending Order it created. *)
Lemma createOrder_rolls_back clientOrderId errorMessage req db :
  orders db !! nextId db = None ->
  orders (fst (Payment.createOrder clientOrderId (inl errorMessage) req db)) = orders db.
Proof.
  intros Hfresh. unfold Payment.createOrder.
  destruct (Payment.r_planId req) as [planId|]; [|reflexivity].
  destruct (truthy (Payment.r_name req)) as [name|]; [|reflexivity].
  destruct (truthy (Payment.r_email req)) as [email|]; [|reflexivity].
  destruct (negb (Payment.emailRegexTest email)); [reflexivity|].
  destruct (plans db !! planId) as [plan|]; [|reflexivity].
  cbv zeta.
  destruct (String.eqb (Order.userName _) ""); [reflexivity|].
  destruct (saveOrder _ _ _) as [db'|] eqn:Hsave; [|reflexivity].
  apply saveOrder_Some in Hsave as ->.
  cbn. rewrite delete_insert_eq. now apply delete_id.
Qed.

(** The two token flows keep the pending TokenTransaction. *)
Lemma createTokenOrder_keeps_pending now transactionId errorMessage packageId userId
    db tokenPackage user :
  packages db !! packageId = Some tokenPackage ->
  users db !! userId = Some user ->
  let result := Razorpay.createTokenOrder now transactionId (inl errorMessage)
                  (Some packageId) (Some userId) db in
  statusCode (snd result) = 500 /\
  (TokenTransaction.status <$> transactions (fst result) !! nextId db) = Some pending.
Proof.
  intros Hp Hu. unfold Razorpay.createTokenOrder. cbn. rewrite Hp. cbn. rewrite Hu.
  cbn. rewrite lookup_insert_eq. split; reflexivity.
Qed.

Lemma createTokenPayment_keeps_pending now merchantOrderId errorMessage packageId userId
    db tokenPackage user :
  packages db !! packageId = Some tokenPackage ->
  users db !! userId = Some user ->
  let result := PhonePe.createTokenPayment now merchantOrderId (inl errorMessage)
                  (Some packageId) (Some userId) db in
  statusCode (snd result) = 500 /\
  (TokenTransaction.status <$> transactions (fst result) !! nextId db) = Some pending.
Proof.
  intros Hp Hu. unfold PhonePe.createTokenPayment. rewrite Hp, Hu.
  cbn. rewrite lookup_insert_eq. split; reflexivity.
Qed.

(** C9.  With the gateway's order creation failing: createOrder answers 500
    and leaves no Order behind, while createTokenOrder (Razorpay) and
    createTokenPayment (PhonePe) answer 500 and leave the pending
    TokenTransaction they created (id 10) in the collection. *)
Theorem token_order_creation_failure_leaves_pending_record :
  let subscription :=
    Payment.createOrder "64f00000000000000000000a" (inl "timeout")
      (Payment.mkOrderRequest (Some 5%nat) (Some "Ann") (Some "ann@example.com") None)
      purchaseDb in
  let razorpay :=
    Razorpay.createTokenOrder 1000 "TKN_1000_ABCDEFGHI" (inl "timeout")
      (Some 3%nat) (Some 1%nat) purchaseDb in
  let phonepe :=
    PhonePe.createTokenPayment 1000 "TOKEN_1000_ABCD1234" (inl "timeout")
      (Some 3%nat) (Some 1%nat) purchaseDb in
  transactions purchaseDb !! 10%nat = None /\
  statusCode (snd subscription) = 500 /\
  orders (fst subscription) !! 10%nat = None /\
  statusCode (snd razorpay) = 500 /\
  (TokenTransaction.status <$> transactions (fst razorpay) !! 10%nat) = Some pending /\
  statusCode (snd phonepe) = 500 /\
  (TokenTransaction.status <$> transactions (fst phonepe) !! 10%nat) = Some pending.
Proof. cbv zeta. repeat split; vm_compute; reflexivity. Qed.

(** * Further properties *)

(** ** Deduction engine *)

Lemma taken_nonneg remaining current : 0 <= taken remaining current.
Proof.
  unfold taken.
  destruct (Z.ltb_spec 0 remaining), (Z.ltb_spec 0 current); cbn; lia.
Qed.

Lemma taken_le_current remaining current :
  0 <= current -> taken remaining current <= current.
Proof.
  intros Hc. unfold taken.
  destruct (Z.ltb_spec 0 remaining), (Z.ltb_spec 0 current); cbn; lia.
Qed.

(** The account a successful call saves, in terms of the four steps. *)
Lemma deductTokens_saved now userId amount why db user db' r :
  users db !! userId = Some user ->
  deductTokens now userId amount why db = (db', inr r) ->
  subscriptionExpired now user = false /\
  amount <= bucketSum user /\
  r = mkDeductResult true amount (ds_breakdown (runSteps user amount))
        (getTokenBreakdown now
           (updateStatistics now amount (ds_breakdown (runSteps user amount))
              (ds_user (runSteps user amount)))) why /\
  db' = saveUser userId
          (updateStatistics now amount (ds_breakdown (runSteps user amount))
             (ds_user (runSteps user amount))) db.
Proof.
  intros Hu Hcall.
  apply deductTokens_success_inv in Hcall as (user0 & Hu0 & Hact & Hle & Hdb & Hr).
  assert (user0 = user) by congruence. subst user0. auto.
Qed.

(** X1.  A successful deduction never drives a bucket below zero and never
    raises one: on an account whose four balances are not negative, every
    bucket's [current] after the call lies between 0 and its value before,
    whatever the requested amount. *)
Theorem deductTokens_keeps_buckets_in_range now userId amount why db user db' r :
  users db !! userId = Some user ->
  0 <= DailyTokens.current (User.dailyTokens user) ->
  0 <= PurchasedTokens.current (User.purchasedTokens user) ->
  0 <= BonusTokens.current (User.bonusTokens user) ->
  0 <= PrizeTokens.current (User.prizeTokens user) ->
  deductTokens now userId amount why db = (db', inr r) ->
  exists user',
    users db' !! userId = Some user' /\
    0 <= DailyTokens.current (User.dailyTokens user')
      <= DailyTokens.current (User.dailyTokens user) /\
    0 <= PurchasedTokens.current (User.purchasedTokens user')
      <= PurchasedTokens.current (User.purchasedTokens user) /\
    0 <= BonusTokens.current (User.bonusTokens user')
      <= BonusTokens.current (User.bonusTokens user) /\
    0 <= PrizeTokens.current (User.prizeTokens user')
      <= PrizeTokens.current (User.prizeTokens user).
Proof.
  intros Hu Hd Hp Hb Hz Hcall.
  destruct (deductTokens_saved _ _ _ _ _ _ _ _ Hu Hcall) as (_ & _ & _ & Hdb).
  eexists. split; [subst db'; apply saveUser_lookup|].
  destruct (updateStatistics_buckets now amount
              (ds_breakdown (runSteps user amount))
              (ds_user (runSteps user amount))) as (E1 & E2 & E3 & E4 & _).
  destruct (runSteps_eq user amount) as (_ & _ & Hdaily & Hpur & Hbon & Hpri & _).
  rewrite E1, E2, E3, E4, Hdaily, Hpur, Hbon, Hpri. cbn.
  repeat match goal with
  | |- context [ taken ?x ?c ] =>
      let t := fresh "t" in
      pose proof (taken_nonneg x c); pose proof (taken_le_current x c);
      set (t := taken x c) in *; clearbody t
  end.
  lia.
Qed.

Lemma deductTokens_keeps_buckets_in_range_witness :
  exists db' r user',
    deductTokens 1000 1 8 "resource_access"
      (singleAccountDb (accountWith 2000 5 10 0 0)) = (db', inr r) /\
    users db' !! 1%nat = Some user' /\
    0 <= DailyTokens.current (User.dailyTokens user') <= 5 /\
    0 <= PurchasedTokens.current (User.purchasedTokens user') <= 10.
Proof.
  destruct (deductTokens 1000 1 8 "resource_access"
              (singleAccountDb (accountWith 2000 5 10 0 0)))
    as [db' [e|r]] eqn:Hcall.
  - vm_compute in Hcall. discriminate Hcall.
  - destruct (deductTokens_keeps_buckets_in_range 1000 1 8 "resource_access"
                (singleAccountDb (accountWith 2000 5 10 0 0))
                (accountWith 2000 5 10 0 0) db' r
                ltac:(vm_compute; reflexivity) ltac:(vm_compute; discriminate)
                ltac:(vm_compute; discriminate) ltac:(vm_compute; discriminate)
                ltac:(vm_compute; discriminate) Hcall)
      as (user' & Hu & Hd & Hp & _).
    exists db', r, user'. split; [reflexivity|]. split; [exact Hu|].
    split; [exact Hd|exact Hp].
Defined.

(** With a request that is a token count and covered by the balance, the
    four steps take the whole request. *)
Lemma taken_total amount dc pc bc zc :
  0 <= amount -> amount <= dc + pc + bc + zc ->
  let d := taken amount dc in
  let p := taken (amount - d) pc in
  let b := taken (amount - d - p) bc in
  let z := taken (amount - d - p - b) zc in
  d + p + b + z = amount.
Proof.
  intros Ha Hle. cbv zeta. unfold taken.
  repeat match goal with
  | |- context [ (0 <? ?x) && (0 <? ?y) ] =>
      destruct (Z.ltb_spec 0 x); destruct (Z.ltb_spec 0 y); cbn [andb]
  end; lia.
Qed.

(** The same with [Z.min], for non-negative balances. *)
Lemma min_total amount dc pc bc zc :
  0 <= amount -> 0 <= dc -> 0 <= pc -> 0 <= bc -> 0 <= zc ->
  amount <= dc + pc + bc + zc ->
  let d := Z.min amount dc in
  let p := Z.min (amount - d) pc in
  let b := Z.min (amount - d - p) bc in
  let z := Z.min (amount - d - p - b) zc in
  d + p + b + z = amount.
Proof.
  intros Ha Hd Hp Hb Hz Hle d p b z.
  pose proof (taken_total amount dc pc bc zc Ha Hle) as H. cbv zeta in H.
  rewrite (taken_min amount dc) in H by lia. fold d in H.
  rewrite (taken_min (amount - d) pc) in H by lia. fold p in H.
  rewrite (taken_min (amount - d - p) bc) in H by lia. fold b in H.
  rewrite (taken_min (amount - d - p - b) zc) in H by lia. exact H.
Qed.

(** Two greedy takes from one bucket add up to one take of the sum, and
    what they leave owed adds up too. *)
Lemma min_take_twice x y c :
  0 <= x -> 0 <= y -> 0 <= c ->
  Z.min x c + Z.min y (c - Z.min x c) = Z.min (x + y) c /\
  0 <= x - Z.min x c /\
  0 <= y - Z.min y (c - Z.min x c) /\
  0 <= c - Z.min x c /\
  x - Z.min x c + (y - Z.min y (c - Z.min x c)) = x + y - Z.min (x + y) c.
Proof. lia. Qed.

(** The greedy takes of two runs over the four buckets add up, bucket by
    bucket, to the takes of one run for the sum. *)
Lemma greedy_compose a b dc pc bc zc :
  0 <= a -> 0 <= b -> 0 <= dc -> 0 <= pc -> 0 <= bc -> 0 <= zc ->
  let d1 := Z.min a dc in
  let p1 := Z.min (a - d1) pc in
  let b1 := Z.min (a - d1 - p1) bc in
  let z1 := Z.min (a - d1 - p1 - b1) zc in
  let d2 := Z.min b (dc - d1) in
  let p2 := Z.min (b - d2) (pc - p1) in
  let b2 := Z.min (b - d2 - p2) (bc - b1) in
  let z2 := Z.min (b - d2 - p2 - b2) (zc - z1) in
  let d3 := Z.min (a + b) dc in
  let p3 := Z.min (a + b - d3) pc in
  let b3 := Z.min (a + b - d3 - p3) bc in
  let z3 := Z.min (a + b - d3 - p3 - b3) zc in
  d1 + d2 = d3 /\ p1 + p2 = p3 /\ b1 + b2 = b3 /\ z1 + z2 = z3.
Proof.
  intros Ha Hb Hd Hp Hbn Hz d1 p1 b1 z1 d2 p2 b2 z2 d3 p3 b3 z3.
  destruct (min_take_twice a b dc Ha Hb Hd) as (Ed & Ha1 & Hb1 & _ & Er1).
  fold d1 in Ed, Ha1, Hb1, Er1. fold d2 in Ed, Hb1, Er1. fold d3 in Ed, Er1.
  destruct (min_take_twice (a - d1) (b - d2) pc Ha1 Hb1 Hp) as (Ep & Ha2 & Hb2 & _ & Er2).
  rewrite Er1 in Ep, Er2.
  fold p1 in Ep, Ha2, Hb2, Er2. fold p2 in Ep, Hb2, Er2. fold p3 in Ep, Er2.
  destruct (min_take_twice (a - d1 - p1) (b - d2 - p2) bc Ha2 Hb2 Hbn)
    as (Eb & Ha3 & Hb3 & _ & Er3).
  rewrite Er2 in Eb, Er3.
  fold b1 in Eb, Ha3, Hb3, Er3. fold b2 in Eb, Hb3, Er3. fold b3 in Eb, Er3.
  destruct (min_take_twice (a - d1 - p1 - b1) (b - d2 - p2 - b2) zc Ha3 Hb3 Hz)
    as (Ez & _).
  rewrite Er3 in Ez.
  repeat split; assumption.
Qed.

(** The buckets of the account a successful call saves, for token counts. *)
Lemma deductTokens_buckets_after now userId amount why db user db' r :
  users db !! userId = Some user ->
  0 <= amount ->
  0 <= DailyTokens.current (User.dailyTokens user) ->
  0 <= PurchasedTokens.current (User.purchasedTokens user) ->
  0 <= BonusTokens.current (User.bonusTokens user) ->
  0 <= PrizeTokens.current (User.prizeTokens user) ->
  deductTokens now userId amount why db = (db', inr r) ->
  let d := Z.min amount (DailyTokens.current (User.dailyTokens user)) in
  let p := Z.min (amount - d) (PurchasedTokens.current (User.purchasedTokens user)) in
  let b := Z.min (amount - d - p) (BonusTokens.current (User.bonusTokens user)) in
  let z := Z.min (amount - d - p - b) (PrizeTokens.current (User.prizeTokens user)) in
  amount <= bucketSum user /\
  breakdown r = Deduction.mk d p b z /\
  exists user',
    users db' !! userId = Some user' /\
    User.dailyTokens user' =
      DailyTokens.mk (DailyTokens.current (User.dailyTokens user) - d)
        (DailyTokens.limit (User.dailyTokens user))
        (DailyTokens.usedToday (User.dailyTokens user) + d)
        (DailyTokens.lastRefreshedAt (User.dailyTokens user)) /\
    User.purchasedTokens user' =
      PurchasedTokens.mk (PurchasedTokens.current (User.purchasedTokens user) - p)
        (PurchasedTokens.total (User.purchasedTokens user))
        (PurchasedTokens.used (User.purchasedTokens user) + p)
        (PurchasedTokens.lastPurchasedAt (User.purchasedTokens user))
        (PurchasedTokens.expiresAt (User.purchasedTokens user)) /\
    User.bonusTokens user' =
      BonusTokens.mk (BonusTokens.current (User.bonusTokens user) - b)
        (BonusTokens.initial (User.bonusTokens user))
        (BonusTokens.used (User.bonusTokens user) + b)
        (BonusTokens.grantedAt (User.bonusTokens user))
        (BonusTokens.expiresAt (User.bonusTokens user)) /\
    User.prizeTokens user' =
      PrizeTokens.mk (PrizeTokens.current (User.prizeTokens user) - z)
        (PrizeTokens.used (User.prizeTokens user) + z)
        (PrizeTokens.grantedAt (User.prizeTokens user))
        (PrizeTokens.expiresAt (User.prizeTokens user))
        (PrizeTokens.grantedBy (User.prizeTokens user))
        (PrizeTokens.prizeType (User.prizeTokens user))
        (PrizeTokens.history (User.prizeTokens user)) /\
    User.subscription user' = User.subscription user.
Proof.
  intros Hu Ha Hd Hp Hb Hz Hcall d p b z.
  destruct (deductTokens_saved _ _ _ _ _ _ _ _ Hu Hcall) as (_ & Hle & Hr & Hdb).
  destruct (runSteps_eq user amount) as (Hbd & _ & Hdaily & Hpur & Hbon & Hpri & Hsub).
  assert (Ed : taken amount (DailyTokens.current (User.dailyTokens user)) = d)
    by (apply taken_min; lia).
  rewrite Ed in Hbd, Hdaily, Hpur, Hbon, Hpri.
  assert (Ep : taken (amount - d)
                 (PurchasedTokens.current (User.purchasedTokens user)) = p)
    by (apply taken_min; lia).
  rewrite Ep in Hbd, Hpur, Hbon, Hpri.
  assert (Eb : taken (amount - d - p)
                 (BonusTokens.current (User.bonusTokens user)) = b)
    by (apply taken_min; lia).
  rewrite Eb in Hbd, Hbon, Hpri.
  assert (Ez : taken (amount - d - p - b)
                 (PrizeTokens.current (User.prizeTokens user)) = z)
    by (apply taken_min; lia).
  rewrite Ez in Hbd, Hpri.
  split; [exact Hle|]. split; [subst r; exact Hbd|].
  eexists. split; [subst db'; apply saveUser_lookup|].
  destruct (updateStatistics_buckets now amount
              (ds_breakdown (runSteps user amount))
              (ds_user (runSteps user amount))) as (E1 & E2 & E3 & E4 & E5).
  rewrite E1, E2, E3, E4, E5, Hdaily, Hpur, Hbon, Hpri, Hsub.
  repeat split; reflexivity.
Qed.

(** X2.  Deductions compose: on an account with non-negative balances, two
    successful deductions of the token counts [a] and then [b] leave the four
    buckets (current and used counters) exactly as one deduction of [a + b]
    does, and the single call's breakdown is the sum of the two breakdowns. *)
Theorem deductTokens_compose now now' userId a b why why' db user db1 r1 db2 r2 :
  users db !! userId = Some user ->
  0 <= a -> 0 <= b ->
  0 <= DailyTokens.current (User.dailyTokens user) ->
  0 <= PurchasedTokens.current (User.purchasedTokens user) ->
  0 <= BonusTokens.current (User.bonusTokens user) ->
  0 <= PrizeTokens.current (User.prizeTokens user) ->
  deductTokens now userId a why db = (db1, inr r1) ->
  deductTokens now' userId b why' db1 = (db2, inr r2) ->
  exists db3 r3 user2 user3,
    deductTokens now userId (a + b) why db = (db3, inr r3) /\
    users db2 !! userId = Some user2 /\
    users db3 !! userId = Some user3 /\
    User.dailyTokens user2 = User.dailyTokens user3 /\
    User.purchasedTokens user2 = User.purchasedTokens user3 /\
    User.bonusTokens user2 = User.bonusTokens user3 /\
    User.prizeTokens user2 = User.prizeTokens user3 /\
    Deduction.daily (breakdown r3)
      = Deduction.daily (breakdown r1) + Deduction.daily (breakdown r2) /\
    Deduction.purchased (breakdown r3)
      = Deduction.purchased (breakdown r1) + Deduction.purchased (breakdown r2) /\
    Deduction.bonus (breakdown r3)
      = Deduction.bonus (breakdown r1) + Deduction.bonus (breakdown r2) /\
    Deduction.prize (breakdown r3)
      = Deduction.prize (breakdown r1) + Deduction.prize (breakdown r2).
Proof.
  intros Hu Ha Hb Hd Hp Hbn Hz Hcall1 Hcall2.
  destruct (deductTokens_buckets_after _ _ _ _ _ _ _ _ Hu Ha Hd Hp Hbn Hz Hcall1)
    as (Hle1 & Hbd1 & user1 & Hu1 & Ed1 & Ep1 & Eb1 & Ez1 & Es1).
  destruct (deductTokens_saved _ _ _ _ _ _ _ _ Hu Hcall1) as (Hact & _ & _ & _).
  assert (Hd1 : 0 <= DailyTokens.current (User.dailyTokens user1))
    by (rewrite Ed1; cbn; lia).
  assert (Hp1 : 0 <= PurchasedTokens.current (User.purchasedTokens user1))
    by (rewrite Ep1; cbn; lia).
  assert (Hb1 : 0 <= BonusTokens.current (User.bonusTokens user1))
    by (rewrite Eb1; cbn; lia).
  assert (Hz1 : 0 <= PrizeTokens.current (User.prizeTokens user1))
    by (rewrite Ez1; cbn; lia).
  destruct (deductTokens_buckets_after _ _ _ _ _ _ _ _ Hu1 Hb Hd1 Hp1 Hb1 Hz1 Hcall2)
    as (Hle2 & Hbd2 & user2 & Hu2 & Ed2 & Ep2 & Eb2 & Ez2 & _).
  unfold bucketSum in Hle1, Hle2.
  rewrite ?Ed1, ?Ep1, ?Eb1, ?Ez1 in Hle2. rewrite ?Ed1, ?Ep1, ?Eb1, ?Ez1 in Hbd2.
  rewrite ?Ed1, ?Ep1, ?Eb1, ?Ez1 in Ed2. rewrite ?Ed1, ?Ep1, ?Eb1, ?Ez1 in Ep2.
  rewrite ?Ed1, ?Ep1, ?Eb1, ?Ez1 in Eb2. rewrite ?Ed1, ?Ep1, ?Eb1, ?Ez1 in Ez2.
  cbn in Hle2, Ed2, Ep2, Eb2, Ez2, Hbd2.
  destruct (deductTokens_succeeds now userId (a + b) why db user Hu Hact)
    as (db3 & r3 & Hcall3).
  { unfold bucketSum.
    pose proof (min_total a _ _ _ _ Ha Hd Hp Hbn Hz Hle1) as Hsum. cbv zeta in Hsum.
    lia. }
  assert (Hab : 0 <= a + b) by lia.
  destruct (deductTokens_buckets_after _ _ _ _ _ _ _ _ Hu Hab Hd Hp Hbn Hz Hcall3)
    as (_ & Hbd3 & user3 & Hu3 & Ed3 & Ep3 & Eb3 & Ez3 & _).
  exists db3, r3, user2, user3.
  split; [exact Hcall3|]. split; [exact Hu2|]. split; [exact Hu3|].
  rewrite Ed2, Ep2, Eb2, Ez2, Ed3, Ep3, Eb3, Ez3, Hbd1, Hbd2, Hbd3. cbn.
  destruct (greedy_compose a b _ _ _ _ Ha Hb Hd Hp Hbn Hz) as (Gd & Gp & Gb & Gz).
  cbv zeta in Gd, Gp, Gb, Gz. rewrite <- Gz, <- Gb, <- Gp, <- Gd.
  repeat split; try (f_equal; ring); ring.
Qed.

Lemma deductTokens_compose_witness :
  exists db1 r1 db2 r2 db3 r3,
    deductTokens 1000 1 3 "resource_access"
      (singleAccountDb (accountWith 2000 5 10 0 0)) = (db1, inr r1) /\
    deductTokens 1001 1 4 "resource_access" db1 = (db2, inr r2) /\
    deductTokens 1000 1 (3 + 4) "resource_access"
      (singleAccountDb (accountWith 2000 5 10 0 0)) = (db3, inr r3) /\
    Deduction.daily (breakdown r3)
      = Deduction.daily (breakdown r1) + Deduction.daily (breakdown r2) /\
    Deduction.purchased (breakdown r3)
      = Deduction.purchased (breakdown r1) + Deduction.purchased (breakdown r2).
Proof.
  destruct (deductTokens 1000 1 3 "resource_access"
              (singleAccountDb (accountWith 2000 5 10 0 0)))
    as [db1 [e|r1]] eqn:H1.
  - vm_compute in H1. discriminate H1.
  - pose proof H1 as H1c. vm_compute in H1c. injection H1c as Edb _.
    destruct (deductTokens 1001 1 4 "resource_access" db1) as [db2 [e|r2]] eqn:H2.
    + exfalso. rewrite <- Edb in H2. vm_compute in H2. discriminate H2.
    + destruct (deductTokens_compose 1000 1001 1 3 4 "resource_access"
                  "resource_access" (singleAccountDb (accountWith 2000 5 10 0 0))
                  (accountWith 2000 5 10 0 0) db1 r1 db2 r2
                  ltac:(vm_compute; reflexivity) ltac:(lia) ltac:(lia)
                  ltac:(vm_compute; discriminate) ltac:(vm_compute; discriminate)
                  ltac:(vm_compute; discriminate) ltac:(vm_compute; discriminate)
                  H1 H2)
        as (db3 & r3 & user2 & user3 & H3 & _ & _ & _ & _ & _ & _ & Hd & Hp & _).
      exists db1, r1, db2, r2, db3, r3.
      split; [reflexivity|]. split; [exact H2|]. split; [exact H3|].
      split; [exact Hd|exact Hp].
Defined.

(** What updateStatistics writes, for any document. *)
Lemma updateStatistics_flat_fields now amount bd user :
  let user' := updateStatistics now amount bd user in
  User.tokens user' = calculateTotalTokens now user' /\
  User.tokensUsedToday user' = DailyTokens.usedToday (User.dailyTokens user') /\
  User.tokensUsedTotal user' = TokenStats.totalUsed (statsOf user') /\
  TokenStats.totalUsed (statsOf user') = TokenStats.totalUsed (statsOf user) + amount /\
  TokenStats.planPeriodUsed (statsOf user')
    = TokenStats.planPeriodUsed (statsOf user) + amount /\
  User.monthlyTokensUsed user' = User.monthlyTokensUsed user + amount /\
  TokenStats.dailyUsed (statsOf user')
    = TokenStats.dailyUsed (statsOf user) + Deduction.daily bd /\
  TokenStats.purchasedUsed (statsOf user')
    = TokenStats.purchasedUsed (statsOf user) + Deduction.purchased bd /\
  TokenStats.bonusUsed (statsOf user')
    = TokenStats.bonusUsed (statsOf user) + Deduction.bonus bd /\
  TokenStats.prizeUsed (statsOf user')
    = TokenStats.prizeUsed (statsOf user) + Deduction.prize bd.
Proof.
  unfold updateStatistics, statsOf.
  destruct (0 <? User.monthlyTokensRemaining _); cbn;
    rewrite ?or_default_zero; destruct (User.tokenStats user); cbn;
    repeat split; reflexivity.
Qed.

(** The four steps leave the statistics and the monthly counter alone. *)
Lemma runSteps_other_paths user amount :
  User.tokenStats (ds_user (runSteps user amount)) = User.tokenStats user /\
  User.monthlyTokensUsed (ds_user (runSteps user amount))
  = User.monthlyTokensUsed user.
Proof.
  unfold runSteps.
  rewrite (deductFromDailyStep_eq (mkDeductState user _ _)) by reflexivity.
  rewrite deductFromPurchasedStep_eq by reflexivity.
  rewrite deductFromBonusStep_eq by reflexivity.
  rewrite deductFromPrizeStep_eq by reflexivity.
  split; reflexivity.
Qed.

(** X3.  A successful deduction keeps the flat fields and the usage
    statistics in step with the buckets: the saved [tokens] is the sum of the
    four buckets, [tokensUsedToday] is the daily bucket's usedToday,
    [tokensUsedTotal] is tokenStats.totalUsed, the counters totalUsed,
    planPeriodUsed and monthlyTokensUsed grow by the amount and the four
    per-bucket counters by the breakdown; off the instant endDate = now the
    returned remaining.total is that same sum. *)
Theorem deductTokens_keeps_flat_fields_in_step now userId amount why db user db' r :
  users db !! userId = Some user ->
  deductTokens now userId amount why db = (db', inr r) ->
  exists user',
    users db' !! userId = Some user' /\
    User.tokens user' = bucketSum user' /\
    User.tokensUsedToday user' = DailyTokens.usedToday (User.dailyTokens user') /\
    User.tokensUsedTotal user' = TokenStats.totalUsed (statsOf user') /\
    TokenStats.totalUsed (statsOf user') = TokenStats.totalUsed (statsOf user) + amount /\
    TokenStats.planPeriodUsed (statsOf user')
      = TokenStats.planPeriodUsed (statsOf user) + amount /\
    User.monthlyTokensUsed user' = User.monthlyTokensUsed user + amount /\
    TokenStats.dailyUsed (statsOf user')
      = TokenStats.dailyUsed (statsOf user) + Deduction.daily (breakdown r) /\
    TokenStats.purchasedUsed (statsOf user')
      = TokenStats.purchasedUsed (statsOf user) + Deduction.purchased (breakdown r) /\
    TokenStats.bonusUsed (statsOf user')
      = TokenStats.bonusUsed (statsOf user) + Deduction.bonus (breakdown r) /\
    TokenStats.prizeUsed (statsOf user')
      = TokenStats.prizeUsed (statsOf user) + Deduction.prize (breakdown r) /\
    (Subscription.endDate (User.subscription user) <> Some now ->
     Breakdown.total (remaining r) = bucketSum user').
Proof.
  intros Hu Hcall.
  destruct (deductTokens_saved _ _ _ _ _ _ _ _ Hu Hcall) as (Hact & _ & Hr & Hdb).
  destruct (runSteps_eq user amount) as (_ & _ & _ & _ & _ & _ & Hsub).
  destruct (runSteps_other_paths user amount) as [Hst Hmon].
  destruct (updateStatistics_buckets now amount
              (ds_breakdown (runSteps user amount))
              (ds_user (runSteps user amount))) as (_ & _ & _ & _ & E5).
  destruct (updateStatistics_flat_fields now amount
              (ds_breakdown (runSteps user amount))
              (ds_user (runSteps user amount)))
    as (R0 & R1 & R2 & R3 & R4 & R5 & R6 & R7 & R8 & R9).
  assert (Hs0 : statsOf (ds_user (runSteps user amount)) = statsOf user)
    by (unfold statsOf; now rewrite Hst).
  rewrite Hs0 in R3, R4, R6, R7, R8, R9. rewrite Hmon in R5.
  generalize dependent (updateStatistics now amount
                          (ds_breakdown (runSteps user amount))
                          (ds_user (runSteps user amount))).
  intros user' Hr Hdb E5 R0 R1 R2 R3 R4 R5 R6 R7 R8 R9.
  assert (Hact' : subscriptionExpired now user' = false).
  { unfold subscriptionExpired in *. rewrite E5, Hsub. exact Hact. }
  rewrite (calculateTotalTokens_active now user' Hact') in R0.
  exists user'. split; [subst db'; apply saveUser_lookup|].
  subst r. cbn [breakdown remaining].
  repeat (split; [assumption|]).
  intros Hne. rewrite getTokenBreakdown_total_off_boundary.
  - now apply calculateTotalTokens_active.
  - rewrite E5, Hsub. exact Hne.
Qed.

Lemma deductTokens_keeps_flat_fields_in_step_witness :
  exists db' r user',
    deductTokens 1000 1 8 "resource_access"
      (singleAccountDb (accountWith 2000 5 10 0 0)) = (db', inr r) /\
    users db' !! 1%nat = Some user' /\
    User.tokens user' = bucketSum user' /\
    Breakdown.total (remaining r) = bucketSum user'.
Proof.
  destruct (deductTokens 1000 1 8 "resource_access"
              (singleAccountDb (accountWith 2000 5 10 0 0)))
    as [db' [e|r]] eqn:Hcall.
  - vm_compute in Hcall. discriminate Hcall.
  - destruct (deductTokens_keeps_flat_fields_in_step 1000 1 8 "resource_access"
                (singleAccountDb (accountWith 2000 5 10 0 0))
                (accountWith 2000 5 10 0 0) db' r
                ltac:(vm_compute; reflexivity) Hcall)
      as (user' & Hu & Ht & _ & _ & _ & _ & _ & _ & _ & _ & _ & Hrem).
    exists db', r, user'. split; [reflexivity|]. split; [exact Hu|].
    split; [exact Ht|]. apply Hrem. vm_compute. discriminate.
Defined.

(** ** Balance model *)

(** X4.  daysRemaining counts the started days left: while the plan runs
    (now < endDate) it is the least number of whole days that covers
    endDate - now, so it is at least 1; once endDate is reached it is 0. *)
Theorem getTokenBreakdown_daysRemaining now user endDate :
  Subscription.endDate (User.subscription user) = Some endDate ->
  let days :=
    Breakdown.daysRemaining (Breakdown.planExpiry (getTokenBreakdown now user)) in
  (now < endDate ->
     1 <= days /\ (days - 1) * DAY_MS < endDate - now <= days * DAY_MS) /\
  (endDate <= now -> days = 0).
Proof.
  intros He. unfold getTokenBreakdown. cbn. rewrite He.
  destruct (Z.ltb_spec now endDate) as [Hlt|Hge].
  - split; [|lia]. intros _. unfold ceil_div, DAY_MS.
    change (1000 * 60 * 60 * 24) with 86400000.
    change (24 * 60 * 60 * 1000) with 86400000.
    pose proof (Z.div_mod (- (endDate - now)) 86400000 ltac:(lia)) as Hdm.
    pose proof (Z.mod_pos_bound (- (endDate - now)) 86400000 ltac:(lia)) as Hb.
    lia.
  - split; [lia|]. reflexivity.
Qed.

Lemma getTokenBreakdown_daysRemaining_witness :
  Breakdown.daysRemaining
    (Breakdown.planExpiry (getTokenBreakdown 1000 (accountWith 86401001 0 0 0 0))) = 2.
Proof.
  destruct (proj1 (getTokenBreakdown_daysRemaining 1000
                     (accountWith 86401001 0 0 0 0) 86401001
                     ltac:(vm_compute; reflexivity)) ltac:(lia)) as (_ & Hlo & Hhi).
  unfold DAY_MS in Hlo, Hhi. lia.
Defined.

(** ** Credit engine and expiry sweep *)

(** X5.  A successful addPurchasedTokens adds the amount to the purchased
    bucket's current and total, stamps lastPurchasedAt with now and expiresAt
    with the subscription's endDate, rewrites the flat [tokens] to the new
    sum of the buckets (the old sum plus the amount) and leaves the other
    three buckets, the purchased used counter and the subscription alone,
    provided createNotification does not touch these paths. *)
Theorem addPurchasedTokens_credits createNotification now userId amount db user db' r :
  keepsLedgers createNotification ->
  users db !! userId = Some user ->
  addPurchasedTokens createNotification now userId amount db = (db', inr r) ->
  exists user',
    users db' !! userId = Some user' /\
    User.purchasedTokens user' =
      PurchasedTokens.mk (PurchasedTokens.current (User.purchasedTokens user) + amount)
        (PurchasedTokens.total (User.purchasedTokens user) + amount)
        (PurchasedTokens.used (User.purchasedTokens user)) (Some now)
        (Subscription.endDate (User.subscription user)) /\
    User.tokens user' = bucketSum user + amount /\
    User.tokens user' = bucketSum user' /\
    User.dailyTokens user' = User.dailyTokens user /\
    User.bonusTokens user' = User.bonusTokens user /\
    User.prizeTokens user' = User.prizeTokens user /\
    User.subscription user' = User.subscription user /\
    pc_currentBalance r = PurchasedTokens.current (User.purchasedTokens user) + amount /\
    pc_totalPurchased r = PurchasedTokens.total (User.purchasedTokens user) + amount /\
    pc_expiresAt r = Subscription.endDate (User.subscription user).
Proof.
  intros Hkeep Hu Hcall. unfold addPurchasedTokens in Hcall. rewrite Hu in Hcall.
  destruct (subscriptionExpired now user) eqn:Hexp; [discriminate|].
  match type of Hcall with
  | context [ createNotification ?a ?b ?c ?d ] =>
      destruct (createNotification a b c d) as [db1|] eqn:Hn; [|discriminate]
  end.
  injection Hcall as <- <-.
  specialize (Hkeep _ _ _ _ _ Hn userId). rewrite saveUser_lookup in Hkeep.
  destruct (users db1 !! userId) as [user'|]; [|discriminate].
  cbn in Hkeep. injection Hkeep as Hs Ht Hd Hp Hb Hz.
  exists user'. split; [reflexivity|].
  unfold bucketSum. rewrite Hs, Ht, Hd, Hp, Hb, Hz. cbn.
  unfold calculateTotalTokens, subscriptionExpired in *. cbn. rewrite Hexp.
  rewrite !or_default_zero.
  repeat split; try reflexivity; lia.
Qed.

Lemma pushNotification_keepsLedgers : keepsLedgers pushNotification.
Proof.
  intros userId type message db db' H id. unfold pushNotification in H.
  destruct (users db !! userId) as [user|] eqn:Hu; [|discriminate].
  injection H as <-. now apply (saveUser_ledger _ user).
Qed.

Lemma addPurchasedTokens_credits_witness :
  exists db' r user',
    addPurchasedTokens pushNotification 1000 1 100
      (singleAccountDb (accountWith 2000 5 10 0 0)) = (db', inr r) /\
    users db' !! 1%nat = Some user' /\
    PurchasedTokens.current (User.purchasedTokens user') = 110 /\
    User.tokens user' = 115.
Proof.
  destruct (addPurchasedTokens pushNotification 1000 1 100
              (singleAccountDb (accountWith 2000 5 10 0 0)))
    as [db' [e|r]] eqn:Hcall.
  - vm_compute in Hcall. discriminate Hcall.
  - destruct (addPurchasedTokens_credits pushNotification 1000 1 100
                (singleAccountDb (accountWith 2000 5 10 0 0))
                (accountWith 2000 5 10 0 0) db' r
                pushNotification_keepsLedgers ltac:(vm_compute; reflexivity) Hcall)
      as (user' & Hu & Hp & Ht & _).
    exists db', r, user'. split; [reflexivity|]. split; [exact Hu|].
    rewrite Hp, Ht. split; vm_compute; reflexivity.
Defined.

(** X6.  addPurchasedTokens refuses a lapsed account and changes nothing;
    but when createNotification throws, the call fails after its save: the
    error reaches the caller while the purchased bucket already holds the
    credit. *)
Theorem addPurchasedTokens_failures createNotification now userId amount db user :
  users db !! userId = Some user ->
  (subscriptionExpired now user = true ->
     addPurchasedTokens createNotification now userId amount db
     = (db, inl ActiveSubscriptionRequired)) /\
  (subscriptionExpired now user = false ->
   (forall type message d, createNotification userId type message d = None) ->
     exists db' user',
       addPurchasedTokens createNotification now userId amount db
       = (db', inl NotificationFailed) /\
       users db' !! userId = Some user' /\
       PurchasedTokens.current (User.purchasedTokens user')
       = PurchasedTokens.current (User.purchasedTokens user) + amount).
Proof.
  intros Hu. unfold addPurchasedTokens. rewrite Hu. split.
  - intros ->. reflexivity.
  - intros -> Hfail. rewrite Hfail. eexists _, _. split; [reflexivity|].
    split; [apply saveUser_lookup|]. reflexivity.
Qed.

Lemma addPurchasedTokens_failures_witness :
  addPurchasedTokens pushNotification 3000 1 100
    (singleAccountDb (accountWith 2000 5 10 0 0))
  = (singleAccountDb (accountWith 2000 5 10 0 0), inl ActiveSubscriptionRequired)
  /\
  exists db' user',
    addPurchasedTokens (fun _ _ _ _ => None) 1000 1 100
      (singleAccountDb (accountWith 2000 5 10 0 0)) = (db', inl NotificationFailed) /\
    users db' !! 1%nat = Some user' /\
    PurchasedTokens.current (User.purchasedTokens user') = 110.
Proof.
  split.
  - exact (proj1 (addPurchasedTokens_failures pushNotification 3000 1 100
                    (singleAccountDb (accountWith 2000 5 10 0 0))
                    (accountWith 2000 5 10 0 0) ltac:(vm_compute; reflexivity))
             ltac:(vm_compute; reflexivity)).
  - destruct (proj2 (addPurchasedTokens_failures (fun _ _ _ _ => None) 1000 1 100
                       (singleAccountDb (accountWith 2000 5 10 0 0))
                       (accountWith 2000 5 10 0 0) ltac:(vm_compute; reflexivity))
                ltac:(vm_compute; reflexivity) ltac:(reflexivity))
      as (db' & user' & Hcall & Hu & Hp).
    exists db', user'. split; [exact Hcall|]. split; [exact Hu|].
    rewrite Hp. vm_compute. reflexivity.
Defined.

Lemma historyTotal_app history grant :
  historyTotal (history ++ [grant]) = historyTotal history + PrizeGrant.amount grant.
Proof.
  unfold historyTotal. induction history as [|g history IH]; cbn; [lia|].
  rewrite IH. lia.
Qed.

(** X7.  grantPrizeTokens succeeds exactly on an existing account whose
    subscription has not lapsed.  It then adds the amount to the prize
    bucket, appends one entry {amount, now, grantedBy, prizeType} to the
    history (so the history total grows by the amount), stamps expiresAt with
    the subscription's endDate, mirrors the new prize balance into
    temporaryTokens.amount, rewrites the flat [tokens] to the new sum of the
    buckets and leaves the other buckets alone.  On a lapsed account it fails
    and changes nothing. *)
Theorem grantPrizeTokens_effect now userId amount prizeType grantedBy db user :
  users db !! userId = Some user ->
  (subscriptionExpired now user = true ->
     grantPrizeTokens now userId amount prizeType grantedBy db
     = (db, inl ActiveSubscriptionRequired)) /\
  (subscriptionExpired now user = false ->
     exists db' user' r,
       grantPrizeTokens now userId amount prizeType grantedBy db = (db', inr r) /\
       users db' !! userId = Some user' /\
       PrizeTokens.current (User.prizeTokens user')
       = PrizeTokens.current (User.prizeTokens user) + amount /\
       PrizeTokens.used (User.prizeTokens user')
       = PrizeTokens.used (User.prizeTokens user) /\
       PrizeTokens.history (User.prizeTokens user')
       = PrizeTokens.history (User.prizeTokens user)
         ++ [PrizeGrant.mk amount now grantedBy prizeType] /\
       historyTotal (PrizeTokens.history (User.prizeTokens user'))
       = historyTotal (PrizeTokens.history (User.prizeTokens user)) + amount /\
       PrizeTokens.expiresAt (User.prizeTokens user')
       = Subscription.endDate (User.subscription user) /\
       TemporaryTokens.amount (User.temporaryTokens user')
       = PrizeTokens.current (User.prizeTokens user') /\
       User.tokens user' = bucketSum user + amount /\
       User.dailyTokens user' = User.dailyTokens user /\
       User.purchasedTokens user' = User.purchasedTokens user /\
       User.bonusTokens user' = User.bonusTokens user /\
       zc_totalPrizeTokens r = PrizeTokens.current (User.prizeTokens user) + amount).
Proof.
  intros Hu. unfold grantPrizeTokens. rewrite Hu. split.
  - intros ->. reflexivity.
  - intros Hexp. rewrite Hexp. eexists _, _, _. split; [reflexivity|].
    split; [apply saveUser_lookup|]. cbn.
    rewrite historyTotal_app. cbn.
    unfold calculateTotalTokens, subscriptionExpired in *. cbn. rewrite Hexp.
    rewrite !or_default_zero. unfold bucketSum.
    repeat split; try reflexivity; lia.
Qed.

Lemma grantPrizeTokens_effect_witness :
  exists db' user' r,
    grantPrizeTokens 1000 1 50 "leaderboard" "admin"
      (singleAccountDb (accountWith 2000 5 10 0 0)) = (db', inr r) /\
    users db' !! 1%nat = Some user' /\
    PrizeTokens.current (User.prizeTokens user') = 50 /\
    User.tokens user' = 65.
Proof.
  destruct (proj2 (grantPrizeTokens_effect 1000 1 50 "leaderboard" "admin"
                     (singleAccountDb (accountWith 2000 5 10 0 0))
                     (accountWith 2000 5 10 0 0) ltac:(vm_compute; reflexivity))
              ltac:(vm_compute; reflexivity))
    as (db' & user' & r & Hcall & Hu & Hc & _ & _ & _ & _ & _ & Ht & _).
  exists db', user', r. split; [exact Hcall|]. split; [exact Hu|].
  rewrite Hc, Ht. split; vm_compute; reflexivity.
Defined.

(** The document the sweep saves, path by path. *)
Lemma cleanExpiredTokens_expired now userId user db :
  subscriptionExpired now user = true ->
  let positive :=
    (0 <? DailyTokens.current (User.dailyTokens user))
    || (0 <? PurchasedTokens.current (User.purchasedTokens user))
    || (0 <? BonusTokens.current (User.bonusTokens user))
    || (0 <? PrizeTokens.current (User.prizeTokens user)) in
  snd (cleanExpiredTokens now userId user db) = positive /\
  (positive = false -> fst (cleanExpiredTokens now userId user db) = db) /\
  (positive = true ->
   exists user',
     fst (cleanExpiredTokens now userId user db) = saveUser userId user' db /\
     DailyTokens.current (User.dailyTokens user')
     = Z.min 0 (DailyTokens.current (User.dailyTokens user)) /\
     PurchasedTokens.current (User.purchasedTokens user')
     = Z.min 0 (PurchasedTokens.current (User.purchasedTokens user)) /\
     BonusTokens.current (User.bonusTokens user')
     = Z.min 0 (BonusTokens.current (User.bonusTokens user)) /\
     PrizeTokens.current (User.prizeTokens user')
     = Z.min 0 (PrizeTokens.current (User.prizeTokens user)) /\
     User.tokens user' = 0 /\
     TemporaryTokens.amount (User.temporaryTokens user') = 0 /\
     PurchasedTokens.total (User.purchasedTokens user')
     = PurchasedTokens.total (User.purchasedTokens user) /\
     PurchasedTokens.used (User.purchasedTokens user')
     = PurchasedTokens.used (User.purchasedTokens user) /\
     BonusTokens.initial (User.bonusTokens user')
     = BonusTokens.initial (User.bonusTokens user) /\
     BonusTokens.used (User.bonusTokens user')
     = BonusTokens.used (User.bonusTokens user) /\
     PrizeTokens.used (User.prizeTokens user')
     = PrizeTokens.used (User.prizeTokens user) /\
     PrizeTokens.history (User.prizeTokens user')
     = PrizeTokens.history (User.prizeTokens user) /\
     DailyTokens.usedToday (User.dailyTokens user')
     = DailyTokens.usedToday (User.dailyTokens user) /\
     User.subscription user' = User.subscription user).
Proof.
  intros Hexp. unfold cleanExpiredTokens. rewrite Hexp.
  destruct (Z.ltb_spec 0 (DailyTokens.current (User.dailyTokens user)));
    cbn -[Z.min];
    destruct (Z.ltb_spec 0 (PurchasedTokens.current (User.purchasedTokens user)));
    cbn -[Z.min];
    destruct (Z.ltb_spec 0 (BonusTokens.current (User.bonusTokens user)));
    cbn -[Z.min];
    destruct (Z.ltb_spec 0 (PrizeTokens.current (User.prizeTokens user)));
    cbn -[Z.min].
  all: split; [reflexivity|]; split; [intros; congruence || reflexivity|].
  all: intros Hpos; try discriminate Hpos.
  all: eexists; split; [reflexivity|]; cbn -[Z.min]; repeat split; lia.
Qed.

Lemma subscriptionExpired_later now now' user :
  subscriptionExpired now user = true -> now <= now' ->
  subscriptionExpired now' user = true.
Proof.
  unfold subscriptionExpired.
  destruct (Subscription.endDate (User.subscription user)) as [e|]; [|reflexivity].
  intros H Hle. apply Z.ltb_lt in H. apply Z.ltb_lt. lia.
Qed.

(** X8.  The expiry sweep.  On an account whose plan still runs
    cleanExpiredTokens returns false and writes nothing.  On a lapsed account
    with non-negative balances it returns whether any bucket held tokens,
    leaves every bucket's [current] at 0 while the purchased total, the used
    counters, the bonus initial amount and the prize history keep their
    values, and running it again on the swept account returns false and
    changes nothing. *)
Theorem cleanExpiredTokens_sweep now now' userId user db :
  users db !! userId = Some user ->
  0 <= DailyTokens.current (User.dailyTokens user) ->
  0 <= PurchasedTokens.current (User.purchasedTokens user) ->
  0 <= BonusTokens.current (User.bonusTokens user) ->
  0 <= PrizeTokens.current (User.prizeTokens user) ->
  (subscriptionExpired now user = false ->
     cleanExpiredTokens now userId user db = (db, false)) /\
  (subscriptionExpired now user = true -> now <= now' ->
     let db' := fst (cleanExpiredTokens now userId user db) in
     snd (cleanExpiredTokens now userId user db) = (0 <? bucketSum user) /\
     exists user',
       users db' !! userId = Some user' /\
       DailyTokens.current (User.dailyTokens user') = 0 /\
       PurchasedTokens.current (User.purchasedTokens user') = 0 /\
       BonusTokens.current (User.bonusTokens user') = 0 /\
       PrizeTokens.current (User.prizeTokens user') = 0 /\
       PurchasedTokens.total (User.purchasedTokens user')
       = PurchasedTokens.total (User.purchasedTokens user) /\
       PurchasedTokens.used (User.purchasedTokens user')
       = PurchasedTokens.used (User.purchasedTokens user) /\
       BonusTokens.initial (User.bonusTokens user')
       = BonusTokens.initial (User.bonusTokens user) /\
       BonusTokens.used (User.bonusTokens user')
       = BonusTokens.used (User.bonusTokens user) /\
       PrizeTokens.used (User.prizeTokens user')
       = PrizeTokens.used (User.prizeTokens user) /\
       PrizeTokens.history (User.prizeTokens user')
       = PrizeTokens.history (User.prizeTokens user) /\
       cleanExpiredTokens now' userId user' db' = (db', false)).
Proof.
  intros Hu Hd Hp Hb Hz. split.
  - intros Hact. unfold cleanExpiredTokens. now rewrite Hact.
  - intros Hexp Hlater db'.
    destruct (cleanExpiredTokens_expired now userId user db Hexp)
      as (Hret & Hnone & Hsome).
    cbv zeta in Hret, Hnone, Hsome.
    assert (Hpos :
      (0 <? DailyTokens.current (User.dailyTokens user))
      || (0 <? PurchasedTokens.current (User.purchasedTokens user))
      || (0 <? BonusTokens.current (User.bonusTokens user))
      || (0 <? PrizeTokens.current (User.prizeTokens user))
      = (0 <? bucketSum user)).
    { unfold bucketSum.
      destruct (Z.ltb_spec 0 (DailyTokens.current (User.dailyTokens user)));
      destruct (Z.ltb_spec 0 (PurchasedTokens.current (User.purchasedTokens user)));
      destruct (Z.ltb_spec 0 (BonusTokens.current (User.bonusTokens user)));
      destruct (Z.ltb_spec 0 (PrizeTokens.current (User.prizeTokens user)));
      cbn; symmetry; (apply Z.ltb_lt || apply Z.ltb_ge); lia. }
    rewrite Hpos in Hret, Hnone, Hsome. split; [exact Hret|].
    assert (Hquiet : forall d u,
              subscriptionExpired now' u = true ->
              DailyTokens.current (User.dailyTokens u) = 0 ->
              PurchasedTokens.current (User.purchasedTokens u) = 0 ->
              BonusTokens.current (User.bonusTokens u) = 0 ->
              PrizeTokens.current (User.prizeTokens u) = 0 ->
              cleanExpiredTokens now' userId u d = (d, false)).
    { intros d u He E1 E2 E3 E4. unfold cleanExpiredTokens.
      rewrite He, E1. cbn. rewrite E2. cbn. rewrite E3. cbn. rewrite E4.
      reflexivity. }
    destruct (0 <? bucketSum user) eqn:Hsum.
    + destruct (Hsome eq_refl)
        as (user' & Hdb & E1 & E2 & E3 & E4 & _ & _ & R1 & R2 & R3 & R4 & R5 & R6 & _ & Hs).
      exists user'. subst db'. rewrite Hdb.
      split; [apply saveUser_lookup|].
      rewrite E1, E2, E3, E4, R1, R2, R3, R4, R5, R6.
      repeat split; try lia.
      apply Hquiet; try lia.
      unfold subscriptionExpired. rewrite Hs.
      exact (subscriptionExpired_later now now' user Hexp Hlater).
    + apply Z.ltb_ge in Hsum. unfold bucketSum in Hsum.
      exists user. subst db'. rewrite (Hnone eq_refl).
      split; [exact Hu|].
      repeat split; try lia.
      apply Hquiet; try lia.
      exact (subscriptionExpired_later now now' user Hexp Hlater).
Qed.

Lemma cleanExpiredTokens_sweep_witness :
  let db := singleAccountDb (accountWith 2000 5 10 0 0) in
  cleanExpiredTokens 1000 1 (accountWith 2000 5 10 0 0) db = (db, false) /\
  snd (cleanExpiredTokens 3000 1 (accountWith 2000 5 10 0 0) db) = true /\
  exists user',
    users (fst (cleanExpiredTokens 3000 1 (accountWith 2000 5 10 0 0) db)) !! 1%nat
    = Some user' /\
    DailyTokens.current (User.dailyTokens user') = 0 /\
    PurchasedTokens.current (User.purchasedTokens user') = 0.
Proof.
  cbv zeta.
  pose proof (cleanExpiredTokens_sweep 1000 1000 1 (accountWith 2000 5 10 0 0)
                (singleAccountDb (accountWith 2000 5 10 0 0))
                ltac:(vm_compute; reflexivity) ltac:(vm_compute; discriminate)
                ltac:(vm_compute; discriminate) ltac:(vm_compute; discriminate)
                ltac:(vm_compute; discriminate)) as [Hrun _].
  pose proof (cleanExpiredTokens_sweep 3000 3000 1 (accountWith 2000 5 10 0 0)
                (singleAccountDb (accountWith 2000 5 10 0 0))
                ltac:(vm_compute; reflexivity) ltac:(vm_compute; discriminate)
                ltac:(vm_compute; discriminate) ltac:(vm_compute; discriminate)
                ltac:(vm_compute; discriminate)) as [_ Hlapsed].
  split; [exact (Hrun ltac:(vm_compute; reflexivity))|].
  destruct (Hlapsed ltac:(vm_compute; reflexivity) ltac:(lia))
    as (Hret & user' & Hu & E1 & E2 & _).
  split; [rewrite Hret; vm_compute; reflexivity|].
  exists user'. split; [exact Hu|]. split; [exact E1|exact E2].
Defined.

(** ** Referral cycle engine, further *)

(** At or above the smallest target the check is the referral_8 grant. *)
Lemma checkReferralMilestones_at_target now referrerId db user :
  users db !! referrerId = Some user ->
  8 <= ReferralStats.activeReferrals (User.referralStats user) ->
  checkReferralMilestones now referrerId db
  = grantMilestoneRewardAndReset now referrerId user "referral_8"
      (mkMilestone 8 300 referral8Cycles referral8LastReset) db.
Proof.
  intros Hu Hreach. unfold checkReferralMilestones. rewrite Hu.
  exact (checkMilestoneEntries_first now referrerId user _ [] "referral_8"
           (mkMilestone 8 300 referral8Cycles referral8LastReset) _ db
           ltac:(constructor) Hreach).
Qed.

(** The account the referral_8 grant saves. *)
Lemma grant_referral_8 now userId user db :
  let db' := grantMilestoneRewardAndReset now userId user "referral_8"
               (mkMilestone 8 300 referral8Cycles referral8LastReset) db in
  exists user',
    users db' !! userId = Some user' /\
    (forall id, id <> userId -> users db' !! id = users db !! id) /\
    cyclesCompleted referral8Cycles user' = cyclesCompleted referral8Cycles user + 1 /\
    cyclesCompleted referral15Cycles user' = cyclesCompleted referral15Cycles user /\
    cyclesCompleted referral25Cycles user' = cyclesCompleted referral25Cycles user /\
    totalTokensEarned user' = totalTokensEarned user + 300 /\
    TemporaryTokens.amount (User.temporaryTokens user') = 300 /\
    TemporaryTokens.expiresAt (User.temporaryTokens user') = Some (now + DAY_MS) /\
    ReferralStats.activeReferrals (User.referralStats user') = 0 /\
    ReferralStats.totalReferrals (User.referralStats user')
    = ReferralStats.totalReferrals (User.referralStats user) /\
    User.referrals user' = cycleReferral <$> User.referrals user.
Proof.
  cbv zeta. unfold grantMilestoneRewardAndReset. eexists.
  split; [apply saveUser_lookup|].
  split; [intros id Hne; apply saveUser_lookup_ne; congruence|].
  unfold cyclesCompleted, totalTokensEarned. cbn.
  rewrite map_as_fmap.
  destruct (User.milestoneRewards user); cbn; rewrite ?or_default_zero;
    repeat split; lia.
Qed.

(** X9.  Only the first milestone is ever paid.  Whatever the count of
    active referrals, checkReferralMilestones leaves the cycle counters of
    referral_15 and referral_25 as they were and changes totalTokensEarned by
    0 or by 300: the loop stops at referral_8, whose target every larger
    count meets as well. *)
Theorem higher_milestones_never_granted now referrerId db user :
  users db !! referrerId = Some user ->
  exists user',
    users (checkReferralMilestones now referrerId db) !! referrerId = Some user' /\
    cyclesCompleted referral15Cycles user' = cyclesCompleted referral15Cycles user /\
    cyclesCompleted referral25Cycles user' = cyclesCompleted referral25Cycles user /\
    (totalTokensEarned user' = totalTokensEarned user \/
     totalTokensEarned user' = totalTokensEarned user + 300).
Proof.
  intros Hu.
  destruct (Z.lt_ge_cases (ReferralStats.activeReferrals (User.referralStats user)) 8)
    as [Hlt|Hge].
  - rewrite (checkReferralMilestones_below_target now referrerId db user Hu Hlt).
    exists user. auto.
  - rewrite (checkReferralMilestones_at_target now referrerId db user Hu Hge).
    destruct (grant_referral_8 now referrerId user db)
      as (user' & Hu' & _ & _ & H15 & H25 & Hearned & _).
    exists user'. auto.
Qed.

Lemma higher_milestones_never_granted_witness :
  exists user',
    users (checkReferralMilestones 1000 1 (singleAccountDb (referrerWith 30))) !! 1%nat
    = Some user' /\
    cyclesCompleted referral15Cycles user' = 0 /\
    cyclesCompleted referral25Cycles user' = 0.
Proof.
  destruct (higher_milestones_never_granted 1000 1 (singleAccountDb (referrerWith 30))
              (referrerWith 30) ltac:(vm_compute; reflexivity))
    as (user' & Hu & H15 & H25 & _).
  exists user'. split; [exact Hu|]. rewrite H15, H25.
  split; vm_compute; reflexivity.
Defined.

(** X10.  The referral engine never pays into the balance: after
    processReferralReward every account has the subscription, the flat
    [tokens] and the four buckets it had, so calculateTotalTokens is
    unchanged for every account at every instant; a milestone reward lands in
    temporaryTokens only. *)
Theorem processReferralReward_keeps_balances now referredUserId referrerId db id user :
  users db !! id = Some user ->
  exists user',
    users (processReferralReward now referredUserId referrerId db) !! id = Some user' /\
    ledgerOf user' = ledgerOf user /\
    bucketSum user' = bucketSum user /\
    forall instant, calculateTotalTokens instant user' = calculateTotalTokens instant user.
Proof.
  intros Hu.
  pose proof (processReferralReward_ledger now referredUserId referrerId db id) as Hl.
  rewrite Hu in Hl. cbn in Hl. apply ledger_lookup in Hl as (user' & Hu' & Hl).
  exists user'. split; [exact Hu'|]. split; [exact Hl|].
  unfold ledgerOf in Hl. injection Hl as Hs Ht Hd Hp Hb Hz.
  unfold bucketSum, calculateTotalTokens, subscriptionExpired.
  rewrite Hs, Hd, Hp, Hb, Hz. split; [reflexivity|]. intros instant. reflexivity.
Qed.

Lemma processReferralReward_keeps_balances_witness :
  exists user',
    users (processReferralReward 1000 100 1 (singleAccountDb (referrerWith 8))) !! 1%nat
    = Some user' /\
    bucketSum user' = 0 /\
    TemporaryTokens.amount (User.temporaryTokens user') = 300.
Proof.
  destruct (processReferralReward_keeps_balances 1000 100 1
              (singleAccountDb (referrerWith 8)) 1 (referrerWith 8)
              ltac:(vm_compute; reflexivity))
    as (user' & Hu & _ & Hsum & _).
  exists user'. split; [exact Hu|]. split; [rewrite Hsum; vm_compute; reflexivity|].
  assert (H : TemporaryTokens.amount <$> (User.temporaryTokens <$>
                users (processReferralReward 1000 100 1
                         (singleAccountDb (referrerWith 8))) !! 1%nat) = Some 300)
    by (vm_compute; reflexivity).
  rewrite Hu in H. cbn in H. congruence.
Defined.

(** updateReferralStats as one write. *)
Lemma updateReferralStats_eq referrerId db user :
  users db !! referrerId = Some user ->
  updateReferralStats referrerId db
  = saveUser referrerId
      (User.with_referralStats
         (ReferralStats.mk (Z.of_nat (length (User.referrals user)))
            (activeCount (User.referrals user))
            (ReferralStats.totalEarnings (User.referralStats user))) user) db.
Proof. intros Hu. unfold updateReferralStats. now rewrite Hu. Qed.

(** X11.  updateReferralStats recomputes the two counters from the referral
    list: totalReferrals is its length and activeReferrals the number of its
    active entries, so 0 <= activeReferrals <= totalReferrals afterwards; the
    list and totalEarnings are kept, and a second run changes nothing. *)
Theorem updateReferralStats_recounts referrerId db user :
  users db !! referrerId = Some user ->
  exists user',
    users (updateReferralStats referrerId db) !! referrerId = Some user' /\
    ReferralStats.totalReferrals (User.referralStats user')
    = Z.of_nat (length (User.referrals user)) /\
    ReferralStats.activeReferrals (User.referralStats user')
    = activeCount (User.referrals user) /\
    0 <= ReferralStats.activeReferrals (User.referralStats user')
      <= ReferralStats.totalReferrals (User.referralStats user') /\
    ReferralStats.totalEarnings (User.referralStats user')
    = ReferralStats.totalEarnings (User.referralStats user) /\
    User.referrals user' = User.referrals user /\
    User.milestoneRewards user' = User.milestoneRewards user /\
    updateReferralStats referrerId (updateReferralStats referrerId db)
    = updateReferralStats referrerId db.
Proof.
  intros Hu. rewrite (updateReferralStats_eq referrerId db user Hu).
  eexists. split; [apply saveUser_lookup|]. cbn. unfold activeCount.
  pose proof (List.filter_length_le Referral.isActive (User.referrals user)) as Hle.
  split; [reflexivity|]. split; [reflexivity|]. split; [lia|].
  split; [reflexivity|]. split; [reflexivity|]. split; [reflexivity|].
  rewrite (updateReferralStats_eq referrerId _ _ (saveUser_lookup _ _ _)).
  unfold saveUser. cbn. now rewrite insert_insert_eq.
Qed.

Lemma updateReferralStats_recounts_witness :
  exists user',
    users (updateReferralStats 1 (singleAccountDb (referrerAwaiting 3))) !! 1%nat
    = Some user' /\
    ReferralStats.totalReferrals (User.referralStats user') = 4 /\
    ReferralStats.activeReferrals (User.referralStats user') = 3.
Proof.
  destruct (updateReferralStats_recounts 1 (singleAccountDb (referrerAwaiting 3))
              (referrerAwaiting 3) ltac:(vm_compute; reflexivity))
    as (user' & Hu & Ht & Ha & _).
  exists user'. split; [exact Hu|]. rewrite Ht, Ha. split; vm_compute; reflexivity.
Defined.

(** The positional update reaches the first entry of the referred account. *)
Lemma activateFirstMatch_first referredUserId before referral after :
  Forall (fun r => Referral.userId r <> referredUserId) before ->
  Referral.userId referral = referredUserId ->
  activateFirstMatch referredUserId (before ++ referral :: after)
  = Some (before ++ activated referral :: after).
Proof.
  intros Hbefore Hid. induction Hbefore as [|r before Hne _ IH]; cbn.
  - rewrite Hid, Nat.eqb_refl. reflexivity.
  - destruct (Nat.eqb_spec (Referral.userId r) referredUserId); [contradiction|].
    now rewrite IH.
Qed.

Lemma activateFirstMatch_none referredUserId referrals :
  Forall (fun r => Referral.userId r <> referredUserId) referrals ->
  activateFirstMatch referredUserId referrals = None.
Proof.
  intros H. induction H as [|r referrals Hne _ IH]; cbn; [reflexivity|].
  destruct (Nat.eqb_spec (Referral.userId r) referredUserId); [contradiction|].
  now rewrite IH.
Qed.

(** processReferralReward up to the milestone check, when the referrer lists
    the referred account. *)
Lemma processReferralReward_unfold now referredUserId referrerId db referrer referrals' :
  users db !! referrerId = Some referrer ->
  activateFirstMatch referredUserId (User.referrals referrer) = Some referrals' ->
  let counted :=
    User.with_referralStats
      (ReferralStats.mk (Z.of_nat (length referrals')) (activeCount referrals')
         (ReferralStats.totalEarnings (User.referralStats referrer)))
      (User.with_referrals referrals' referrer) in
  processReferralReward now referredUserId referrerId db
  = checkReferralMilestones now referrerId (saveUser referrerId counted db) /\
  users (saveUser referrerId counted db) !! referrerId = Some counted.
Proof.
  intros Hu Hact. cbv zeta. unfold processReferralReward. rewrite Hu, Hact.
  unfold updateReferralStats. rewrite saveUser_lookup. cbn.
  split; [|apply lookup_insert_eq].
  f_equal. unfold saveUser. cbn. now rewrite insert_insert_eq.
Qed.

(** X12.  A first payment of a referred account is counted once, on the
    first entry the referrer holds for it: that entry becomes active with
    status 'active', every other entry is kept, totalReferrals is the length
    of the list and activeReferrals the number of its active entries; while
    that number stays below 8 no milestone data changes. *)
Theorem processReferralReward_counts_referral now referredUserId referrerId db referrer
    before referral after :
  users db !! referrerId = Some referrer ->
  User.referrals referrer = before ++ referral :: after ->
  Forall (fun r => Referral.userId r <> referredUserId) before ->
  Referral.userId referral = referredUserId ->
  activeCount (before ++ activated referral :: after) < 8 ->
  exists referrer',
    users (processReferralReward now referredUserId referrerId db) !! referrerId
    = Some referrer' /\
    User.referrals referrer' = before ++ activated referral :: after /\
    ReferralStats.activeReferrals (User.referralStats referrer')
    = activeCount (before ++ activated referral :: after) /\
    ReferralStats.totalReferrals (User.referralStats referrer')
    = Z.of_nat (length (User.referrals referrer)) /\
    User.milestoneRewards referrer' = User.milestoneRewards referrer /\
    User.temporaryTokens referrer' = User.temporaryTokens referrer /\
    forall id, id <> referrerId ->
      users (processReferralReward now referredUserId referrerId db) !! id
      = users db !! id.
Proof.
  intros Hu Hrefs Hbefore Hid Hcount.
  pose proof (activateFirstMatch_first referredUserId before referral after Hbefore Hid)
    as Hact.
  rewrite <- Hrefs in Hact.
  destruct (processReferralReward_unfold now referredUserId referrerId db referrer _
              Hu Hact) as [Heq Hl].
  cbv zeta in Heq, Hl. rewrite Heq.
  rewrite (checkReferralMilestones_below_target now referrerId _ _ Hl)
    by (cbn; exact Hcount).
  eexists. split; [exact Hl|]. cbn.
  repeat split.
  - rewrite Hrefs, !length_app. cbn. reflexivity.
  - intros id Hne. apply saveUser_lookup_ne. congruence.
Qed.

Lemma processReferralReward_counts_referral_witness :
  exists referrer',
    users (processReferralReward 1000 200 1 (singleAccountDb (referrerAwaiting 3)))
      !! 1%nat = Some referrer' /\
    ReferralStats.activeReferrals (User.referralStats referrer') = 4.
Proof.
  destruct (processReferralReward_counts_referral 1000 200 1
              (singleAccountDb (referrerAwaiting 3)) (referrerAwaiting 3)
              (User.referrals (referrerWith 3)) (Referral.mk 200 0 false ref_pending) []
              ltac:(vm_compute; reflexivity) ltac:(vm_compute; reflexivity)
              ltac:(vm_compute; repeat constructor; discriminate)
              ltac:(reflexivity) ltac:(vm_compute; reflexivity))
    as (referrer' & Hu & _ & Ha & _).
  exists referrer'. split; [exact Hu|]. rewrite Ha. vm_compute. reflexivity.
Defined.

(** X13.  The payment that brings the number of active entries to 8 (or
    beyond) completes a cycle inside the same call: the referrer ends with
    activeReferrals 0, every entry inactive (the ones that were active,
    the newly activated one included, marked 'cycled'), one more referral_8
    cycle, 300 more in totalTokensEarned and temporaryTokens.amount = 300. *)
Theorem processReferralReward_completes_cycle now referredUserId referrerId db referrer
    before referral after :
  users db !! referrerId = Some referrer ->
  User.referrals referrer = before ++ referral :: after ->
  Forall (fun r => Referral.userId r <> referredUserId) before ->
  Referral.userId referral = referredUserId ->
  8 <= activeCount (before ++ activated referral :: after) ->
  exists referrer',
    users (processReferralReward now referredUserId referrerId db) !! referrerId
    = Some referrer' /\
    User.referrals referrer'
    = (cycleReferral <$> before) ++ cycled referral :: (cycleReferral <$> after) /\
    Forall (fun r => Referral.isActive r = false) (User.referrals referrer') /\
    ReferralStats.activeReferrals (User.referralStats referrer') = 0 /\
    ReferralStats.totalReferrals (User.referralStats referrer')
    = Z.of_nat (length (User.referrals referrer)) /\
    cyclesCompleted referral8Cycles referrer'
    = cyclesCompleted referral8Cycles referrer + 1 /\
    totalTokensEarned referrer' = totalTokensEarned referrer + 300 /\
    TemporaryTokens.amount (User.temporaryTokens referrer') = 300.
Proof.
  intros Hu Hrefs Hbefore Hid Hcount.
  pose proof (activateFirstMatch_first referredUserId before referral after Hbefore Hid)
    as Hact.
  rewrite <- Hrefs in Hact.
  destruct (processReferralReward_unfold now referredUserId referrerId db referrer _
              Hu Hact) as [Heq Hl].
  cbv zeta in Heq, Hl. rewrite Heq.
  rewrite (checkReferralMilestones_at_target now referrerId _ _ Hl)
    by (cbn; exact Hcount).
  match goal with
  | |- context [ grantMilestoneRewardAndReset now referrerId ?u _ _ ?d ] =>
      destruct (grant_referral_8 now referrerId u d)
        as (referrer' & Hu' & _ & H8 & _ & _ & Hearned & Hamt & _ & Hzero & Htot & Hlist)
  end.
  exists referrer'. split; [exact Hu'|].
  cbn in Hlist, Htot, H8, Hearned.
  assert (Hshape : User.referrals referrer'
            = (cycleReferral <$> before) ++ cycled referral
              :: (cycleReferral <$> after)).
  { rewrite Hlist, fmap_app. reflexivity. }
  split; [exact Hshape|].
  split.
  { rewrite Hlist. apply Forall_fmap, Forall_forall. intros r _. cbn.
    apply cycleReferral_inactive. }
  split; [exact Hzero|].
  split; [rewrite Htot, Hrefs, !length_app; reflexivity|].
  split; [exact H8|]. split; [exact Hearned|exact Hamt].
Qed.

Lemma processReferralReward_completes_cycle_witness :
  exists referrer',
    users (processReferralReward 1000 200 1 (singleAccountDb (referrerAwaiting 7)))
      !! 1%nat = Some referrer' /\
    ReferralStats.activeReferrals (User.referralStats referrer') = 0 /\
    cyclesCompleted referral8Cycles referrer' = 1.
Proof.
  destruct (processReferralReward_completes_cycle 1000 200 1
              (singleAccountDb (referrerAwaiting 7)) (referrerAwaiting 7)
              (User.referrals (referrerWith 7)) (Referral.mk 200 0 false ref_pending) []
              ltac:(vm_compute; reflexivity) ltac:(vm_compute; reflexivity)
              ltac:(vm_compute; repeat constructor; discriminate)
              ltac:(reflexivity) ltac:(vm_compute; discriminate))
    as (referrer' & Hu & _ & _ & Ha & _ & H8 & _).
  exists referrer'. split; [exact Hu|]. split; [exact Ha|].
  rewrite H8. vm_compute. reflexivity.
Defined.

Lemma upperAscii_lowerAscii c : upperAscii (lowerAscii c) = upperAscii c.
Proof.
  destruct c as [b0 b1 b2 b3 b4 b5 b6 b7].
  destruct b0, b1, b2, b3, b4, b5, b6, b7; vm_compute; reflexivity.
Qed.

Lemma upperAscii_idempotent c : upperAscii (upperAscii c) = upperAscii c.
Proof.
  destruct c as [b0 b1 b2 b3 b4 b5 b6 b7].
  destruct b0, b1, b2, b3, b4, b5, b6, b7; vm_compute; reflexivity.
Qed.

Lemma toUpperCase_toLowerCase s : toUpperCase (toLowerCase s) = toUpperCase s.
Proof.
  induction s as [|c s IH]; cbn; [reflexivity|].
  now rewrite upperAscii_lowerAscii, IH.
Qed.

Lemma toUpperCase_idempotent s : toUpperCase (toUpperCase s) = toUpperCase s.
Proof.
  induction s as [|c s IH]; cbn; [reflexivity|].
  now rewrite upperAscii_idempotent, IH.
Qed.

(** X14.  validateReferralCode only returns a stored account that holds the
    upper-cased code and whose subscription has not ended at [now]; a missing
    or empty code finds nobody; and the spelling of the code's letters does
    not matter: the lower-cased and the upper-cased code find what the code
    itself finds. *)
Theorem validateReferralCode_sound_and_case_blind now code db :
  (forall id user,
     validateReferralCode now (Some code) db = Some (id, user) ->
     users db !! id = Some user /\
     code <> "" /\
     User.referralCode user = Some (toUpperCase code) /\
     exists endDate,
       Subscription.endDate (User.subscription user) = Some endDate /\
       now <= endDate) /\
  validateReferralCode now (Some (toLowerCase code)) db
  = validateReferralCode now (Some code) db /\
  validateReferralCode now (Some (toUpperCase code)) db
  = validateReferralCode now (Some code) db /\
  validateReferralCode now None db = None /\
  validateReferralCode now (Some "") db = None.
Proof.
  split; [|split; [|split; [|split]]].
  - intros id user H. unfold validateReferralCode in H.
    destruct (String.eqb_spec code ""); [discriminate|].
    apply findOne_Some in H as [Hu Hf].
    split; [exact Hu|]. split; [assumption|].
    destruct (User.referralCode user) as [c|]; [|discriminate].
    destruct (Subscription.endDate (User.subscription user)) as [e|]; [|discriminate].
    apply andb_prop in Hf as [Hc He].
    apply String.eqb_eq in Hc. apply Z.leb_le in He. subst c. eauto.
  - unfold validateReferralCode. rewrite toUpperCase_toLowerCase.
    destruct code; reflexivity.
  - unfold validateReferralCode. rewrite toUpperCase_idempotent.
    destruct code; reflexivity.
  - reflexivity.
  - reflexivity.
Qed.

Lemma validateReferralCode_sound_and_case_blind_witness :
  exists user,
    validateReferralCode 1000 (Some "ab12cd34ef56") referrerDb = Some (1%nat, user) /\
    User.referralCode user = Some "AB12CD34EF56".
Proof.
  destruct (validateReferralCode 1000 (Some "ab12cd34ef56") referrerDb)
    as [[id user]|] eqn:Hfind.
  - destruct (proj1 (validateReferralCode_sound_and_case_blind 1000 "ab12cd34ef56"
                       referrerDb) id user Hfind) as (_ & _ & Hcode & _).
    assert (Hid : id = 1%nat) by (vm_compute in Hfind; congruence).
    subst id. exists user. split; [reflexivity|]. rewrite Hcode. reflexivity.
  - vm_compute in Hfind. discriminate Hfind.
Defined.

(** ** PhonePe service and controller, further *)

Lemma append_cons c p r : String c p +:+ r = String c (p +:+ r).
Proof. reflexivity. Qed.

Lemma append_nil r : "" +:+ r = r.
Proof. reflexivity. Qed.

Lemma prefix_append p r : String.prefix p (p +:+ r) = true.
Proof.
  induction p as [|c p IH].
  - rewrite append_nil. now destruct r.
  - rewrite append_cons. cbn.
    destruct (Ascii.ascii_dec c c); [exact IH|contradiction].
Qed.

Lemma prefix_split p s :
  String.prefix p s = true ->
  s = p +:+ String.substring (String.length p) (String.length s - String.length p) s.
Proof.
  revert s. induction p as [|c p IH]; intros s H.
  - rewrite append_nil. cbn. rewrite Nat.sub_0_r. clear H.
    induction s as [|d s IHs]; cbn; [reflexivity|]. now rewrite <- IHs.
  - destruct s as [|d s]; cbn in H; [discriminate|].
    destruct (Ascii.ascii_dec c d) as [->|]; [|discriminate].
    rewrite append_cons. cbn. f_equal. now apply IH.
Qed.

Lemma substring_after_prefix p r :
  String.substring (String.length p) (String.length (p +:+ r) - String.length p)
    (p +:+ r) = r.
Proof.
  induction p as [|c p IH].
  - rewrite append_nil. cbn. rewrite Nat.sub_0_r.
    induction r as [|d r IHr]; cbn; [reflexivity|]. now rewrite IHr.
  - rewrite append_cons. cbn. exact IH.
Qed.

(** X15.  verifyWebhookSignature accepts exactly one header: "SHA256 "
    followed by the base64 SHA-256 digest of "username:password".  A missing
    header, another scheme or another digest is refused. *)
Theorem verifyWebhookSignature_exact env authHeader :
  PhonePe.verifyWebhookSignature env authHeader = true <->
  authHeader
  = Some ("SHA256 "
          +:+ sha256Base64 env
                (PHONEPE_WEBHOOK_USERNAME env +:+ ":" +:+ PHONEPE_WEBHOOK_PASSWORD env)).
Proof.
  unfold PhonePe.verifyWebhookSignature. split.
  - destruct authHeader as [h|]; [|discriminate].
    destruct (String.prefix "SHA256 " h) eqn:Hp; cbn -[String.substring]; [|discriminate].
    intros He. apply String.eqb_eq in He. apply prefix_split in Hp.
    change (String.length "SHA256 ") with 7%nat in Hp.
    rewrite He in Hp. now rewrite Hp at 1.
  - intros ->. rewrite prefix_append. cbn -[String.substring String.append].
    change 7%nat with (String.length "SHA256 ").
    rewrite substring_after_prefix. apply String.eqb_refl.
Qed.

(** X16.  What the PhonePe webhook ignores.  With a valid signature the
    handler answers 200 and leaves the database as it is when the body has no
    event or no payload (success false), when metaInfo.udf2 names neither
    'subscription' nor 'token_purchase', and when the state is neither
    COMPLETED nor FAILED (a PENDING notification). *)
Theorem phonepe_webhook_ignored env now authHeader body db :
  PhonePe.verifyWebhookSignature env authHeader = true ->
  (PhonePe.parseWebhookData body = None ->
     PhonePe.handleWebhook env now authHeader body db
     = (db, mkResponse 200 (Some false) None (Some "Webhook processing failed"))) /\
  (forall webhookData,
     PhonePe.parseWebhookData body = Some webhookData ->
     PhonePe.udf2 (PhonePe.metaInfo webhookData) <> Some "subscription" ->
     PhonePe.udf2 (PhonePe.metaInfo webhookData) <> Some "token_purchase" ->
     PhonePe.handleWebhook env now authHeader body db
     = (db, mkResponse 200 (Some true) None None)) /\
  (forall webhookData,
     PhonePe.parseWebhookData body = Some webhookData ->
     PhonePe.state webhookData <> "COMPLETED" ->
     PhonePe.state webhookData <> "FAILED" ->
     PhonePe.handleWebhook env now authHeader body db
     = (db, mkResponse 200 (Some true) None None)).
Proof.
  intros Hsig. unfold PhonePe.handleWebhook. rewrite Hsig. cbn.
  split; [|split].
  - intros ->. reflexivity.
  - intros wd -> H1 H2. unfold PhonePe.processWebhook.
    destruct (PhonePe.udf2 (PhonePe.metaInfo wd)) as [t|]; [|reflexivity].
    destruct (String.eqb_spec t "subscription"); [congruence|].
    destruct (String.eqb_spec t "token_purchase"); [congruence|]. reflexivity.
  - intros wd -> H1 H2.
    assert (Hsub : PhonePe.processSubscriptionWebhook now wd db = Some db).
    { unfold PhonePe.processSubscriptionWebhook.
      destruct (PhonePe.udf1 (PhonePe.metaInfo wd) ≫= _) as [[orderId order]|];
        [|reflexivity].
      destruct (String.eqb_spec (PhonePe.state wd) "COMPLETED"); [congruence|].
      destruct (String.eqb_spec (PhonePe.state wd) "FAILED"); [congruence|].
      reflexivity. }
    assert (Htok : PhonePe.processTokenWebhook now wd db = Some db).
    { unfold PhonePe.processTokenWebhook.
      destruct (PhonePe.udf1 (PhonePe.metaInfo wd) ≫= _) as [[id transaction]|];
        [|reflexivity].
      destruct (String.eqb_spec (PhonePe.state wd) "COMPLETED"); [congruence|].
      destruct (String.eqb_spec (PhonePe.state wd) "FAILED"); [congruence|].
      reflexivity. }
    unfold PhonePe.processWebhook.
    destruct (PhonePe.udf2 (PhonePe.metaInfo wd)) as [t|]; [|reflexivity].
    destruct (String.eqb t "subscription"); [now rewrite Hsub|].
    destruct (String.eqb t "token_purchase"); [now rewrite Htok|]. reflexivity.
Qed.

Lemma verifyWebhookSignature_exact_witness :
  PhonePe.verifyWebhookSignature sampleEnv (Some validHeader) = true /\
  PhonePe.verifyWebhookSignature sampleEnv (Some "SHA256 forged") = false.
Proof.
  split.
  - apply (proj2 (verifyWebhookSignature_exact sampleEnv (Some validHeader))).
    reflexivity.
  - destruct (PhonePe.verifyWebhookSignature sampleEnv (Some "SHA256 forged")) eqn:H;
      [|reflexivity].
    apply (proj1 (verifyWebhookSignature_exact sampleEnv (Some "SHA256 forged"))) in H.
    vm_compute in H. discriminate H.
Defined.

Lemma phonepe_webhook_ignored_witness :
  PhonePe.handleWebhook sampleEnv 1000 (Some validHeader) pendingTokenWebhook purchaseDb
  = (purchaseDb, mkResponse 200 (Some true) None None).
Proof.
  refine (proj2 (proj2 (phonepe_webhook_ignored sampleEnv 1000 (Some validHeader)
                          pendingTokenWebhook purchaseDb
                          ltac:(vm_compute; reflexivity))) _ eq_refl _ _);
    vm_compute; discriminate.
Defined.

(** X17.  A FAILED notification moves no tokens: the subscription path marks
    the order's paymentStatus failed and the token path marks the
    transaction's status failed, each storing errorInfo.message (or 'Payment
    failed') as the failure reason, whatever the record's status was before;
    every account stays as it was. *)
Theorem phonepe_failed_webhook_marks_record now webhookData db id :
  PhonePe.udf1 (PhonePe.metaInfo webhookData) = Some id ->
  PhonePe.state webhookData = "FAILED" ->
  (forall order,
     orders db !! id = Some order ->
     exists db' order',
       PhonePe.processSubscriptionWebhook now webhookData db = Some db' /\
       users db' = users db /\
       orders db' !! id = Some order' /\
       Order.paymentStatus order' = failed /\
       Order.failureReason order' = Some (storedFailureReason webhookData) /\
       Order.userId order' = Order.userId order /\
       Order.amount order' = Order.amount order) /\
  (forall transaction,
     transactions db !! id = Some transaction ->
     exists db' transaction',
       PhonePe.processTokenWebhook now webhookData db = Some db' /\
       users db' = users db /\
       transactions db' !! id = Some transaction' /\
       TokenTransaction.status transaction' = failed /\
       TokenTransaction.failureReason transaction'
       = Some (storedFailureReason webhookData) /\
       TokenTransaction.tokens transaction' = TokenTransaction.tokens transaction /\
       TokenTransaction.userId transaction' = TokenTransaction.userId transaction).
Proof.
  intros Hid Hst. split.
  - intros order Ho. unfold PhonePe.processSubscriptionWebhook.
    rewrite Hid. cbn. rewrite Ho. cbn. rewrite Hst. cbn.
    eexists _, _. split; [reflexivity|]. cbn.
    split; [reflexivity|]. split; [apply lookup_insert_eq|]. repeat split.
  - intros transaction Ht. unfold PhonePe.processTokenWebhook.
    rewrite Hid. cbn. rewrite Ht. cbn. rewrite Hst. cbn.
    eexists _, _. split; [reflexivity|]. cbn.
    split; [reflexivity|]. split; [apply lookup_insert_eq|]. repeat split.
Qed.

Lemma phonepe_failed_webhook_marks_record_witness :
  exists db' transaction',
    PhonePe.handleWebhook sampleEnv 1000 (Some validHeader) failedTokenWebhook purchaseDb
    = (db', mkResponse 200 (Some true) None None) /\
    users db' = users purchaseDb /\
    transactions db' !! 7%nat = Some transaction' /\
    TokenTransaction.status transaction' = failed /\
    TokenTransaction.failureReason transaction' = Some "AUTHORIZATION_ERROR".
Proof.
  destruct (proj2 (phonepe_failed_webhook_marks_record 1000
                     (PhonePe.mkWebhookData "checkout.order.failed"
                        (Some "TOKEN_1000_ABCD1234") "FAILED"
                        (PhonePe.mkMetaInfo (Some 7%nat) (Some "token_purchase"))
                        (Some "OM12333") (Some "AUTHORIZATION_ERROR"))
                     purchaseDb 7%nat eq_refl eq_refl)
              (TokenTransaction.mk 1 3 None 100 49 pending
                 None None None None None)
              ltac:(vm_compute; reflexivity))
    as (db' & transaction' & Hcall & Hu & Ht & Hs & Hr & _).
  exists db', transaction'.
  split.
  { unfold PhonePe.handleWebhook.
    replace (PhonePe.verifyWebhookSignature sampleEnv (Some validHeader)) with true
      by (vm_compute; reflexivity).
    cbn -[PhonePe.processTokenWebhook purchaseDb]. rewrite Hcall. reflexivity. }
  split; [exact Hu|]. split; [exact Ht|]. split; [exact Hs|exact Hr].
Defined.

(** X18.  A COMPLETED PhonePe notification for a subscription order that is
    linked to no account (a guest checkout), or to an account that no longer
    exists, marks the order completed and activates nothing: no account is
    created or changed. *)
Theorem phonepe_completed_guest_order_activates_nothing now webhookData db orderId order :
  PhonePe.udf1 (PhonePe.metaInfo webhookData) = Some orderId ->
  orders db !! orderId = Some order ->
  PhonePe.state webhookData = "COMPLETED" ->
  (Order.userId order = None \/
   exists userId, Order.userId order = Some userId /\ users db !! userId = None) ->
  exists db' order',
    PhonePe.processSubscriptionWebhook now webhookData db = Some db' /\
    users db' = users db /\
    orders db' !! orderId = Some order' /\
    Order.paymentStatus order' = completed /\
    Order.completedAt order' = Some now /\
    Order.userId order' = Order.userId order.
Proof.
  intros Hid Ho Hst Hguest. unfold PhonePe.processSubscriptionWebhook.
  rewrite Hid. cbn. rewrite Ho. cbn. rewrite Hst. cbn.
  destruct Hguest as [Hnone|(userId & Hsome & Hmissing)].
  - rewrite Hnone. eexists _, _. split; [reflexivity|]. cbn.
    split; [reflexivity|]. split; [apply lookup_insert_eq|]. repeat split.
    cbn. now rewrite Hnone.
  - rewrite Hsome, Hmissing. eexists _, _. split; [reflexivity|]. cbn.
    split; [reflexivity|]. split; [apply lookup_insert_eq|]. repeat split.
    cbn. now rewrite Hsome.
Qed.

Lemma phonepe_completed_guest_order_activates_nothing_witness :
  exists db' order',
    PhonePe.processSubscriptionWebhook 1000
      (PhonePe.mkWebhookData "checkout.order.completed" (Some "SUB_1000_ABCD1234")
         "COMPLETED" (PhonePe.mkMetaInfo (Some 9%nat) (Some "subscription"))
         (Some "OM12334") None) guestCheckoutDb = Some db' /\
    users db' = users guestCheckoutDb /\
    orders db' !! 9%nat = Some order' /\
    Order.paymentStatus order' = completed.
Proof.
  destruct (guestCheckoutDb.(orders) !! 9%nat) as [order|] eqn:Ho.
  - destruct (phonepe_completed_guest_order_activates_nothing 1000
                (PhonePe.mkWebhookData "checkout.order.completed"
                   (Some "SUB_1000_ABCD1234") "COMPLETED"
                   (PhonePe.mkMetaInfo (Some 9%nat) (Some "subscription"))
                   (Some "OM12334") None) guestCheckoutDb 9%nat order
                eq_refl Ho eq_refl
                ltac:(left; vm_compute in Ho; injection Ho as <-; reflexivity))
      as (db' & order' & Hcall & Hu & Hl & Hs & _).
    exists db', order'. repeat split; assumption.
  - vm_compute in Ho. discriminate Ho.
Defined.

(** X19.  createSubscriptionPayment writes nothing unless the gateway
    accepts: every answer other than 200 (missing fields, unknown order,
    order already paid, gateway error) leaves the database as it is, and an
    order whose paymentStatus is completed is always refused with 400 'Order
    already paid'.  On 200 the one order named by the request gets the
    merchant order id and the PhonePe order id and its paymentStatus becomes
    pending; accounts, other orders and the order's amount, plan and status
    are untouched. *)
Theorem createSubscriptionPayment_effect merchantOrderId gateway req db :
  let result := createSubscriptionPayment merchantOrderId gateway req db in
  (statusCode (snd result) <> 200 -> fst result = db) /\
  (forall orderId order,
     sp_orderId req = Some orderId ->
     orders db !! orderId = Some order ->
     Order.paymentStatus order = completed ->
     sp_planId req <> None -> truthy (sp_name req) <> None ->
     truthy (sp_email req) <> None ->
     result = (db, mkResponse 400 (Some false) None (Some "Order already paid"))) /\
  (statusCode (snd result) = 200 ->
     exists orderId order phonePeOrderId,
       sp_orderId req = Some orderId /\
       orders db !! orderId = Some order /\
       gateway = inr phonePeOrderId /\
       users (fst result) = users db /\
       transactions (fst result) = transactions db /\
       orders (fst result)
       = <[orderId :=
             Order.mk (Order.clientOrderId order) (Order.userEmail order)
               (Order.userName order) (Order.planId order) (Order.userId order)
               (Order.amount order) (Order.status order) pending
               (Order.referralCode order) (Order.providerOrderId order)
               (Some merchantOrderId) (Some phonePeOrderId)
               (Order.phonePeTransactionId order) (Order.completedAt order)
               (Order.failureReason order)]> (orders db)).
Proof.
  cbv zeta. unfold createSubscriptionPayment.
  destruct (sp_orderId req) as [orderId|];
    [|repeat split; cbn; intros; congruence].
  destruct (sp_planId req) as [planId|];
    [|repeat split; cbn; intros; congruence].
  destruct (truthy (sp_name req)) as [name|];
    [|repeat split; cbn; intros; congruence].
  destruct (truthy (sp_email req)) as [email|];
    [|repeat split; cbn; intros; congruence].
  destruct (orders db !! orderId) as [order|] eqn:Ho;
    [|repeat split; cbn; intros; congruence].
  destruct (Order.paymentStatus order) eqn:Hps.
  2: { split; [reflexivity|]. split.
       - intros i o [= <-] Ho'. rewrite Ho in Ho'. injection Ho' as <-.
         reflexivity.
       - cbn. intros; congruence. }
  all: destruct gateway as [errorMessage|phonePeOrderId].
  all: split; [cbn; intros; congruence|].
  all: split; [intros i o [= <-] Ho'; rewrite Ho in Ho'; injection Ho' as <-;
               congruence|].
  all: cbn; intros H; try congruence.
  all: exists orderId, order, phonePeOrderId.
  all: split; [reflexivity|]; split; [exact Ho|]; repeat split; reflexivity.
Qed.

Lemma createSubscriptionPayment_effect_witness :
  createSubscriptionPayment "SUB_1000_ABCD1234" (inl "timeout")
    (mkSubscriptionPaymentRequest (Some 9%nat) (Some 5%nat) (Some "Ann")
       (Some "new@example.com")) guestCheckoutDb
  = (guestCheckoutDb, mkResponse 500 (Some false) None (Some "timeout")).
Proof.
  pose proof (proj1 (createSubscriptionPayment_effect "SUB_1000_ABCD1234"
                       (inl "timeout")
                       (mkSubscriptionPaymentRequest (Some 9%nat) (Some 5%nat)
                          (Some "Ann") (Some "new@example.com")) guestCheckoutDb)
                ltac:(vm_compute; discriminate)) as Hdb.
  destruct (createSubscriptionPayment "SUB_1000_ABCD1234" (inl "timeout")
              (mkSubscriptionPaymentRequest (Some 9%nat) (Some 5%nat) (Some "Ann")
                 (Some "new@example.com")) guestCheckoutDb) as [db' response] eqn:Hcall.
  cbn in Hdb. subst db'. f_equal.
  assert (H : snd (createSubscriptionPayment "SUB_1000_ABCD1234" (inl "timeout")
                     (mkSubscriptionPaymentRequest (Some 9%nat) (Some 5%nat)
                        (Some "Ann") (Some "new@example.com")) guestCheckoutDb)
              = mkResponse 500 (Some false) None (Some "timeout"))
    by (vm_compute; reflexivity).
  rewrite Hcall in H. exact H.
Defined.

(** ** Further properties of the Razorpay verification endpoints *)

(** X20.  verifyTokenPurchasePayment credits a purchase once.  For a valid
    signature and a transaction that is not yet completed, the buyer's flat
    balance, purchased bucket and purchased total each grow by the
    transaction's tokens, lastPurchasedAt becomes now, and the subscription
    and the daily, bonus and prize buckets keep their values; so the total
    balance of an account whose plan runs grows by exactly the purchase.  The
    transaction is stored as completed at now, every other stored path of it
    unchanged (the gateway's ids are assigned to paths the schema does not
    declare and are not stored), and posting the same request again answers
    'Already processed' and changes nothing. *)
Theorem verifyTokenPurchasePayment_credits_once env now later req db id transaction user :
  Razorpay.verifyPaymentSignature env (Razorpay.razorpay_order_id req)
    (Razorpay.razorpay_payment_id req) (Razorpay.razorpay_signature req) = true ->
  Razorpay.localId req = Some id ->
  transactions db !! id = Some transaction ->
  TokenTransaction.status transaction <> completed ->
  users db !! TokenTransaction.userId transaction = Some user ->
  let result := Razorpay.verifyTokenPurchasePayment env now req db in
  let bought := TokenTransaction.tokens transaction in
  exists user' transaction',
    snd result
    = mkResponse 200 (Some true) (Some "Payment verified and tokens added") None /\
    users (fst result) !! TokenTransaction.userId transaction = Some user' /\
    User.tokens user' = User.tokens user + bought /\
    PurchasedTokens.current (User.purchasedTokens user')
    = PurchasedTokens.current (User.purchasedTokens user) + bought /\
    PurchasedTokens.total (User.purchasedTokens user')
    = PurchasedTokens.total (User.purchasedTokens user) + bought /\
    PurchasedTokens.lastPurchasedAt (User.purchasedTokens user') = Some now /\
    User.subscription user' = User.subscription user /\
    User.dailyTokens user' = User.dailyTokens user /\
    User.bonusTokens user' = User.bonusTokens user /\
    User.prizeTokens user' = User.prizeTokens user /\
    (subscriptionExpired later user = false ->
     calculateTotalTokens later user' = calculateTotalTokens later user + bought) /\
    transactions (fst result) !! id = Some transaction' /\
    transaction'
    = TokenTransaction.with_completedAt (Some now)
        (TokenTransaction.with_status completed transaction) /\
    Razorpay.verifyTokenPurchasePayment env later req (fst result)
    = (fst result, mkResponse 200 (Some true) (Some "Already processed") None).
Proof.
  intros Hsig Hid Ht Hst Hu result bought.
  set (transaction' :=
         TokenTransaction.with_completedAt (Some now)
           (TokenTransaction.with_status completed transaction)).
  set (user1 := User.with_tokens (or_default (User.tokens user) 0 + bought) user).
  set (user2 := User.with_purchasedTokens
                  (PurchasedTokens.with_current
                     (or_default (PurchasedTokens.current (User.purchasedTokens user1)) 0
                      + bought) (User.purchasedTokens user1)) user1).
  set (user3 := User.with_purchasedTokens
                  (PurchasedTokens.with_total
                     (or_default (PurchasedTokens.total (User.purchasedTokens user2)) 0
                      + bought) (User.purchasedTokens user2)) user2).
  set (user' := User.with_purchasedTokens
                  (PurchasedTokens.with_lastPurchasedAt (Some now)
                     (User.purchasedTokens user3)) user3).
  set (db1 := saveUser (TokenTransaction.userId transaction) user' db).
  assert (Hres : result
                 = (with_transactions (<[id := transaction']> (transactions db1)) db1,
                    mkResponse 200 (Some true)
                      (Some "Payment verified and tokens added") None)).
  { subst result. unfold Razorpay.verifyTokenPurchasePayment.
    rewrite Hsig, Hid. cbn. rewrite Ht. cbn.
    destruct (TokenTransaction.status transaction) eqn:E; try congruence.
    all: cbn; rewrite Hu; reflexivity. }
  assert (Hlookup : transactions (fst result) !! id = Some transaction').
  { rewrite Hres. cbn. apply lookup_insert_eq. }
  exists user', transaction'.
  split; [now rewrite Hres|].
  split; [rewrite Hres; cbn; apply lookup_insert_eq|].
  split; [cbn; now rewrite or_default_zero|].
  split; [cbn; now rewrite or_default_zero|].
  split; [cbn; now rewrite or_default_zero|].
  split; [reflexivity|]. split; [reflexivity|]. split; [reflexivity|].
  split; [reflexivity|]. split; [reflexivity|].
  split.
  { intros Hactive.
    rewrite !calculateTotalTokens_active by exact Hactive.
    unfold bucketSum. cbn. rewrite or_default_zero. lia. }
  split; [exact Hlookup|].
  split; [reflexivity|].
  unfold Razorpay.verifyTokenPurchasePayment.
  rewrite Hsig, Hid. cbn. rewrite Hlookup. reflexivity.
Qed.

Lemma verifyTokenPurchasePayment_credits_once_witness :
  exists user',
    users (fst (Razorpay.verifyTokenPurchasePayment sampleEnv 1000 purchaseRequest
                  purchaseDb)) !! 1%nat = Some user' /\
    User.tokens user' = 100 /\
    calculateTotalTokens 1500 user' = 100.
Proof.
  destruct (verifyTokenPurchasePayment_credits_once sampleEnv 1000 1500
              purchaseRequest purchaseDb 7%nat
              (TokenTransaction.mk 1 3 None 100 49 pending
                 None None None None None)
              (accountWith 2000 0 0 0 0)
              ltac:(vm_compute; reflexivity) ltac:(vm_compute; reflexivity)
              ltac:(vm_compute; reflexivity) ltac:(discriminate)
              ltac:(vm_compute; reflexivity))
    as (user' & transaction' & _ & Hu & Htok & _ & _ & _ & _ & _ & _ & _ & Htotal & _).
  exists user'. split; [exact Hu|]. split; [exact Htok|].
  rewrite Htotal by (vm_compute; reflexivity). vm_compute. reflexivity.
Defined.

(** The [if (order.userId) ... else ...] block changes the order's userId at
    most and writes no order. *)
Lemma locateUser_order now code order db located :
  Razorpay.locateUser now code order db = Some located ->
  Order.paymentStatus (Razorpay.l_order located) = Order.paymentStatus order /\
  orders (Razorpay.l_db located) = orders db.
Proof.
  unfold Razorpay.locateUser.
  destruct (Order.userId order) as [userId|]; [intros [= <-]; split; reflexivity|].
  destruct (findUserByEmail _ db) as [[userId user]|];
    [intros [= <-]; split; reflexivity|].
  destruct (plans db !! Order.planId order) as [plan|]; [|discriminate].
  intros [= <-]. split; [reflexivity|]. cbn.
  destruct (validateReferralCode now (Order.referralCode order) db)
    as [[referrerId referrer]|]; [|reflexivity].
  now rewrite (proj1 (processReferralReward_frame _ _ _ _)).
Qed.

(** X21.  A verified subscription payment is final.  Whenever
    verifySubscriptionPayment answers 200 (the payment was verified now, or
    the order was completed before), the order is stored with paymentStatus
    completed, so posting the request again, at any later time, answers
    'Already processed' and writes nothing: no second activation, no second
    bonus grant and no second referral reward. *)
Theorem verifySubscriptionPayment_is_final env now later code code' req db :
  let result := Razorpay.verifySubscriptionPayment env now code req db in
  statusCode (snd result) = 200 ->
  (exists orderId order,
     Razorpay.localId req = Some orderId /\
     orders (fst result) !! orderId = Some order /\
     Order.paymentStatus order = completed) /\
  Razorpay.verifySubscriptionPayment env later code' req (fst result)
  = (fst result, mkResponse 200 (Some true) (Some "Already processed") None).
Proof.
  cbv zeta. intros Hok.
  assert (Hstored : exists orderId order,
             Razorpay.localId req = Some orderId /\
             orders (fst (Razorpay.verifySubscriptionPayment env now code req db))
               !! orderId = Some order /\
             Order.paymentStatus order = completed /\
             Razorpay.verifyPaymentSignature env (Razorpay.razorpay_order_id req)
               (Razorpay.razorpay_payment_id req) (Razorpay.razorpay_signature req)
             = true).
  { revert Hok. unfold Razorpay.verifySubscriptionPayment.
    destruct (Razorpay.verifyPaymentSignature env _ _ _) eqn:Hsig;
      [|cbn; discriminate].
    destruct (Razorpay.localId req) as [orderId|]; [|cbn; discriminate].
    cbn. destruct (orders db !! orderId) as [order|] eqn:Ho; [|cbn; discriminate].
    cbn.
    destruct (Order.paymentStatus order) eqn:Hps.
    2: { intros _. exists orderId, order. auto. }
    all: match goal with
         | |- context [ Razorpay.locateUser ?n ?c ?o ?d ] =>
             destruct (Razorpay.locateUser n c o d)
               as [[[[userId user]|] order' db']|] eqn:Hloc; [| |cbn; discriminate]
         end.
    all: try (destruct (saveOrder _ _ _); cbn; discriminate).
    all: apply locateUser_order in Hloc as [Hpaid _]; cbn in Hpaid.
    all: destruct (plans db' !! Order.planId order') as [plan|]; [|cbn; discriminate].
    all: cbv zeta; destruct (saveOrder _ _ _) as [db''|] eqn:Hsave;
           [|cbn; discriminate].
    all: apply saveOrder_Some in Hsave as ->.
    all: intros _; exists orderId, order'; cbn.
    all: split; [reflexivity|]; split; [apply lookup_insert_eq|]; auto. }
  destruct Hstored as (orderId & order & Hid & Ho & Hps & Hsig).
  split; [exists orderId, order; auto|].
  unfold Razorpay.verifySubscriptionPayment at 1.
  rewrite Hsig, Hid. cbn. rewrite Ho. cbn. rewrite Hps. reflexivity.
Qed.

Lemma verifySubscriptionPayment_is_final_witness :
  Razorpay.verifySubscriptionPayment sampleEnv 5000 "ZZ99ZZ99ZZ99" guestVerifyRequest
    (fst (Razorpay.verifySubscriptionPayment sampleEnv 1000 "AB12CD34EF56"
            guestVerifyRequest guestCheckoutDb))
  = (fst (Razorpay.verifySubscriptionPayment sampleEnv 1000 "AB12CD34EF56"
            guestVerifyRequest guestCheckoutDb),
     mkResponse 200 (Some true) (Some "Already processed") None).
Proof.
  exact (proj2 (verifySubscriptionPayment_is_final sampleEnv 1000 5000 "AB12CD34EF56"
                  "ZZ99ZZ99ZZ99" guestVerifyRequest guestCheckoutDb
                  ltac:(vm_compute; reflexivity))).
Defined.

(** The new-account branch of the [if (order.userId) ... else ...] block
    when no referrer is found. *)
Lemma locateUser_guest now code order db plan :
  Order.userId order = None ->
  findUserByEmail (toLowerCase (Order.userEmail order)) db = None ->
  validateReferralCode now (Order.referralCode order) db = None ->
  plans db !! Order.planId order = Some plan ->
  Razorpay.locateUser now code order db
  = Some (Razorpay.mkLocated
            (Some (nextId db,
                   Razorpay.newUser now (Order.userEmail order) code None
                     (Order.planId order) plan))
            (Order.with_userId (Some (nextId db)) order)
            (saveUser (nextId db)
               (Razorpay.newUser now (Order.userEmail order) code None
                  (Order.planId order) plan)
               (with_nextId (S (nextId db)) db))).
Proof.
  intros Hguest Hnew Href Hplan. unfold Razorpay.locateUser.
  rewrite Hguest, Hnew, Href, Hplan. reflexivity.
Qed.

(** X22.  A verified guest checkout opens exactly one account.  For an order
    without userId whose e-mail address is not registered and whose referral
    code (if any) finds no referrer, verifySubscriptionPayment stores one new
    account under a fresh id and changes no other account: its e-mail address
    is the order's in lower case, it holds the drawn referral code and no
    referrer, its subscription runs from now for the plan's duration, and its
    balance is the plan's bonus grant alone (the daily, purchased and prize
    buckets are empty).  The order is stored completed at now, linked to the
    new account, with the posted Razorpay order id as providerOrderId, which
    the order must be able to take (not empty, held by no other order). *)
Theorem guest_checkout_opens_one_account env now code req db orderId order plan :
  Razorpay.verifyPaymentSignature env (Razorpay.razorpay_order_id req)
    (Razorpay.razorpay_payment_id req) (Razorpay.razorpay_signature req) = true ->
  Razorpay.localId req = Some orderId ->
  orders db !! orderId = Some order ->
  Order.paymentStatus order <> completed ->
  Order.userId order = None ->
  findUserByEmail (toLowerCase (Order.userEmail order)) db = None ->
  validateReferralCode now (Order.referralCode order) db = None ->
  plans db !! Order.planId order = Some plan ->
  0 <= Plan.durationDays plan ->
  Razorpay.razorpay_order_id req <> "" ->
  providerOrderIdTaken orderId (Razorpay.razorpay_order_id req) db = false ->
  let result := Razorpay.verifySubscriptionPayment env now code req db in
  exists user' order',
    snd result
    = mkResponse 200 (Some true)
        (Some "Payment verified and subscription activated") None /\
    users (fst result) = <[nextId db := user']> (users db) /\
    nextId (fst result) = S (nextId db) /\
    User.email user' = toLowerCase (Order.userEmail order) /\
    User.referralCode user' = Some code /\
    User.referredBy user' = None /\
    User.referrals user' = [] /\
    User.subscription user'
    = PhonePe.activatedSubscription now (Order.planId order) plan /\
    User.tokens user' = Plan.dailyTokens plan /\
    bucketSum user' = Plan.bonusTokens plan /\
    calculateTotalTokens now user' = Plan.bonusTokens plan /\
    orders (fst result) = <[orderId := order']> (orders db) /\
    Order.userId order' = Some (nextId db) /\
    Order.paymentStatus order' = completed /\
    Order.providerOrderId order' = Razorpay.razorpay_order_id req /\
    Order.completedAt order' = Some now /\
    Order.planId order' = Order.planId order /\
    Order.amount order' = Order.amount order.
Proof.
  intros Hsig Hid Ho Hps Hguest Hnew Href Hplan Hdays Hne Hfree result.
  set (paid := Order.with_completedAt (Some now)
                 (Order.with_providerOrderId (Razorpay.razorpay_order_id req)
                    (Order.with_paymentStatus completed order))).
  set (user0 := Razorpay.newUser now (Order.userEmail order) code None
                  (Order.planId order) plan).
  set (user' := Razorpay.applySubscription now (Order.planId order) plan user0).
  set (db1 := saveUser (nextId db) user0 (with_nextId (S (nextId db)) db)).
  set (db2 := saveUser (nextId db) user' db1).
  assert (Hres : result
                 = (with_orders
                      (<[orderId := Order.with_userId (Some (nextId db)) paid]>
                         (orders db2)) db2,
                    mkResponse 200 (Some true)
                      (Some "Payment verified and subscription activated") None)).
  { subst result. unfold Razorpay.verifySubscriptionPayment.
    rewrite Hsig, Hid. cbn [negb mbind option_bind]. rewrite Ho.
    cbn [fmap option_fmap option_map].
    assert (Hloc := locateUser_guest now code paid db plan Hguest Hnew Href Hplan).
    destruct (Order.paymentStatus order) eqn:E; try congruence.
    all: fold paid; rewrite Hloc.
    all: change (plans (saveUser _ _ (with_nextId _ db))) with (plans db).
    all: change (Order.planId (Order.with_userId _ paid)) with (Order.planId order).
    all: rewrite Hplan; cbv zeta.
    all: rewrite saveOrder_accepts; [reflexivity|exact Hne|exact Hfree]. }
  exists user', (Order.with_userId (Some (nextId db)) paid).
  split; [now rewrite Hres|].
  split; [rewrite Hres; cbn; apply insert_insert_eq|].
  split; [now rewrite Hres|].
  split; [reflexivity|]. split; [reflexivity|]. split; [reflexivity|].
  split; [reflexivity|]. split; [reflexivity|]. split; [reflexivity|].
  assert (Hsum : bucketSum user' = Plan.bonusTokens plan).
  { unfold bucketSum. cbn. rewrite or_default_zero. lia. }
  split; [exact Hsum|].
  split.
  { rewrite calculateTotalTokens_active; [exact Hsum|].
    unfold subscriptionExpired. cbn. apply Z.ltb_ge. lia. }
  split; [now rewrite Hres|].
  repeat split.
Qed.

Lemma guest_checkout_opens_one_account_witness :
  exists user',
    users (fst (Razorpay.verifySubscriptionPayment sampleEnv 1000 "AB12CD34EF56"
                  guestVerifyRequest guestCheckoutDb))
    = {[ 10%nat := user' ]} /\
    User.email user' = "new@example.com" /\
    calculateTotalTokens 1000 user' = 500.
Proof.
  destruct (guest_checkout_opens_one_account sampleEnv 1000 "AB12CD34EF56"
              guestVerifyRequest guestCheckoutDb 9%nat
              (Order.mk "64f000000000000000000009" "new@example.com" "Ann" 5 None
                 999 pending pending None "order_RZP1" (Some "order_RZP1")
                 None None None None)
              samplePlan
              ltac:(vm_compute; reflexivity) ltac:(vm_compute; reflexivity)
              ltac:(vm_compute; reflexivity) ltac:(discriminate)
              ltac:(vm_compute; reflexivity) ltac:(vm_compute; reflexivity)
              ltac:(vm_compute; reflexivity) ltac:(vm_compute; reflexivity)
              ltac:(vm_compute; discriminate) ltac:(discriminate)
              ltac:(vm_compute; reflexivity))
    as (user' & order' & _ & Hu & _ & He & _ & _ & _ & _ & _ & _ & Htotal & _).
  exists user'. split; [exact Hu|]. split; [exact He|exact Htotal].
Defined.

(** ** Further properties of the purchase initiation handlers *)

(** X23.  Opening a token purchase, with Razorpay (createTokenOrder) or with
    PhonePe (createTokenPayment), never touches an account and never changes a
    stored transaction or order; an answer of 400 or 404 writes nothing at
    all.  When the answer is 200, the package and the user exist, the gateway
    accepted, and exactly one transaction was added under the fresh id: pending,
    for that user and package, with the package's tokens and price.  The
    PhonePe flow stores the merchant order id and PhonePe's order id with it;
    the Razorpay flow stores its own transactionId and not the gateway's order
    id, which it assigns to a path the schema does not declare. *)
Theorem token_purchase_initiation now transactionId merchantOrderId gateway
    packageId userId db :
  let razorpay :=
    Razorpay.createTokenOrder now transactionId gateway packageId userId db in
  let phonepe :=
    PhonePe.createTokenPayment now merchantOrderId gateway packageId userId db in
  (users (fst razorpay) = users db /\ orders (fst razorpay) = orders db /\
   users (fst phonepe) = users db /\ orders (fst phonepe) = orders db) /\
  (forall id, id <> nextId db ->
     transactions (fst razorpay) !! id = transactions db !! id /\
     transactions (fst phonepe) !! id = transactions db !! id) /\
  (statusCode (snd razorpay) <> 200 -> statusCode (snd razorpay) <> 500 ->
   fst razorpay = db) /\
  (statusCode (snd phonepe) <> 200 -> statusCode (snd phonepe) <> 500 ->
   fst phonepe = db) /\
  (statusCode (snd razorpay) = 200 ->
   exists package user tokenPackage gatewayOrderId,
     packageId = Some package /\ userId = Some user /\
     packages db !! package = Some tokenPackage /\
     is_Some (users db !! user) /\
     gateway = inr gatewayOrderId /\
     transactions (fst razorpay)
     = <[nextId db :=
           TokenTransaction.mk user package (Some transactionId)
             (TokenPackage.tokens tokenPackage) (TokenPackage.price tokenPackage)
             pending None None None None None]>
         (transactions db)) /\
  (statusCode (snd phonepe) = 200 ->
   exists package user tokenPackage gatewayOrderId,
     packageId = Some package /\ userId = Some user /\
     packages db !! package = Some tokenPackage /\
     is_Some (users db !! user) /\
     gateway = inr gatewayOrderId /\
     transactions (fst phonepe)
     = <[nextId db :=
           TokenTransaction.mk user package None
             (TokenPackage.tokens tokenPackage) (TokenPackage.price tokenPackage)
             pending (Some merchantOrderId) (Some gatewayOrderId) None None None]>
         (transactions db)).
Proof.
  cbv zeta. unfold Razorpay.createTokenOrder, PhonePe.createTokenPayment.
  destruct packageId as [package|]; cbn.
  2: { destruct userId; cbn; repeat split; intros; congruence. }
  destruct (packages db !! package) as [tokenPackage|] eqn:Hp; cbn.
  2: { destruct userId; cbn; repeat split; intros; congruence. }
  destruct userId as [user|]; cbn.
  2: { repeat split; intros; congruence. }
  destruct (users db !! user) as [account|] eqn:Hu; cbn.
  2: { repeat split; intros; congruence. }
  destruct gateway as [errorMessage|gatewayOrderId]; cbn.
  - split; [repeat split|].
    split; [intros id Hne; split; now rewrite !lookup_insert_ne by congruence|].
    repeat split; intros; congruence.
  - split; [repeat split|].
    split; [intros id Hne; split; now rewrite !lookup_insert_ne by congruence|].
    split; [intros; congruence|]. split; [intros; congruence|].
    split; intros _; exists package, user, tokenPackage, gatewayOrderId.
    all: split; [reflexivity|]; split; [reflexivity|]; split; [exact Hp|].
    all: split; [eauto|]; split; [reflexivity|]; apply insert_insert_eq.
Qed.

Lemma token_purchase_initiation_witness :
  TokenTransaction.tokens
    <$> transactions
          (fst (Razorpay.createTokenOrder 1000 "TKN_1000_ABCDEFGHI" (inr "order_RZP7")
                  (Some 3%nat) (Some 1%nat) purchaseDb)) !! 10%nat
  = Some 100.
Proof.
  destruct (proj1 (proj2 (proj2 (proj2 (proj2
              (token_purchase_initiation 1000 "TKN_1000_ABCDEFGHI"
                 "TOKEN_1000_ABCD1234" (inr "order_RZP7") (Some 3%nat) (Some 1%nat)
                 purchaseDb)))))
              ltac:(vm_compute; reflexivity))
    as (package & user & tokenPackage & gatewayOrderId & Hpkg & _ & Hfound & _ & _ & Ht).
  rewrite Ht. injection Hpkg as <-.
  vm_compute in Hfound. injection Hfound as <-. vm_compute. reflexivity.
Defined.

(** *** The e-mail pattern *)

Lemma plainChar_not_at c : Payment.plainChar c = true -> (c =? 64)%N = false.
Proof.
  unfold Payment.plainChar. intros H. apply negb_true_iff in H.
  now apply orb_false_elim in H as [_ H].
Qed.

Lemma plainChar_not_whiteSpace c : Payment.plainChar c = true -> isWhiteSpace c = false.
Proof.
  unfold Payment.plainChar. intros H. apply negb_true_iff in H.
  now apply orb_false_elim in H as [H _].
Qed.

Lemma splitAt_app before after :
  Payment.allPlain before = true ->
  Payment.splitAt (before ++ 64%N :: after) = Some (before, after).
Proof.
  induction before as [|c before IH]; [reflexivity|].
  cbn. intros [Hc Hrest]%andb_prop.
  rewrite (plainChar_not_at c Hc), (IH Hrest). reflexivity.
Qed.

Lemma splitAt_Some s before after :
  Payment.splitAt s = Some (before, after) -> s = before ++ 64%N :: after.
Proof.
  revert before. induction s as [|c s IH]; intros before; [discriminate|].
  cbn. destruct (N.eqb_spec c 64) as [->|_].
  - intros [= <- <-]. reflexivity.
  - destruct (Payment.splitAt s) as [[b a]|]; [|discriminate].
    intros [= <- <-]. cbn. f_equal. now apply IH.
Qed.

Lemma hasInnerDot_split s :
  Payment.hasInnerDot s = true ->
  exists before after, s = before ++ 46%N :: after /\ before <> [] /\ after <> [].
Proof.
  induction s as [|c s IH]; [discriminate|].
  cbn [Payment.hasInnerDot]. intros [Hhere|Hlater]%orb_prop.
  - destruct s as [|d [|e rest]]; try discriminate.
    apply N.eqb_eq in Hhere as ->.
    exists [c], (e :: rest). repeat split; discriminate.
  - destruct (IH Hlater) as (before & after & -> & _ & Hafter).
    exists (c :: before), after. repeat split; [discriminate|exact Hafter].
Qed.

Lemma hasInnerDot_app before after :
  before <> [] -> after <> [] ->
  Payment.hasInnerDot (before ++ 46%N :: after) = true.
Proof.
  intros Hbefore Hafter. induction before as [|c before IH]; [congruence|].
  cbn [app Payment.hasInnerDot].
  destruct before as [|d before].
  - cbn [app]. destruct after; [congruence|reflexivity].
  - rewrite IH by discriminate. apply orb_true_r.
Qed.

(** The strings [trim] leaves alone. *)
Lemma trim_without_whiteSpace s :
  Forall (fun c => isWhiteSpace c = false) (codeUnits s) -> trim s = s.
Proof.
  unfold trim, codeUnits. intros H.
  assert (Hstart : trimStart s = s).
  { destruct s as [|c s]; [reflexivity|].
    cbn in H. apply Forall_cons in H as [Hc _]. cbn. now rewrite Hc. }
  rewrite Hstart. clear Hstart.
  induction s as [|c s IH]; [reflexivity|].
  cbn in H. apply Forall_cons in H as [Hc Hs].
  cbn [trimEnd]. rewrite (IH Hs), Hc. destruct s; reflexivity.
Qed.

Lemma lowerAscii_whiteSpace c :
  isWhiteSpace (Ascii.N_of_ascii (lowerAscii c)) = isWhiteSpace (Ascii.N_of_ascii c).
Proof.
  destruct c as [b0 b1 b2 b3 b4 b5 b6 b7].
  destruct b0, b1, b2, b3, b4, b5, b6, b7; vm_compute; reflexivity.
Qed.

Lemma toLowerCase_whiteSpace s :
  Forall (fun c => isWhiteSpace c = false) (codeUnits s) ->
  Forall (fun c => isWhiteSpace c = false) (codeUnits (toLowerCase s)).
Proof.
  unfold codeUnits. induction s as [|c s IH]; cbn; [constructor|].
  intros [Hc Hs]%Forall_cons. constructor; [|exact (IH Hs)].
  now rewrite lowerAscii_whiteSpace.
Qed.

(** The pattern, declaratively. *)
Lemma matchesEmailPattern_parts s :
  Payment.matchesEmailPattern s = true ->
  exists localPart name tld,
    s = localPart ++ 64%N :: name ++ 46%N :: tld /\
    localPart <> [] /\ name <> [] /\ tld <> [] /\
    Payment.allPlain localPart = true /\
    Payment.allPlain name = true /\
    Payment.allPlain tld = true.
Proof.
  unfold Payment.matchesEmailPattern.
  destruct (Payment.splitAt s) as [[localPart domain]|] eqn:Hsplit; [|discriminate].
  destruct localPart as [|c localPart]; [discriminate|].
  intros [[Hlocal Hdomain]%andb_prop Hdot]%andb_prop.
  apply splitAt_Some in Hsplit.
  destruct (hasInnerDot_split domain Hdot) as (name & tld & -> & Hname & Htld).
  unfold Payment.allPlain in Hdomain. rewrite forallb_app in Hdomain.
  apply andb_prop in Hdomain as [Hn Ht]. cbn in Ht.
  exists (c :: localPart), name, tld. repeat split; try assumption. discriminate.
Qed.

Lemma matchesEmailPattern_whiteSpace s :
  Payment.matchesEmailPattern s = true -> Forall (fun c => isWhiteSpace c = false) s.
Proof.
  intros (localPart & name & tld & -> & _ & _ & _ & Pl & Pn & Pt)%matchesEmailPattern_parts.
  assert (Hpart : forall part,
            Payment.allPlain part = true ->
            Forall (fun c => isWhiteSpace c = false) part).
  { intros part Hall. unfold Payment.allPlain in Hall.
    rewrite forallb_forall in Hall.
    apply Forall_forall. intros c Hin%list_elem_of_In.
    apply plainChar_not_whiteSpace; auto. }
  apply Forall_app. split; [now apply Hpart|].
  apply Forall_cons. split; [reflexivity|].
  apply Forall_app. split; [now apply Hpart|].
  apply Forall_cons. split; [reflexivity|now apply Hpart].
Qed.

(** An accepted address is its own lower-cased, trimmed form up to case. *)
Lemma emailRegexTest_trim email :
  Payment.emailRegexTest email = true ->
  trim email = email /\ trim (toLowerCase email) = toLowerCase email.
Proof.
  intros H%matchesEmailPattern_whiteSpace.
  split; apply trim_without_whiteSpace; [exact H|now apply toLowerCase_whiteSpace].
Qed.



(** X25.  The pattern /^[^\s@]+@[^\s@]+\.[^\s@]+$/ of createOrder, on any
    sequence of UTF-16 code units, accepts exactly the addresses of the shape
    local@name.tld whose three parts are not empty and hold neither '@' nor
    white space (the white space and line terminators of ECMAScript, NBSP,
    U+2028 and U+FEFF included).  An accepted address therefore holds no
    white space at all, and trimming it, as it is or in lower case, changes
    nothing. *)
Theorem emailRegexTest_shape :
  (forall s,
     Payment.matchesEmailPattern s = true <->
     exists localPart name tld,
       s = localPart ++ 64%N :: name ++ 46%N :: tld /\
       localPart <> [] /\ name <> [] /\ tld <> [] /\
       Payment.allPlain localPart = true /\
       Payment.allPlain name = true /\
       Payment.allPlain tld = true) /\
  (forall s,
     Payment.matchesEmailPattern s = true ->
     Forall (fun c => isWhiteSpace c = false) s) /\
  (forall email,
     Payment.emailRegexTest email = true ->
     trim email = email /\ trim (toLowerCase email) = toLowerCase email).
Proof.
  split; [|split].
  - intros s. split; [apply matchesEmailPattern_parts|].
    intros (localPart & name & tld & -> & Hl & Hn & Ht & Pl & Pn & Pt).
    unfold Payment.matchesEmailPattern. rewrite (splitAt_app _ _ Pl).
    unfold Payment.allPlain in *.
    rewrite Pl, forallb_app, Pn, (hasInnerDot_app _ _ Hn Ht).
    cbn [forallb]. rewrite Pt.
    destruct localPart; [congruence|reflexivity].
  - apply matchesEmailPattern_whiteSpace.
  - apply emailRegexTest_trim.
Qed.

Lemma emailRegexTest_shape_witness :
  Payment.emailRegexTest "ann@example.com" = true /\
  Payment.matchesEmailPattern [97; 160; 64; 98; 46; 99]%N = false /\
  Payment.matchesEmailPattern [97; 8232; 64; 98; 46; 99]%N = false.
Proof.
  split; [|split].
  - unfold Payment.emailRegexTest.
    apply (proj2 (proj1 emailRegexTest_shape (codeUnits "ann@example.com"))).
    exists (codeUnits "ann"), (codeUnits "example"), (codeUnits "com").
    repeat split; try discriminate; reflexivity.
  - destruct (Payment.matchesEmailPattern [97; 160; 64; 98; 46; 99]%N) eqn:H;
      [|reflexivity].
    apply (proj1 (proj2 emailRegexTest_shape)) in H.
    apply Forall_cons in H as [_ H]. apply Forall_cons in H as [H _].
    vm_compute in H. discriminate.
  - destruct (Payment.matchesEmailPattern [97; 8232; 64; 98; 46; 99]%N) eqn:H;
      [|reflexivity].
    apply (proj1 (proj2 emailRegexTest_shape)) in H.
    apply Forall_cons in H as [_ H]. apply Forall_cons in H as [H _].
    vm_compute in H. discriminate.
Defined.

(** ** Further properties of the generic payment webhook *)

(** Once the signature guard passes, the signature plays no part. *)
Lemma handleWebhook_guard_passed stringify errorMessage env now signature event db :
  Webhook.signatureRejected env signature (stringify event) = false ->
  Webhook.handleWebhook stringify errorMessage env now signature event db
  = Webhook.handleWebhook stringify errorMessage env now None event db.
Proof. intros H. unfold Webhook.handleWebhook. now rewrite H. Qed.

(** A correctly signed request passes the guard. *)
Lemma signatureRejected_signed env rawBody :
  Webhook.signatureRejected env
    (Some (hmacSha256Hex env (webhookSecret env) rawBody)) rawBody = false.
Proof.
  unfold Webhook.signatureRejected, webhookSecret.
  destruct (truthy (Some _)) as [signature|] eqn:Htruthy; [|reflexivity].
  cbn in Htruthy. destruct (String.eqb _ "") in Htruthy; [discriminate|].
  injection Htruthy as <-.
  destruct (_ && _); [|reflexivity]. now rewrite String.eqb_refl.
Qed.

(** X26.  The x-signature header of the generic webhook protects nothing.
    The handler checks it only in production, only when it is present and
    only when it is not 'dummy-signature-dev': the same request without the
    header, or with the header 'dummy-signature-dev', gets in every
    environment exactly the answer and the effect of the request signed with
    the HMAC of its body under WEBHOOK_SECRET, and outside production so does
    the request with any other header. *)
Theorem generic_webhook_signature_is_optional stringify errorMessage env now event db :
  let signed :=
    Webhook.handleWebhook stringify errorMessage env now
      (Some (hmacSha256Hex env (webhookSecret env) (stringify event))) event db in
  Webhook.handleWebhook stringify errorMessage env now None event db = signed /\
  Webhook.handleWebhook stringify errorMessage env now (Some "dummy-signature-dev")
    event db = signed /\
  (NODE_ENV env <> "production" ->
   forall forged,
     Webhook.handleWebhook stringify errorMessage env now (Some forged) event db
     = signed).
Proof.
  cbv zeta.
  rewrite (handleWebhook_guard_passed stringify errorMessage env now (Some _) event db
             (signatureRejected_signed env (stringify event))).
  split; [reflexivity|]. split.
  - apply handleWebhook_guard_passed. unfold Webhook.signatureRejected. cbn.
    destruct (String.eqb (NODE_ENV env) "production"); reflexivity.
  - intros Hdev forged. apply handleWebhook_guard_passed.
    unfold Webhook.signatureRejected.
    destruct (truthy (Some forged)); [|reflexivity].
    destruct (String.eqb_spec (NODE_ENV env) "production"); [contradiction|].
    reflexivity.
Qed.

Lemma generic_webhook_signature_is_optional_witness :
  exists user',
    users (fst (Webhook.handleWebhook sampleStringify sampleErrorMessage sampleEnv 1000
                  (Some "dummy-signature-dev") renewalEvent (renewalDb 500)))
      !! 1%nat = Some user' /\
    Subscription.endDate (User.subscription user') = Some 2592001000.
Proof.
  rewrite (proj1 (proj2 (generic_webhook_signature_is_optional sampleStringify
                           sampleErrorMessage sampleEnv 1000 renewalEvent
                           (renewalDb 500)))).
  eexists. split; vm_compute; reflexivity.
Defined.

(** X27.  What the generic webhook leaves behind when it does not answer
    'Payment processed successfully'.  No account, transaction or plan is
    changed and no id is allocated.  The answers 400 'Invalid signature', 200
    and 404 'Order not found' write nothing at all.  'Plan not found' leaves
    the order stored as completed with the event's [order_id], and so does the
    500 for an event without e-mail address: the order is saved before the
    plan and the account are looked up, so it is completed while nothing was
    activated. *)
Theorem generic_webhook_quiet_answers stringify errorMessage env now signature event db :
  let result :=
    Webhook.handleWebhook stringify errorMessage env now signature event db in
  (snd result <> paymentProcessed ->
   users (fst result) = users db /\
   transactions (fst result) = transactions db /\
   plans (fst result) = plans db /\
   nextId (fst result) = nextId db) /\
  (snd result <> paymentProcessed ->
   statusCode (snd result) <> 500 ->
   bodyError (snd result) <> Some "Plan not found" ->
   fst result = db) /\
  (bodyError (snd result) = Some "Plan not found" ->
   exists d orderId order providerOrderId,
     Webhook.data event = Some d /\
     Webhook.findOrder d db = Some (orderId, order) /\
     Order.status order <> completed /\
     Webhook.order_id d = Some providerOrderId /\
     plans db !! Order.planId order = None /\
     orders (fst result)
     = <[orderId := markedCompleted providerOrderId order]> (orders db)) /\
  (forall d orderId order providerOrderId plan,
     Webhook.signatureRejected env signature (stringify event) = false ->
     Webhook.type_ event = Some "payment.success" ->
     Webhook.data event = Some d ->
     Webhook.orderType d <> Some "token" ->
     Webhook.findOrder d db = Some (orderId, order) ->
     Order.status order <> completed ->
     Webhook.order_id d = Some providerOrderId ->
     providerOrderId <> "" ->
     providerOrderIdTaken orderId providerOrderId db = false ->
     plans db !! Order.planId order = Some plan ->
     Webhook.email d = None ->
     result
     = (with_orders (<[orderId := markedCompleted providerOrderId order]> (orders db))
          db,
        mkResponse 500 None (Some (errorMessage Webhook.MissingEmail))
          (Some "Internal server error"))).
Proof.
  cbv zeta. split; [|split; [|split]].
  4: { intros d orderId order providerOrderId plan Hsig Hty Hdata Hot Ho Hst Hid Hne
         Hfree Hplan Hemail.
       unfold Webhook.handleWebhook. rewrite Hsig, Hty, Hdata. cbn.
       assert (Hnot : match Webhook.orderType d with
                      | Some t => String.eqb t "token"
                      | None => false
                      end = false).
       { destruct (Webhook.orderType d) as [t|]; [|reflexivity].
         destruct (String.eqb_spec t "token"); congruence. }
       rewrite Hnot, Ho, Hid. cbn.
       destruct (Order.status order) eqn:Hs; try congruence.
       all: rewrite saveOrder_accepts by (cbn; assumption).
       all: cbn; rewrite Hplan, Hemail; reflexivity. }
  all: unfold Webhook.handleWebhook, paymentProcessed.
  all: destruct (Webhook.signatureRejected env signature (stringify event));
         [cbn; intros; repeat split; congruence|].
  all: destruct (match Webhook.type_ event with
                 | Some t => String.eqb t "payment.success"
                 | None => false
                 end);
         [|cbn; intros; repeat split; congruence].
  all: destruct (Webhook.data event) as [d|];
         [|cbn; intros; repeat split; congruence].
  all: destruct (match Webhook.orderType d with
                 | Some t => String.eqb t "token"
                 | None => false
                 end);
         [cbn; intros; repeat split; congruence|].
  all: destruct (Webhook.findOrder d db) as [[orderId order]|] eqn:Hfind;
         [|cbn; intros; repeat split; congruence].
  all: destruct (Order.status order) eqn:Hstatus.
  all: try (cbn; intros; repeat split; congruence).
  all: destruct (Webhook.order_id d) as [providerOrderId|] eqn:Hid;
         [|cbn; intros; repeat split; congruence].
  all: cbn [mbind option_bind].
  all: destruct (saveOrder orderId _ db) as [db1|] eqn:Hsave;
         [|cbn; intros; repeat split; congruence].
  all: apply saveOrder_Some in Hsave as ->.
  all: cbn [plans with_orders Order.planId Order.with_providerOrderId
            Order.with_status].
  all: destruct (plans db !! Order.planId order) as [plan|] eqn:Hplan.
  all: try (cbn; intros; repeat split; congruence).
  all: try (cbn; intros _; exists d, orderId, order, providerOrderId;
            split; [reflexivity|]; split; [exact Hfind|]; split; [congruence|];
            split; [exact Hid|]; split; [exact Hplan|]; reflexivity).
  all: destruct (Webhook.email d) as [email|];
         [|cbn; intros; repeat split; congruence].
  all: cbv zeta.
  all: destruct (findUserByEmail _ _) as [[userId user]|].
  all: try (cbn; intros; repeat split; congruence).
  all: destruct (_ || _); cbn; intros; repeat split; congruence.
Qed.

Lemma generic_webhook_quiet_answers_witness :
  Webhook.handleWebhook sampleStringify sampleErrorMessage sampleEnv 1000 None
    eventWithoutEmail (renewalDb 500)
  = (with_orders (<[9%nat := markedCompleted "order_RZP1" renewalOrder]>
                    (orders (renewalDb 500))) (renewalDb 500),
     mkResponse 500 None
       (Some "Cannot read properties of undefined (reading 'toLowerCase')")
       (Some "Internal server error")).
Proof.
  exact (proj2 (proj2 (proj2
           (generic_webhook_quiet_answers sampleStringify sampleErrorMessage sampleEnv
              1000 None eventWithoutEmail (renewalDb 500))))
           (Webhook.mkEventData (Some "order_RZP1") (Some "64f000000000000000000009")
              None None None)
           9%nat renewalOrder "order_RZP1" samplePlan
           ltac:(vm_compute; reflexivity) ltac:(vm_compute; reflexivity)
           ltac:(vm_compute; reflexivity) ltac:(vm_compute; discriminate)
           ltac:(vm_compute; reflexivity) ltac:(vm_compute; discriminate)
           ltac:(vm_compute; reflexivity) ltac:(discriminate)
           ltac:(vm_compute; reflexivity) ltac:(vm_compute; reflexivity)
           ltac:(vm_compute; reflexivity)).
Defined.

(** ** Repeated referral processing *)

Lemma cycleReferral_userId referral :
  Referral.userId (cycleReferral referral) = Referral.userId referral.
Proof. unfold cycleReferral. destruct (Referral.isActive referral); reflexivity. Qed.

Lemma activeCount_cycled referrals : activeCount (cycleReferral <$> referrals) = 0.
Proof.
  unfold activeCount. induction referrals as [|r referrals IH]; [reflexivity|].
  cbn. now rewrite cycleReferral_inactive.
Qed.

Lemma activeCount_app before after :
  activeCount (before ++ after) = activeCount before + activeCount after.
Proof. unfold activeCount. rewrite List.filter_app, length_app. lia. Qed.

(** X28.  Below the milestone, processing the reward of the same referred
    account again, as every renewal payment does, changes nothing: the entry
    is already active and the counters are recomputed to the same values. *)
Theorem processReferralReward_repeat_below_target now later referredUserId referrerId
    db referrer before referral after :
  users db !! referrerId = Some referrer ->
  User.referrals referrer = before ++ referral :: after ->
  Forall (fun r => Referral.userId r <> referredUserId) before ->
  Referral.userId referral = referredUserId ->
  activeCount (before ++ activated referral :: after) < 8 ->
  processReferralReward later referredUserId referrerId
    (processReferralReward now referredUserId referrerId db)
  = processReferralReward now referredUserId referrerId db.
Proof.
  intros Hu Hrefs Hbefore Hid Hcount.
  pose proof (activateFirstMatch_first referredUserId before referral after Hbefore Hid)
    as Hact.
  rewrite <- Hrefs in Hact.
  destruct (processReferralReward_unfold now referredUserId referrerId db referrer _
              Hu Hact) as [Heq Hl].
  cbv zeta in Heq, Hl. rewrite Heq.
  rewrite (checkReferralMilestones_below_target now referrerId _ _ Hl)
    by (cbn; exact Hcount).
  pose proof (activateFirstMatch_first referredUserId before (activated referral) after
                Hbefore Hid) as Hact2.
  destruct (processReferralReward_unfold later referredUserId referrerId _ _ _
              Hl Hact2) as [Heq2 Hl2].
  cbv zeta in Heq2, Hl2. rewrite Heq2.
  rewrite (checkReferralMilestones_below_target later referrerId _ _ Hl2)
    by (cbn; exact Hcount).
  unfold saveUser. cbn. now rewrite insert_insert_eq.
Qed.

Lemma processReferralReward_repeat_below_target_witness :
  processReferralReward 2000 200 1
    (processReferralReward 1000 200 1 (singleAccountDb (referrerAwaiting 3)))
  = processReferralReward 1000 200 1 (singleAccountDb (referrerAwaiting 3)).
Proof.
  exact (processReferralReward_repeat_below_target 1000 2000 200 1
           (singleAccountDb (referrerAwaiting 3)) (referrerAwaiting 3)
           (User.referrals (referrerWith 3)) (Referral.mk 200 0 false ref_pending) []
           ltac:(vm_compute; reflexivity) ltac:(vm_compute; reflexivity)
           ltac:(vm_compute; repeat constructor; discriminate)
           ltac:(reflexivity) ltac:(vm_compute; reflexivity)).
Defined.

(** X29.  Across a completed cycle the repetition is not neutral.  When the
    first processing brings the active entries to 8 and completes the cycle, a
    second processing for the same referred account activates its cycled entry
    again: the referrer ends with that one entry active (status 'active'),
    activeReferrals = 1 towards the next cycle, and still one cycle and 300
    tokens more than before, since 1 is below every target. *)
Theorem processReferralReward_repeat_after_cycle now later referredUserId referrerId
    db referrer before referral after :
  users db !! referrerId = Some referrer ->
  User.referrals referrer = before ++ referral :: after ->
  Forall (fun r => Referral.userId r <> referredUserId) before ->
  Referral.userId referral = referredUserId ->
  8 <= activeCount (before ++ activated referral :: after) ->
  exists referrer',
    users (processReferralReward later referredUserId referrerId
             (processReferralReward now referredUserId referrerId db)) !! referrerId
    = Some referrer' /\
    User.referrals referrer'
    = (cycleReferral <$> before) ++ activated referral :: (cycleReferral <$> after) /\
    ReferralStats.activeReferrals (User.referralStats referrer') = 1 /\
    ReferralStats.totalReferrals (User.referralStats referrer')
    = Z.of_nat (length (User.referrals referrer)) /\
    cyclesCompleted referral8Cycles referrer'
    = cyclesCompleted referral8Cycles referrer + 1 /\
    totalTokensEarned referrer' = totalTokensEarned referrer + 300.
Proof.
  intros Hu Hrefs Hbefore Hid Hcount.
  pose proof (activateFirstMatch_first referredUserId before referral after Hbefore Hid)
    as Hact.
  rewrite <- Hrefs in Hact.
  destruct (processReferralReward_unfold now referredUserId referrerId db referrer _
              Hu Hact) as [Heq Hl].
  cbv zeta in Heq, Hl. rewrite Heq.
  rewrite (checkReferralMilestones_at_target now referrerId _ _ Hl)
    by (cbn; exact Hcount).
  match goal with
  | |- context [ grantMilestoneRewardAndReset ?n ?i ?u _ _ ?d ] =>
      destruct (grant_referral_8 n i u d)
        as (cycledReferrer & Hu' & _ & H8 & _ & _ & Hearned & _ & _ & _ & _ & Hlist);
      set (db1 := grantMilestoneRewardAndReset n i u _ _ d) in *
  end.
  cbn in Hlist, H8, Hearned.
  assert (Hshape : User.referrals cycledReferrer
            = (cycleReferral <$> before) ++ cycled referral
              :: (cycleReferral <$> after)).
  { rewrite Hlist, fmap_app. reflexivity. }
  assert (Hbefore' : Forall (fun r => Referral.userId r <> referredUserId)
                       (cycleReferral <$> before)).
  { apply Forall_fmap. eapply Forall_impl; [exact Hbefore|].
    intros r Hr. cbn. now rewrite cycleReferral_userId. }
  pose proof (activateFirstMatch_first referredUserId (cycleReferral <$> before)
                (cycled referral) (cycleReferral <$> after) Hbefore' Hid) as Hact2.
  rewrite <- Hshape in Hact2.
  change (activated (cycled referral)) with (activated referral) in Hact2.
  destruct (processReferralReward_unfold later referredUserId referrerId db1
              cycledReferrer _ Hu' Hact2) as [Heq2 Hl2].
  cbv zeta in Heq2, Hl2. rewrite Heq2.
  assert (Hone : activeCount ((cycleReferral <$> before) ++ activated referral
                              :: (cycleReferral <$> after)) = 1).
  { rewrite activeCount_app, activeCount_cycled.
    change (activated referral :: (cycleReferral <$> after))
      with ([activated referral] ++ (cycleReferral <$> after)).
    rewrite activeCount_app, activeCount_cycled. reflexivity. }
  rewrite (checkReferralMilestones_below_target later referrerId _ _ Hl2)
    by (cbn; rewrite Hone; lia).
  eexists. split; [exact Hl2|]. cbn.
  split; [reflexivity|]. split; [exact Hone|].
  split; [rewrite Hrefs, !length_app; cbn [length]; rewrite !length_fmap; reflexivity|].
  split; [exact H8|exact Hearned].
Qed.

Lemma processReferralReward_repeat_after_cycle_witness :
  exists referrer',
    users (processReferralReward 2000 200 1
             (processReferralReward 1000 200 1 (singleAccountDb (referrerAwaiting 7))))
      !! 1%nat = Some referrer' /\
    ReferralStats.activeReferrals (User.referralStats referrer') = 1 /\
    cyclesCompleted referral8Cycles referrer' = 1.
Proof.
  destruct (processReferralReward_repeat_after_cycle 1000 2000 200 1
              (singleAccountDb (referrerAwaiting 7)) (referrerAwaiting 7)
              (User.referrals (referrerWith 7)) (Referral.mk 200 0 false ref_pending) []
              ltac:(vm_compute; reflexivity) ltac:(vm_compute; reflexivity)
              ltac:(vm_compute; repeat constructor; discriminate)
              ltac:(reflexivity) ltac:(vm_compute; discriminate))
    as (referrer' & Hu & _ & Ha & _ & H8 & _).
  exists referrer'. split; [exact Hu|]. split; [exact Ha|].
  rewrite H8. vm_compute. reflexivity.
Defined.
